(** * An OAuth 2.0 authorization server with PKCE and dynamic registration

    A shallow embedding of the server under [server/app]: the in-memory
    storage ([storage.py]), the PKCE helpers ([oauth/pkce.py]), dynamic
    client registration ([oauth/dcr.py]), the authorization endpoint
    ([oauth/authorize.py]) and the token endpoint ([oauth/token.py]).

    Conventions.
    - A Python [str] is a Rocq [string] holding the UTF-8 bytes of the text,
      so [s.encode('utf-8')] only changes the type; a [bytes] object is a
      list of integers in [0, 256).
    - A naive UTC [datetime] is the number of microseconds since the epoch.
    - A Python [dict] is a [gmap]; [Optional[T]] is [option T].
    - The handlers are programs over atomic operations (reading the clock,
      drawing random text, calling one storage method); a program is run
      alone by [run] and against other handlers by [interleave]. *)

From Stdlib Require Import ZArith String Ascii List Lia.
From stdpp Require Import gmap strings list fin_maps finite.

(** ** Python values *)

Module Py.
Local Open Scope Z_scope.

(** A [bytes] object. *)
Definition bytes := list Z.

Definition ord (c : ascii) : Z := Z.of_N (N_of_ascii c).
Definition chr (z : Z) : ascii := ascii_of_N (Z.to_N z).

(** [s.encode('utf-8')] and [b.decode('utf-8')]. *)
Definition encode_utf8 (s : string) : bytes := map ord (list_ascii_of_string s).
Definition decode_utf8 (b : bytes) : string := string_of_list_ascii (map chr b).

(** [s.rstrip(c)] for a one-character argument. *)
Fixpoint rstrip (c : ascii) (s : string) : string :=
  match s with
  | EmptyString => EmptyString
  | String x s' =>
      match rstrip c s' with
      | EmptyString => if Ascii.eqb x c then EmptyString else String x EmptyString
      | r => String x r
      end
  end.

(** [not s] for an [Optional[str]]: [None] and the empty text are falsy.
    [nonempty s] returns the text when [s] is truthy. *)
Definition nonempty (s : option string) : option string :=
  match s with
  | Some EmptyString => None
  | Some t => Some t
  | None => None
  end.

(** [a or b] on optional text. *)
Definition or_else (a : option string) (b : option string) : option string :=
  match nonempty a with
  | Some t => Some t
  | None => b
  end.

(** The number of character positions a left-to-right comparison that stops
    at the first difference looks at before it answers. [==] on [str]
    answers at once when the lengths differ. *)
Fixpoint first_difference (a b : string) : nat :=
  match a, b with
  | String x a', String y b' =>
      if Ascii.eqb x y then S (first_difference a' b') else 1%nat
  | _, _ => 0%nat
  end.

Definition eq_steps (a b : string) : nat :=
  if Nat.eqb (String.length a) (String.length b) then first_difference a b else 0%nat.

(** The number of positions a fixed-time comparison such as
    [secrets.compare_digest] looks at: all of them. *)
Definition compare_digest_steps (a b : string) : nat :=
  if Nat.eqb (String.length a) (String.length b) then String.length a else 0%nat.
End Py.

(** ** SHA-256 (FIPS 180-4), the function behind [hashlib.sha256] *)

Module Sha256.
Local Open Scope Z_scope.

Definition wrap32 (x : Z) : Z := x mod 2 ^ 32.
Definition add32 (x y : Z) : Z := wrap32 (x + y).
Definition rotr (n x : Z) : Z :=
  Z.lor (Z.shiftr x n) (wrap32 (Z.shiftl x (32 - n))).
Definition not32 (x : Z) : Z := Z.lxor x (2 ^ 32 - 1).

Definition Ch (x y z : Z) : Z := Z.lxor (Z.land x y) (Z.land (not32 x) z).
Definition Maj (x y z : Z) : Z :=
  Z.lxor (Z.lxor (Z.land x y) (Z.land x z)) (Z.land y z).
Definition Sum0 (x : Z) : Z := Z.lxor (Z.lxor (rotr 2 x) (rotr 13 x)) (rotr 22 x).
Definition Sum1 (x : Z) : Z := Z.lxor (Z.lxor (rotr 6 x) (rotr 11 x)) (rotr 25 x).
Definition sig0 (x : Z) : Z := Z.lxor (Z.lxor (rotr 7 x) (rotr 18 x)) (Z.shiftr x 3).
Definition sig1 (x : Z) : Z := Z.lxor (Z.lxor (rotr 17 x) (rotr 19 x)) (Z.shiftr x 10).

(** Round constants: the fractional parts of the cube roots of the first
    sixty-four primes, in decimal. *)
Definition round_constants : list Z :=
  [1116352408; 1899447441; 3049323471; 3921009573; 961987163; 1508970993;
   2453635748; 2870763221; 3624381080; 310598401; 607225278; 1426881987;
   1925078388; 2162078206; 2614888103; 3248222580; 3835390401; 4022224774;
   264347078; 604807628; 770255983; 1249150122; 1555081692; 1996064986;
   2554220882; 2821834349; 2952996808; 3210313671; 3336571891; 3584528711;
   113926993; 338241895; 666307205; 773529912; 1294757372; 1396182291;
   1695183700; 1986661051; 2177026350; 2456956037; 2730485921; 2820302411;
   3259730800; 3345764771; 3516065817; 3600352804; 4094571909; 275423344;
   430227734; 506948616; 659060556; 883997877; 958139571; 1322822218;
   1537002063; 1747873779; 1955562222; 2024104815; 2227730452; 2361852424;
   2428436474; 2756734187; 3204031479; 3329325298].

(** The eight working words. *)
Record hash := Hash { ha : Z; hb : Z; hc : Z; hd : Z; he : Z; hf : Z; hg : Z; hh : Z }.

Definition initial_hash : hash :=
  Hash 1779033703 3144134277 1013904242 2773480762
       1359893119 2600822924 528734635 1541459225.

(** Big-endian words of a block. *)
Fixpoint words_of_bytes (b : Py.bytes) : list Z :=
  match b with
  | b0 :: b1 :: b2 :: b3 :: rest =>
      (b0 * 2 ^ 24 + b1 * 2 ^ 16 + b2 * 2 ^ 8 + b3) :: words_of_bytes rest
  | _ => []
  end.

Definition bytes_of_word (x : Z) : Py.bytes :=
  [x / 2 ^ 24 mod 256; x / 2 ^ 16 mod 256; x / 2 ^ 8 mod 256; x mod 256].

(** The message schedule: [win] holds the sixteen latest words, oldest
    first. *)
Fixpoint schedule (n : nat) (win : list Z) : list Z :=
  match n with
  | O => []
  | S n' =>
      let w := add32 (add32 (sig1 (nth 14 win 0)) (nth 9 win 0))
                     (add32 (sig0 (nth 1 win 0)) (nth 0 win 0)) in
      w :: schedule n' (tl win ++ [w])
  end.

Definition round (s : hash) (kw : Z * Z) : hash :=
  let t1 := add32 (add32 (add32 (hh s) (Sum1 (he s))) (Ch (he s) (hf s) (hg s)))
                  (add32 (fst kw) (snd kw)) in
  let t2 := add32 (Sum0 (ha s)) (Maj (ha s) (hb s) (hc s)) in
  Hash (add32 t1 t2) (ha s) (hb s) (hc s) (add32 (hd s) t1) (he s) (hf s) (hg s).

Definition compress (H : hash) (block : Py.bytes) : hash :=
  let w16 := words_of_bytes block in
  let s := fold_left round (combine round_constants (w16 ++ schedule 48 w16)) H in
  Hash (add32 (ha H) (ha s)) (add32 (hb H) (hb s)) (add32 (hc H) (hc s))
       (add32 (hd H) (hd s)) (add32 (he H) (he s)) (add32 (hf H) (hf s))
       (add32 (hg H) (hg s)) (add32 (hh H) (hh s)).

(** Padding: a one bit, zeros up to 56 modulo 64, the bit length on eight
    bytes. *)
Definition pad (m : Py.bytes) : Py.bytes :=
  let len := Z.of_nat (length m) in
  let bits := 8 * len in
  m ++ [128] ++ repeat 0 (Z.to_nat ((55 - len) mod 64))
    ++ bytes_of_word (bits / 2 ^ 32) ++ bytes_of_word bits.

(** Bytes are absorbed one at a time; a full buffer of 64 is compressed. *)
Definition absorb (st : hash * Py.bytes) (b : Z) : hash * Py.bytes :=
  let buf := snd st ++ [b] in
  if Nat.eqb (length buf) 64 then (compress (fst st) buf, []) else (fst st, buf).

Definition bytes_of_hash (H : hash) : Py.bytes :=
  bytes_of_word (ha H) ++ bytes_of_word (hb H) ++ bytes_of_word (hc H)
    ++ bytes_of_word (hd H) ++ bytes_of_word (he H) ++ bytes_of_word (hf H)
    ++ bytes_of_word (hg H) ++ bytes_of_word (hh H).

(** [hashlib.sha256(m).digest()]. *)
Definition digest (m : Py.bytes) : Py.bytes :=
  bytes_of_hash (fst (fold_left absorb (pad m) (initial_hash, []))).
End Sha256.

(** ** URL-safe Base64, the function behind [base64.urlsafe_b64encode] *)

Module Base64.
Local Open Scope Z_scope.

(** The code of the character for a six-bit value: [A-Z], [a-z], [0-9],
    then [-] and [_]. *)
Definition alphabet (v : Z) : Z :=
  if v <? 26 then 65 + v
  else if v <? 52 then 71 + v
  else if v <? 62 then v - 4
  else if v =? 62 then 45
  else 95.

Definition padding : Z := 61.

Fixpoint urlsafe_b64encode (b : Py.bytes) : Py.bytes :=
  match b with
  | [] => []
  | [x] => [alphabet (x / 4); alphabet (x mod 4 * 16); padding; padding]
  | [x; y] =>
      [alphabet (x / 4); alphabet (x mod 4 * 16 + y / 16);
       alphabet (y mod 16 * 4); padding]
  | x :: y :: z :: rest =>
      alphabet (x / 4) :: alphabet (x mod 4 * 16 + y / 16)
        :: alphabet (y mod 16 * 4 + z / 64) :: alphabet (z mod 64)
        :: urlsafe_b64encode rest
  end.
End Base64.

(** ** [oauth/pkce.py] *)

(** [models.CodeChallengeMethod]. *)
Inductive CodeChallengeMethod := S256 | PLAIN.

(** [CodeChallengeMethod(value)]: the member with that value, if any. *)
Definition CodeChallengeMethod_of_value (v : string) : option CodeChallengeMethod :=
  if String.eqb v "S256" then Some S256
  else if String.eqb v "plain" then Some PLAIN
  else None.

(** A Python exception caught inside a function, by its message. *)
Definition Exception := string.

Definition generate_code_challenge (code_verifier : string)
    (method : CodeChallengeMethod) : Exception + string :=
  match method with
  | S256 =>
      let digest := Sha256.digest (Py.encode_utf8 code_verifier) in
      let challenge := Py.decode_utf8 (Base64.urlsafe_b64encode digest) in
      inr (Py.rstrip "="%char challenge)
  | PLAIN => inr code_verifier
  end.

Definition verify_code_challenge (code_verifier code_challenge : string)
    (method : CodeChallengeMethod) : bool :=
  match generate_code_challenge code_verifier method with
  | inr expected_challenge => String.eqb expected_challenge code_challenge
  | inl _ => false
  end.

(** ** [models.py]: the stored entities

    Field names carry a prefix because several models share them. *)

Definition datetime := Z.

(** [timedelta(minutes=m)], [timedelta(days=d)] in microseconds. *)
Definition timedelta_minutes (m : Z) : Z := (m * 60000000)%Z.
Definition timedelta_days (d : Z) : Z := (d * 86400000000)%Z.

Record RegisteredClient := {
  rc_client_id : string;
  rc_client_secret : option string;
  rc_redirect_uris : list string;
  rc_client_name : option string;
  rc_client_uri : option string;
  rc_scope : option string;
  rc_grant_types : list string;
  rc_response_types : list string;
  rc_created_at : datetime
}.

Record AuthorizationCode := {
  ac_code : string;
  ac_client_id : string;
  ac_redirect_uri : string;
  ac_scope : option string;
  ac_code_challenge : string;
  ac_code_challenge_method : CodeChallengeMethod;
  ac_user_id : string;
  ac_expires_at : datetime;
  ac_used : bool
}.

Record RefreshToken := {
  rt_token : string;
  rt_client_id : string;
  rt_user_id : string;
  rt_scope : option string;
  rt_expires_at : datetime;
  rt_revoked : bool
}.

(** [auth_code.used = True] and [refresh_token.revoked = True]. *)
Definition set_used (a : AuthorizationCode) : AuthorizationCode :=
  {| ac_code := ac_code a; ac_client_id := ac_client_id a;
     ac_redirect_uri := ac_redirect_uri a; ac_scope := ac_scope a;
     ac_code_challenge := ac_code_challenge a;
     ac_code_challenge_method := ac_code_challenge_method a;
     ac_user_id := ac_user_id a; ac_expires_at := ac_expires_at a;
     ac_used := true |}.

Definition set_revoked (r : RefreshToken) : RefreshToken :=
  {| rt_token := rt_token r; rt_client_id := rt_client_id r;
     rt_user_id := rt_user_id r; rt_scope := rt_scope r;
     rt_expires_at := rt_expires_at r; rt_revoked := true |}.

(** [models.ClientRegistrationRequest] and [models.ClientRegistrationResponse]. *)
Record ClientRegistrationRequest := {
  req_redirect_uris : list string;
  req_client_name : option string;
  req_client_uri : option string;
  req_scope : option string;
  req_grant_types : option (list string);
  req_response_types : option (list string)
}.

Record ClientRegistrationResponse := {
  resp_client_id : string;
  resp_client_secret : option string;
  resp_client_secret_expires_at : Z;
  resp_redirect_uris : list string;
  resp_client_name : option string;
  resp_client_uri : option string;
  resp_scope : option string;
  resp_grant_types : list string;
  resp_response_types : list string;
  resp_registration_client_uri : option string;
  resp_registration_access_token : option string
}.

(** [config.Settings], the fields the handlers read. *)
Record Settings := {
  SERVER_URL : string;
  JWT_SECRET_KEY : string;
  JWT_ALGORITHM : string;
  JWT_ACCESS_TOKEN_EXPIRE_MINUTES : Z;
  OAUTH_AUTHORIZATION_CODE_EXPIRE_MINUTES : Z;
  OAUTH_REFRESH_TOKEN_EXPIRE_DAYS : Z
}.

Definition default_settings : Settings := {|
  SERVER_URL := "http://localhost:8000";
  JWT_SECRET_KEY := "dev-secret-key-change-in-production";
  JWT_ALGORITHM := "HS256";
  JWT_ACCESS_TOKEN_EXPIRE_MINUTES := 60;
  OAUTH_AUTHORIZATION_CODE_EXPIRE_MINUTES := 10;
  OAUTH_REFRESH_TOKEN_EXPIRE_DAYS := 30
|}.

(** ** [storage.py]

    A stored object is a record value: the handlers read the fields of an
    object they fetched earlier, and the only fields ever assigned after an
    object is stored are [used] and [revoked], which the handlers read
    through the storage methods only. The methods that consult the clock act
    on the whole process; the others act on the storage. *)

Record InMemoryStorage := {
  clients : gmap string RegisteredClient;
  authorization_codes : gmap string AuthorizationCode;
  refresh_tokens : gmap string RefreshToken
}.

Definition empty_storage : InMemoryStorage :=
  {| clients := ∅; authorization_codes := ∅; refresh_tokens := ∅ |}.

Definition with_clients (f : gmap string RegisteredClient → gmap string RegisteredClient)
    (st : InMemoryStorage) : InMemoryStorage :=
  {| clients := f (clients st); authorization_codes := authorization_codes st;
     refresh_tokens := refresh_tokens st |}.

Definition with_authorization_codes
    (f : gmap string AuthorizationCode → gmap string AuthorizationCode)
    (st : InMemoryStorage) : InMemoryStorage :=
  {| clients := clients st; authorization_codes := f (authorization_codes st);
     refresh_tokens := refresh_tokens st |}.

Definition with_refresh_tokens (f : gmap string RefreshToken → gmap string RefreshToken)
    (st : InMemoryStorage) : InMemoryStorage :=
  {| clients := clients st; authorization_codes := authorization_codes st;
     refresh_tokens := f (refresh_tokens st) |}.

(** The process: the global [storage], the clock as the sequence of its
    future readings, and the random source as the sequence of its future
    draws. *)
Record World := {
  storage : InMemoryStorage;
  clock : nat → datetime;
  ticks : nat;
  entropy : nat → string;
  draws : nat
}.

Definition with_storage (f : InMemoryStorage → InMemoryStorage) (w : World) : World :=
  {| storage := f (storage w); clock := clock w; ticks := ticks w;
     entropy := entropy w; draws := draws w |}.

(** [datetime.utcnow()]. *)
Definition utcnow (w : World) : datetime * World :=
  (clock w (ticks w),
   {| storage := storage w; clock := clock w; ticks := S (ticks w);
      entropy := entropy w; draws := draws w |}).

(** One draw from [secrets] or [uuid]. *)
Definition draw (w : World) : string * World :=
  (entropy w (draws w),
   {| storage := storage w; clock := clock w; ticks := ticks w;
      entropy := entropy w; draws := S (draws w) |}).

Definition store_client (client : RegisteredClient) (st : InMemoryStorage) : InMemoryStorage :=
  with_clients <[rc_client_id client := client]> st.

Definition get_client (client_id : string) (st : InMemoryStorage) : option RegisteredClient :=
  clients st !! client_id.

Definition client_exists (client_id : string) (st : InMemoryStorage) : bool :=
  bool_decide (is_Some (clients st !! client_id)).

Definition store_authorization_code (auth_code : AuthorizationCode)
    (st : InMemoryStorage) : InMemoryStorage :=
  with_authorization_codes <[ac_code auth_code := auth_code]> st.

Definition get_authorization_code (code : string) (w : World)
    : option AuthorizationCode * World :=
  match authorization_codes (storage w) !! code with
  | None => (None, w)
  | Some auth_code =>
      let (now, w) := utcnow w in
      if (now >? ac_expires_at auth_code)%Z then (None, w)
      else if ac_used auth_code then (None, w)
      else (Some auth_code, w)
  end.

Definition mark_code_as_used (code : string) (w : World) : bool * World :=
  match authorization_codes (storage w) !! code with
  | None => (false, w)
  | Some auth_code =>
      if ac_used auth_code then (false, w)
      else
        let (now, w) := utcnow w in
        if (now >? ac_expires_at auth_code)%Z then (false, w)
        else (true, with_storage (with_authorization_codes <[code := set_used auth_code]>) w)
  end.

Definition cleanup_expired_codes (w : World) : World :=
  let (now, w) := utcnow w in
  with_storage
    (with_authorization_codes (filter (λ kv, (ac_expires_at kv.2 > now)%Z))) w.

Definition store_refresh_token (refresh_token : RefreshToken)
    (st : InMemoryStorage) : InMemoryStorage :=
  with_refresh_tokens <[rt_token refresh_token := refresh_token]> st.

Definition get_refresh_token (token : string) (w : World) : option RefreshToken * World :=
  match refresh_tokens (storage w) !! token with
  | None => (None, w)
  | Some refresh_token =>
      let (now, w) := utcnow w in
      if (now >? rt_expires_at refresh_token)%Z then (None, w)
      else if rt_revoked refresh_token then (None, w)
      else (Some refresh_token, w)
  end.

Definition revoke_refresh_token (token : string) (st : InMemoryStorage) : InMemoryStorage :=
  with_refresh_tokens (alter set_revoked token) st.

Definition cleanup_expired_tokens (w : World) : World :=
  let (now, w) := utcnow w in
  with_storage (with_refresh_tokens (filter (λ kv, (rt_expires_at kv.2 > now)%Z))) w.

Definition cleanup_all (w : World) : World :=
  cleanup_expired_tokens (cleanup_expired_codes w).

Definition reset (st : InMemoryStorage) : InMemoryStorage := empty_storage.

(** ** Responses, errors and access tokens *)

(** [fastapi.HTTPException]. *)
Record HTTPException := {
  status_code : Z;
  detail : string;
  headers : list (string * string)
}.

Definition http_error (code : Z) (msg : string) : HTTPException :=
  {| status_code := code; detail := msg; headers := [] |}.

(** The claim set of an access token, as [jwt.encode] serialises it: the two
    instants are whole seconds. *)
Record Claims := {
  sub : string;
  claim_client_id : string;
  claim_scope : string;
  exp : Z;
  iat : Z;
  iss : string;
  aud : string
}.

(** A signed token, symbolically: the claim set, the algorithm named in its
    header and the key its signature was computed with. A token whose
    signature was altered is one signed with some other key. *)
Record JWT := {
  jwt_alg : string;
  jwt_signed_with : string;
  jwt_claims : Claims
}.

(** [timegm(d.utctimetuple())]: whole seconds. *)
Definition timegm (d : datetime) : Z := (d / 1000000)%Z.

(** [jose.jwt.encode(claims, key, algorithm)]. *)
Definition jwt_encode (claims : Claims) (key algorithm : string) : JWT :=
  {| jwt_alg := algorithm; jwt_signed_with := key; jwt_claims := claims |}.

(** [jose.jwt.decode(token, key, algorithms, audience)] at clock reading
    [now]: the signature, then the expiry, then the audience. The result on
    the left is the message of the [JWTError] raised. *)
Definition jwt_decode (now : datetime) (token : JWT) (key : string)
    (algorithms : list string) (audience : string) : Exception + Claims :=
  if negb (bool_decide (jwt_alg token ∈ algorithms)) then
    inl "The specified alg value is not allowed"%string
  else if negb (String.eqb (jwt_signed_with token) key) then
    inl "Signature verification failed."%string
  else if (exp (jwt_claims token) <? timegm now)%Z then
    inl "Signature has expired."%string
  else if negb (String.eqb (aud (jwt_claims token)) audience) then
    inl "Invalid audience"%string
  else inr (jwt_claims token).

(** [models.TokenResponse]. *)
Record TokenResponse := {
  access_token : JWT;
  token_type : string;
  expires_in : Z;
  tr_refresh_token : option string;
  tr_scope : option string
}.

(** ** Handlers as programs over atomic operations *)

Inductive Op : Type → Type :=
| Utcnow : Op datetime
| TokenUrlsafe (nbytes : Z) : Op string
| Uuid4Hex : Op string
| StoreClient (client : RegisteredClient) : Op unit
| GetClient (client_id : string) : Op (option RegisteredClient)
| StoreAuthorizationCode (auth_code : AuthorizationCode) : Op unit
| GetAuthorizationCode (code : string) : Op (option AuthorizationCode)
| MarkCodeAsUsed (code : string) : Op bool
| StoreRefreshToken (refresh_token : RefreshToken) : Op unit
| GetRefreshToken (token : string) : Op (option RefreshToken).

(** One operation, run without interruption. *)
Definition exec {X} (op : Op X) (w : World) : X * World :=
  match op in Op X return X * World with
  | Utcnow => utcnow w
  | TokenUrlsafe _ => draw w
  | Uuid4Hex => draw w
  | StoreClient client => (tt, with_storage (store_client client) w)
  | GetClient client_id => (get_client client_id (storage w), w)
  | StoreAuthorizationCode auth_code =>
      (tt, with_storage (store_authorization_code auth_code) w)
  | GetAuthorizationCode code => get_authorization_code code w
  | MarkCodeAsUsed code => mark_code_as_used code w
  | StoreRefreshToken refresh_token =>
      (tt, with_storage (store_refresh_token refresh_token) w)
  | GetRefreshToken token => get_refresh_token token w
  end.

(** A handler: it returns, raises an [HTTPException], or performs an
    operation and goes on with its result. *)
Inductive Prog (A : Type) : Type :=
| Ret (a : A)
| Raise (e : HTTPException)
| Vis {X : Type} (op : Op X) (k : X → Prog A).
Arguments Ret {A} a.
Arguments Raise {A} e.
Arguments Vis {A X} op k.

Fixpoint bind {A B} (p : Prog A) (f : A → Prog B) : Prog B :=
  match p with
  | Ret a => f a
  | Raise e => Raise e
  | Vis op k => Vis op (λ x, bind (k x) f)
  end.

#[global] Instance Prog_ret : MRet Prog := @Ret.
#[global] Instance Prog_bind : MBind Prog := λ A B f p, bind p f.

Definition call {X} (op : Op X) : Prog X := Vis op Ret.

(** How a handler ended. *)
Inductive Outcome (A : Type) : Type :=
| Returned (a : A)
| Raised (e : HTTPException).
Arguments Returned {A} a.
Arguments Raised {A} e.

(** A handler run from start to end with nothing in between. *)
Fixpoint run {A} (p : Prog A) (w : World) : Outcome A * World :=
  match p with
  | Ret a => (Returned a, w)
  | Raise e => (Raised e, w)
  | Vis op k => let (x, w') := exec op w in run (k x) w'
  end.

(** ** [oauth/dcr.py] *)

Definition generate_client_id : Prog string :=
  hex ← call Uuid4Hex; mret ("client_" +:+ hex).

Definition generate_client_secret : Prog string := call (TokenUrlsafe 32).

(** [value or fallback] on an optional list. *)
Definition list_or (value : option (list string)) (fallback : list string) : list string :=
  match value with
  | Some (x :: l) => x :: l
  | _ => fallback
  end.

Definition register_client (request : ClientRegistrationRequest)
    : Prog ClientRegistrationResponse :=
  if bool_decide (req_redirect_uris request = []) then
    Raise (http_error 400 "redirect_uris is required and must not be empty")
  else
    client_id ← generate_client_id;
    client_secret ← generate_client_secret;
    created_at ← call Utcnow;
    let client := {|
      rc_client_id := client_id;
      rc_client_secret := Some client_secret;
      rc_redirect_uris := req_redirect_uris request;
      rc_client_name := req_client_name request;
      rc_client_uri := Py.nonempty (req_client_uri request);
      rc_scope := Py.or_else (req_scope request) (Some "mcp:tools:read mcp:tools:execute"%string);
      rc_grant_types := list_or (req_grant_types request) ["authorization_code"; "refresh_token"]%string;
      rc_response_types := list_or (req_response_types request) ["code"%string];
      rc_created_at := created_at |} in
    _ ← call (StoreClient client);
    mret {|
      resp_client_id := client_id;
      resp_client_secret := Some client_secret;
      resp_client_secret_expires_at := 0;
      resp_redirect_uris := rc_redirect_uris client;
      resp_client_name := rc_client_name client;
      resp_client_uri := rc_client_uri client;
      resp_scope := rc_scope client;
      resp_grant_types := rc_grant_types client;
      resp_response_types := rc_response_types client;
      resp_registration_client_uri := None;
      resp_registration_access_token := None |}.

(** ** [oauth/authorize.py] *)

Definition generate_authorization_code : Prog string := call (TokenUrlsafe 32).

(** The handler returns a redirect; the model returns its URL. *)
Definition authorize (settings : Settings)
    (response_type client_id redirect_uri code_challenge code_challenge_method : string)
    (scope state : option string) : Prog string :=
  if negb (String.eqb response_type "code") then
    Raise (http_error 400 "Unsupported response_type. Only 'code' is supported.")
  else
    client ← call (GetClient client_id);
    match client with
    | None => Raise (http_error 400 "Invalid client_id")
    | Some client =>
        if negb (bool_decide (redirect_uri ∈ rc_redirect_uris client)) then
          Raise (http_error 400 "Invalid redirect_uri")
        else if String.eqb code_challenge "" then
          Raise (http_error 400 "code_challenge is required")
        else
          match CodeChallengeMethod_of_value code_challenge_method with
          | None =>
              Raise (http_error 400
                ("Unsupported code_challenge_method: " +:+ code_challenge_method))
          | Some challenge_method =>
              code ← generate_authorization_code;
              now ← call Utcnow;
              let auth_code := {|
                ac_code := code;
                ac_client_id := client_id;
                ac_redirect_uri := redirect_uri;
                ac_scope := Py.or_else scope (rc_scope client);
                ac_code_challenge := code_challenge;
                ac_code_challenge_method := challenge_method;
                ac_user_id := "mock_user_123";
                ac_expires_at :=
                  (now + timedelta_minutes (OAUTH_AUTHORIZATION_CODE_EXPIRE_MINUTES settings))%Z;
                ac_used := false |} in
              _ ← call (StoreAuthorizationCode auth_code);
              mret (redirect_uri +:+ "?code=" +:+ code +:+
                    match Py.nonempty state with
                    | Some st => "&state=" +:+ st
                    | None => ""
                    end)
          end
    end.

(** ** [oauth/token.py] *)

Definition generate_refresh_token : Prog string := call (TokenUrlsafe 32).

Definition create_access_token (settings : Settings) (client_id user_id : string)
    (scope : option string) : Prog (JWT * Z) :=
  let expires_in := (JWT_ACCESS_TOKEN_EXPIRE_MINUTES settings * 60)%Z in
  now ← call Utcnow;
  let expires_at := (now + timedelta_minutes (JWT_ACCESS_TOKEN_EXPIRE_MINUTES settings))%Z in
  issued_at ← call Utcnow;
  let claims := {|
    sub := user_id;
    claim_client_id := client_id;
    claim_scope := default ""%string (Py.nonempty scope);
    exp := timegm expires_at;
    iat := timegm issued_at;
    iss := SERVER_URL settings;
    aud := SERVER_URL settings |} in
  let token := jwt_encode claims (JWT_SECRET_KEY settings) (JWT_ALGORITHM settings) in
  mret (token, expires_in).

(** The clock reading [now] is the one [jwt.decode] takes for the expiry
    check. *)
Definition verify_access_token (settings : Settings) (now : datetime) (token : JWT)
    : Outcome Claims :=
  match jwt_decode now token (JWT_SECRET_KEY settings) [JWT_ALGORITHM settings]
          (SERVER_URL settings) with
  | inr payload => Returned payload
  | inl e =>
      Raised {| status_code := 401;
                detail := "Invalid token: " +:+ e;
                headers := [("WWW-Authenticate", "Bearer")]%string |}
  end.

(** The form fields of [POST /oauth/token]. *)
Record TokenForm := {
  grant_type : string;
  code : option string;
  redirect_uri : option string;
  code_verifier : option string;
  refresh_token : option string;
  client_id : string;
  client_secret : option string
}.

Definition token_endpoint (settings : Settings) (form : TokenForm) : Prog TokenResponse :=
  client ← call (GetClient (client_id form));
  match client with
  | None => Raise (http_error 401 "Invalid client credentials")
  | Some client =>
      _ ← match client_secret form with
          | Some secret =>
              if negb (bool_decide (rc_client_secret client = Some secret)) then
                Raise (http_error 401 "Invalid client credentials")
              else Ret tt
          | None => Ret tt
          end;
      if String.eqb (grant_type form) "authorization_code" then
        match Py.nonempty (code form), Py.nonempty (redirect_uri form),
              Py.nonempty (code_verifier form) with
        | Some code, Some redirect_uri, Some code_verifier =>
            auth_code ← call (GetAuthorizationCode code);
            match auth_code with
            | None => Raise (http_error 400 "Invalid or expired authorization code")
            | Some auth_code =>
                if negb (String.eqb (ac_client_id auth_code) (client_id form)) then
                  Raise (http_error 400 "Authorization code was issued to different client")
                else if negb (String.eqb (ac_redirect_uri auth_code) redirect_uri) then
                  Raise (http_error 400 "Redirect URI mismatch")
                else if negb (verify_code_challenge code_verifier
                                (ac_code_challenge auth_code)
                                (ac_code_challenge_method auth_code)) then
                  Raise (http_error 400 "Invalid code_verifier")
                else
                  marked ← call (MarkCodeAsUsed code);
                  if negb marked then
                    Raise (http_error 400 "Authorization code already used or expired")
                  else
                    '(access_token, expires_in) ←
                      create_access_token settings (client_id form)
                        (ac_user_id auth_code) (ac_scope auth_code);
                    refresh_token_value ← generate_refresh_token;
                    now ← call Utcnow;
                    let refresh_token_obj := {|
                      rt_token := refresh_token_value;
                      rt_client_id := client_id form;
                      rt_user_id := ac_user_id auth_code;
                      rt_scope := ac_scope auth_code;
                      rt_expires_at :=
                        (now + timedelta_days (OAUTH_REFRESH_TOKEN_EXPIRE_DAYS settings))%Z;
                      rt_revoked := false |} in
                    _ ← call (StoreRefreshToken refresh_token_obj);
                    mret {| access_token := access_token;
                            token_type := "Bearer";
                            expires_in := expires_in;
                            tr_refresh_token := Some refresh_token_value;
                            tr_scope := ac_scope auth_code |}
            end
        | _, _, _ =>
            Raise (http_error 400 "code, redirect_uri, and code_verifier are required")
        end
      else if String.eqb (grant_type form) "refresh_token" then
        match Py.nonempty (refresh_token form) with
        | None => Raise (http_error 400 "refresh_token is required")
        | Some refresh_token =>
            refresh_token_obj ← call (GetRefreshToken refresh_token);
            match refresh_token_obj with
            | None => Raise (http_error 400 "Invalid or expired refresh token")
            | Some refresh_token_obj =>
                if negb (String.eqb (rt_client_id refresh_token_obj) (client_id form)) then
                  Raise (http_error 400 "Refresh token was issued to different client")
                else
                  '(access_token, expires_in) ←
                    create_access_token settings (client_id form)
                      (rt_user_id refresh_token_obj) (rt_scope refresh_token_obj);
                  mret {| access_token := access_token;
                          token_type := "Bearer";
                          expires_in := expires_in;
                          tr_refresh_token := Some refresh_token;
                          tr_scope := rt_scope refresh_token_obj |}
            end
        end
      else
        Raise (http_error 400 ("Unsupported grant_type: " +:+ grant_type form))
  end.

(** Handlers run one after the other, each to its end. *)
Fixpoint run_all {A} (ps : list (Prog A)) (w : World) : list (Outcome A) * World :=
  match ps with
  | [] => ([], w)
  | p :: ps' =>
      let (o, w') := run p w in
      let (os, w'') := run_all ps' w' in
      (o :: os, w'')
  end.

(** A request that passes the client check of the token endpoint. *)
Definition authenticates (client : RegisteredClient) (form : TokenForm) (w : World) : Prop :=
  get_client (client_id form) (storage w) = Some client ∧
  (client_secret form = None ∨ client_secret form = rc_client_secret client).

(** A refresh request presenting the token [tok]. *)
Definition presents (tok : string) (form : TokenForm) : Prop :=
  grant_type form = "refresh_token"%string ∧
  Py.nonempty (refresh_token form) = Some tok.

(** The comparisons of [verify_code_challenge] ([expected_challenge ==
    code_challenge]) and of the client-secret check ([client.client_secret !=
    client_secret]), measured in character positions looked at. *)
Definition verify_code_challenge_steps (code_verifier code_challenge : string)
    (method : CodeChallengeMethod) : nat :=
  match generate_code_challenge code_verifier method with
  | inr expected_challenge => Py.eq_steps expected_challenge code_challenge
  | inl _ => 0
  end.

Definition client_secret_check_steps (client : RegisteredClient) (secret : string) : nat :=
  match rc_client_secret client with
  | Some stored => Py.eq_steps stored secret
  | None => 0
  end.

(** ** Handlers running against one another

    The scheduler names a handler, which performs its next operation; a
    handler that has ended, or a name outside the pool, leaves everything as
    it is. *)

Definition finished {A} (p : Prog A) : bool :=
  match p with
  | Vis _ _ => false
  | _ => true
  end.

Definition sched_step {A} (pw : list (Prog A) * World) (i : nat) : list (Prog A) * World :=
  match pw.1 !! i with
  | Some (Vis op k) => let (x, w') := exec op pw.2 in (<[i := k x]> pw.1, w')
  | _ => pw
  end.

Definition interleave {A} (schedule : list nat) (pw : list (Prog A) * World)
    : list (Prog A) * World :=
  fold_left sched_step schedule pw.

(** [ends_within n p]: [p] ends after at most [n] operations, whatever they
    answer. *)
Fixpoint ends_within {A} (n : nat) (p : Prog A) {struct p} : Prop :=
  match p with
  | Vis op k =>
      match n with
      | O => False
      | S m => ∀ x, ends_within m (k x)
      end
  | _ => True
  end.

(** ** The race for one authorization code

    The handlers of a pool redeem the code stored under [c]. [fresh w] and
    [spent w] describe the process before and after the code is marked as
    used; nothing else about [w] is fixed. *)
Section race.
Context (client : RegisteredClient) (auth_code : AuthorizationCode) (c : string).

Definition fresh (w : World) : Prop :=
  clients (storage w) !! ac_client_id auth_code = Some client ∧
  (∀ n, (clock w n ≤ ac_expires_at auth_code)%Z) ∧
  authorization_codes (storage w) !! c = Some auth_code.

Definition spent (w : World) : Prop :=
  clients (storage w) !! ac_client_id auth_code = Some client ∧
  (∀ n, (clock w n ≤ ac_expires_at auth_code)%Z) ∧
  authorization_codes (storage w) !! c = Some (set_used auth_code).

(** The two rejections a redemption can meet once the code is spent. *)
Definition rejected (e : HTTPException) : Prop :=
  e = http_error 400 "Invalid or expired authorization code" ∨
  e = http_error 400 "Authorization code already used or expired".

(** A handler that has marked the code: it returns. *)
Fixpoint Winner {A} (p : Prog A) : Prop :=
  match p with
  | Ret _ => True
  | Raise _ => False
  | Vis op k => ∀ w, spent w → spent (exec op w).2 ∧ Winner (k (exec op w).1)
  end.

(** A handler that has seen the code spent: it raises a rejection. *)
Fixpoint Loser {A} (p : Prog A) : Prop :=
  match p with
  | Ret _ => False
  | Raise e => rejected e
  | Vis op k => ∀ w, spent w → spent (exec op w).2 ∧ Loser (k (exec op w).1)
  end.

(** A handler still on its way to the code: while the code is fresh its
    next operation keeps it fresh or marks it, and once the code is spent
    the handler goes on to lose. *)
Fixpoint Contender {A} (p : Prog A) : Prop :=
  match p with
  | Vis op k =>
      (∀ w, fresh w →
         (fresh (exec op w).2 ∧ Contender (k (exec op w).1)) ∨
         (spent (exec op w).2 ∧ Winner (k (exec op w).1))) ∧
      (∀ w, spent w →
         spent (exec op w).2 ∧
         (Contender (k (exec op w).1) ∨ Loser (k (exec op w).1)))
  | _ => False
  end.

(** A redemption request with matching parameters. *)
Definition matching (form : TokenForm) : Prop :=
  grant_type form = "authorization_code"%string ∧
  Py.nonempty (code form) = Some c ∧
  client_id form = ac_client_id auth_code ∧
  Py.nonempty (redirect_uri form) = Some (ac_redirect_uri auth_code) ∧
  (∃ verifier, Py.nonempty (code_verifier form) = Some verifier ∧
     verify_code_challenge verifier (ac_code_challenge auth_code)
       (ac_code_challenge_method auth_code) = true) ∧
  (client_secret form = None ∨ client_secret form = rc_client_secret client).

(** The pool while the race is on. *)
Definition race_invariant {A} (pw : list (Prog A) * World) : Prop :=
  (fresh pw.2 ∧ Forall Contender pw.1) ∨
  (spent pw.2 ∧ ∃ i p, pw.1 !! i = Some p ∧ Winner p ∧
     ∀ j q, j ≠ i → pw.1 !! j = Some q → Contender q ∨ Loser q).
End race.

(** ** The states the server reaches

    A handler has no point at which it yields to another, so the server
    runs the handlers of its requests one after the other, from an empty
    storage. *)

Inductive Request :=
| Register (request : ClientRegistrationRequest)
| Authorize (response_type client_id redirect_uri code_challenge
             code_challenge_method : string) (scope state : option string)
| Token (form : TokenForm).

Definition serve (settings : Settings) (w : World) (r : Request) : World :=
  match r with
  | Register request => (run (register_client request) w).2
  | Authorize response_type client_id redirect_uri code_challenge code_challenge_method
      scope state =>
      (run (authorize settings response_type client_id redirect_uri code_challenge
              code_challenge_method scope state) w).2
  | Token form => (run (token_endpoint settings form) w).2
  end.

Definition reachable (settings : Settings) (w : World) : Prop :=
  ∃ w0 requests,
    storage w0 = empty_storage ∧ w = fold_left (serve settings) requests w0.

(** Every stored client, code and refresh token has a scope. *)
Definition scoped (st : InMemoryStorage) : Prop :=
  (∀ k client, clients st !! k = Some client → is_Some (Py.nonempty (rc_scope client))) ∧
  (∀ k a, authorization_codes st !! k = Some a → is_Some (Py.nonempty (ac_scope a))) ∧
  (∀ k rt, refresh_tokens st !! k = Some rt → is_Some (Py.nonempty (rt_scope rt))).

(** ** Notions used to count verifiers and digests *)

(** The number a [bytes] object spells, least significant byte first. *)
Fixpoint number_of_bytes (b : Py.bytes) : Z :=
  match b with
  | [] => 0
  | x :: b' => x + 256 * number_of_bytes b'
  end%Z.

(** The [n]-character text that spells [z] in the URL-safe Base64 alphabet,
    least significant digit first: a family of verifiers. *)
Fixpoint verifier_of_number (n : nat) (z : Z) : string :=
  match n with
  | O => EmptyString
  | S n' => String (Py.chr (Base64.alphabet (z mod 64))) (verifier_of_number n' (z / 64))
  end.

(** A byte. *)
Definition is_byte (x : Z) : Prop := (0 ≤ x < 256)%Z.

(** ** Sample data for the worked examples *)

(** A clock that starts at [t0] and advances by one microsecond per reading
    for a hundred readings. *)
Definition sample_world (st : InMemoryStorage) (t0 : datetime) : World :=
  {| storage := st;
     clock := λ n, (t0 + Z.min (Z.of_nat n) 100)%Z;
     ticks := 0;
     entropy := λ n, String (ascii_of_nat (97 + n)) EmptyString;
     draws := 0 |}.

(** A clock that stands still at [t0]. *)
Definition frozen_world (st : InMemoryStorage) (t0 : datetime) : World :=
  {| storage := st;
     clock := λ _, t0;
     ticks := 0;
     entropy := λ n, String (ascii_of_nat (97 + n)) EmptyString;
     draws := 0 |}.

Definition world0 : World := sample_world empty_storage 1000%Z.

Definition sample_request (uris : list string) : ClientRegistrationRequest :=
  {| req_redirect_uris := uris; req_client_name := None; req_client_uri := None;
     req_scope := None; req_grant_types := None; req_response_types := None |}.

Definition sample_client : RegisteredClient :=
  {| rc_client_id := "client_a";
     rc_client_secret := Some "s3cret"%string;
     rc_redirect_uris := ["https://a/cb"%string];
     rc_client_name := None;
     rc_client_uri := None;
     rc_scope := Some "mcp:tools:read mcp:tools:execute"%string;
     rc_grant_types := ["authorization_code"; "refresh_token"]%string;
     rc_response_types := ["code"%string];
     rc_created_at := 0%Z |}.

(** The challenge is the one of RFC 7636, appendix B. *)
Definition sample_code : AuthorizationCode :=
  {| ac_code := "code1";
     ac_client_id := "client_a";
     ac_redirect_uri := "https://a/cb";
     ac_scope := Some "mcp:tools:read"%string;
     ac_code_challenge := "E9Melhoa2OwvFrEMTJguCHaoeK1t8URWbuGJSstw-cM";
     ac_code_challenge_method := S256;
     ac_user_id := "mock_user_123";
     ac_expires_at := 2000%Z;
     ac_used := false |}.

Definition sample_refresh : RefreshToken :=
  {| rt_token := "rtok";
     rt_client_id := "client_a";
     rt_user_id := "mock_user_123";
     rt_scope := Some "mcp:tools:read"%string;
     rt_expires_at := 5000%Z;
     rt_revoked := false |}.

Definition sample_storage : InMemoryStorage :=
  store_refresh_token sample_refresh
    (store_authorization_code sample_code (store_client sample_client empty_storage)).

Definition world1 : World := sample_world sample_storage 1000%Z.

Definition sample_verifier : string := "dBjftJeZ4CVP-mB92K27uhbUJU1p1r_wW1gFWFOEjXk".

Definition redeem_form : TokenForm :=
  {| grant_type := "authorization_code";
     code := Some "code1"%string;
     redirect_uri := Some "https://a/cb"%string;
     code_verifier := Some sample_verifier;
     refresh_token := None;
     client_id := "client_a";
     client_secret := None |}.

Definition refresh_form : TokenForm :=
  {| grant_type := "refresh_token";
     code := None;
     redirect_uri := None;
     code_verifier := None;
     refresh_token := Some "rtok"%string;
     client_id := "client_a";
     client_secret := None |}.

Definition sample_claims (expiry : Z) : Claims :=
  {| sub := "mock_user_123"; claim_client_id := "client_a";
     claim_scope := "mcp:tools:read"; exp := expiry; iat := 0%Z;
     iss := SERVER_URL default_settings; aud := SERVER_URL default_settings |}.

(** ** [oauth/pkce.py]: [generate_code_verifier] *)

(** [s[:n]] for a non-negative [n]. *)
Fixpoint slice_to (n : nat) (s : string) : string :=
  match n, s with
  | S n', String c s' => String c (slice_to n' s')
  | _, _ => EmptyString
  end.

(** [random_bytes] is what [secrets.token_bytes(length)] returned. *)
Definition generate_code_verifier (length : Z) (random_bytes : Py.bytes)
    : Exception + string :=
  if ((length <? 43) || (length >? 128))%Z then
    inl "Code verifier length must be between 43 and 128"%string
  else
    let verifier := Py.decode_utf8 (Base64.urlsafe_b64encode random_bytes) in
    let verifier := Py.rstrip "="%char verifier in
    inr (slice_to (Z.to_nat length) verifier).

(** ** [client.py]: [PKCEHelper] *)

Module PKCEHelper.
(** [random_bytes] is what [secrets.token_bytes(32)] returned. *)
Definition generate_code_verifier (random_bytes : Py.bytes) : string :=
  Py.rstrip "="%char (Py.decode_utf8 (Base64.urlsafe_b64encode random_bytes)).

Definition generate_code_challenge (verifier : string) : string :=
  let digest := Sha256.digest (Py.encode_utf8 verifier) in
  Py.rstrip "="%char (Py.decode_utf8 (Base64.urlsafe_b64encode digest)).
End PKCEHelper.

(** The characters of the URL-safe Base64 alphabet: letters, digits, [-]
    and [_]. *)
Definition urlsafe_char (c : ascii) : Prop :=
  (65 ≤ Py.ord c ≤ 90 ∨ 97 ≤ Py.ord c ≤ 122 ∨ 48 ≤ Py.ord c ≤ 57 ∨
   Py.ord c = 45 ∨ Py.ord c = 95)%Z.

Definition urlsafe_text (s : string) : Prop :=
  Forall urlsafe_char (list_ascii_of_string s).

(** ** [oauth/metadata.py] *)

Record AuthorizationServerMetadata := {
  as_issuer : string;
  as_authorization_endpoint : string;
  as_token_endpoint : string;
  as_registration_endpoint : string;
  as_response_types_supported : list string;
  as_grant_types_supported : list string;
  as_code_challenge_methods_supported : list string;
  as_token_endpoint_auth_methods_supported : list string;
  as_scopes_supported : option (list string)
}.

Record ProtectedResourceMetadata := {
  pr_resource : string;
  pr_authorization_servers : list string;
  pr_scopes_supported : list string;
  pr_bearer_methods_supported : list string
}.

Definition authorization_server_metadata (settings : Settings)
    : AuthorizationServerMetadata :=
  {| as_issuer := SERVER_URL settings;
     as_authorization_endpoint := SERVER_URL settings +:+ "/oauth/authorize";
     as_token_endpoint := SERVER_URL settings +:+ "/oauth/token";
     as_registration_endpoint := SERVER_URL settings +:+ "/oauth/register";
     as_response_types_supported := ["code"%string];
     as_grant_types_supported := ["authorization_code"; "refresh_token"]%string;
     as_code_challenge_methods_supported := ["S256"%string];
     as_token_endpoint_auth_methods_supported := ["none"; "client_secret_post"]%string;
     as_scopes_supported := Some ["mcp:tools:read"; "mcp:tools:execute"]%string |}.

Definition protected_resource_metadata (settings : Settings) : ProtectedResourceMetadata :=
  {| pr_resource := SERVER_URL settings;
     pr_authorization_servers := [SERVER_URL settings];
     pr_scopes_supported := ["mcp:tools:read"; "mcp:tools:execute"]%string;
     pr_bearer_methods_supported := ["header"%string] |}.


(** ** Notions used to follow a code after its redemption *)

(** The code stored under [c] is used, and [c] is never drawn again. *)
Definition spent_for_good_at (c : string) (w : World) : Prop :=
  (∃ a, authorization_codes (storage w) !! c = Some a ∧ ac_used a = true) ∧
  (∀ n, draws w ≤ n → entropy w n ≠ c).

(** ** Further sample data *)

Definition sample_client_b : RegisteredClient :=
  {| rc_client_id := "client_b";
     rc_client_secret := Some "b-secret"%string;
     rc_redirect_uris := ["https://b/cb"%string];
     rc_client_name := None;
     rc_client_uri := None;
     rc_scope := Some "mcp:tools:read mcp:tools:execute"%string;
     rc_grant_types := ["authorization_code"; "refresh_token"]%string;
     rc_response_types := ["code"%string];
     rc_created_at := 0%Z |}.

(** The sample storage with a second client registered. *)
Definition world2 : World := with_storage (store_client sample_client_b) world1.

(** The second client presenting the first client's refresh token. *)
Definition thief_form : TokenForm :=
  {| grant_type := "refresh_token";
     code := None;
     redirect_uri := None;
     code_verifier := None;
     refresh_token := Some "rtok"%string;
     client_id := "client_b";
     client_secret := None |}.

(** A grant the server does not know. *)
Definition password_form : TokenForm :=
  {| grant_type := "password";
     code := None;
     redirect_uri := None;
     code_verifier := None;
     refresh_token := None;
     client_id := "client_a";
     client_secret := None |}.

(** A refresh request presenting the first token the sample entropy
    draws. *)
Definition drawn_refresh_form : TokenForm :=
  {| grant_type := "refresh_token";
     code := None;
     redirect_uri := None;
     code_verifier := None;
     refresh_token := Some "a"%string;
     client_id := "client_a";
     client_secret := None |}.

(** The sample client alone in the storage. *)
Definition world_client : World :=
  sample_world (store_client sample_client empty_storage) 1000%Z.

(** The redemption of the first code the sample entropy draws. *)
Definition flow_form : TokenForm :=
  {| grant_type := "authorization_code";
     code := Some "a"%string;
     redirect_uri := Some "https://a/cb"%string;
     code_verifier := Some sample_verifier;
     refresh_token := None;
     client_id := "client_a";
     client_secret := Some "s3cret"%string |}.

(** ** The shape of the storage in the states the server reaches *)

(** Every entry is filed under its own identifier; every client has a
    secret and a redirect URI; every code and every refresh token belongs
    to a registered client and to the mock user; no refresh token is
    revoked. *)
Definition consistent (st : InMemoryStorage) : Prop :=
  (∀ k client, clients st !! k = Some client →
     rc_client_id client = k ∧ is_Some (rc_client_secret client) ∧
     rc_redirect_uris client ≠ []) ∧
  (∀ k a, authorization_codes st !! k = Some a →
     ac_code a = k ∧ is_Some (clients st !! ac_client_id a) ∧
     ac_user_id a = "mock_user_123"%string) ∧
  (∀ k rt, refresh_tokens st !! k = Some rt →
     rt_token rt = k ∧ is_Some (clients st !! rt_client_id rt) ∧
     rt_user_id rt = "mock_user_123"%string ∧ rt_revoked rt = false).

(** The sample client as it would be had it registered for the
    authorization-code grant alone, with another redirect URI and scope. *)
Definition sample_client_narrow : RegisteredClient :=
  {| rc_client_id := "client_a";
     rc_client_secret := Some "s3cret"%string;
     rc_redirect_uris := ["https://elsewhere/cb"%string];
     rc_client_name := None;
     rc_client_uri := None;
     rc_scope := Some "mcp:tools:read"%string;
     rc_grant_types := ["authorization_code"%string];
     rc_response_types := ["code"%string];
     rc_created_at := 0%Z |}.

(** * Theorems *)

Example rfc7636_appendix_b :
  generate_code_challenge "dBjftJeZ4CVP-mB92K27uhbUJU1p1r_wW1gFWFOEjXk" S256
  = inr "E9Melhoa2OwvFrEMTJguCHaoeK1t8URWbuGJSstw-cM"%string.
Proof. vm_compute. reflexivity. Qed.

Example sha256_abc :
  Sha256.digest (Py.encode_utf8 "abc")
  = [186; 120; 22; 191; 143; 1; 207; 234; 65; 65; 64; 222; 93; 174; 34; 35; 176;
     3; 97; 163; 150; 23; 122; 156; 180; 16; 255; 97; 242; 0; 21; 173]%Z.
Proof. vm_compute. reflexivity. Qed.

(** ** Running programs *)

Lemma run_bind {A B} (p : Prog A) (f : A → Prog B) (w : World) :
  run (p ≫= f) w =
  match run p w with
  | (Returned a, w') => run (f a) w'
  | (Raised e, w') => (Raised e, w')
  end.
Proof.
  unfold mbind, Prog_bind.
  revert w. induction p as [a|e|X op k IH]; intros w; try reflexivity.
  simpl. destruct (exec op w) as [x w']. apply IH.
Qed.

(** ** Registration *)

(** C9: registering with an empty list of redirect URIs is refused with
    status 400; registering with a non-empty list returns a client
    identifier under which the storage then holds the client record, with
    the secret and the redirect URIs of the response. *)
Theorem C9_register_then_lookup (request : ClientRegistrationRequest) (w : World) :
  (req_redirect_uris request = [] →
   run (register_client request) w =
     (Raised (http_error 400 "redirect_uris is required and must not be empty"), w)) ∧
  (req_redirect_uris request ≠ [] →
   ∃ response client w',
     run (register_client request) w = (Returned response, w') ∧
     get_client (resp_client_id response) (storage w') = Some client ∧
     rc_client_id client = resp_client_id response ∧
     rc_client_secret client = resp_client_secret response ∧
     rc_redirect_uris client = req_redirect_uris request ∧
     resp_redirect_uris response = req_redirect_uris request).
Proof.
  split; intros Huris; unfold register_client.
  - rewrite bool_decide_eq_true_2 by done. reflexivity.
  - rewrite bool_decide_eq_false_2 by done.
    eexists _, _, _. split; [reflexivity|].
    cbn. unfold get_client, store_client. cbn.
    split; [apply lookup_insert_eq|done].
Qed.

Lemma C9_register_then_lookup_witness :
  run (register_client (sample_request [])) world0 =
    (Raised (http_error 400 "redirect_uris is required and must not be empty"),
     world0) ∧
  ∃ response client w',
    run (register_client (sample_request ["https://a/cb"%string]))
        world0 = (Returned response, w') ∧
    get_client (resp_client_id response) (storage w') = Some client ∧
    rc_client_id client = resp_client_id response ∧
    rc_client_secret client = resp_client_secret response ∧
    rc_redirect_uris client = ["https://a/cb"%string] ∧
    resp_redirect_uris response = ["https://a/cb"%string].
Proof.
  split.
  - apply (C9_register_then_lookup (sample_request []) world0).
    reflexivity.
  - apply (C9_register_then_lookup (sample_request ["https://a/cb"%string])
             world0).
    discriminate.
Defined.

(** ** The token endpoint: client check *)

Lemma default_nonempty (o : option string) :
  default ""%string (Py.nonempty o) = default ""%string o.
Proof. by destruct o as [[|]|]. Qed.

Lemma secret_check_passes client form :
  client_secret form = None ∨ client_secret form = rc_client_secret client →
  match client_secret form with
  | Some secret =>
      if negb (bool_decide (rc_client_secret client = Some secret))
      then @Raise unit (http_error 401 "Invalid client credentials")
      else Ret tt
  | None => Ret tt
  end = Ret tt.
Proof.
  intros [->| ->]; [done|].
  destruct (rc_client_secret client); [|done].
  by rewrite bool_decide_eq_true_2.
Qed.

(** ** Storage methods that consult the clock *)

Lemma get_authorization_code_Some c w a :
  (get_authorization_code c w).1 = Some a ↔
  authorization_codes (storage w) !! c = Some a ∧
  (clock w (ticks w) ≤ ac_expires_at a)%Z ∧ ac_used a = false.
Proof.
  unfold get_authorization_code.
  destruct (authorization_codes (storage w) !! c) as [a'|]; [|by split; [|intros [? _]]].
  cbn. rewrite Z.gtb_ltb. destruct (Z.ltb_spec (ac_expires_at a') (clock w (ticks w))).
  - split; [done|]. intros ([= ->] & ? & ?). lia.
  - destruct (ac_used a') eqn:Hused.
    + split; [done|]. intros ([= ->] & ? & ?). congruence.
    + split; [intros [= ->]; done|]. by intros ([= ->] & ? & ?).
Qed.

(** A lookup changes nothing but the number of clock readings taken, and
    takes one when the entry exists. *)
Lemma get_authorization_code_world c w :
  storage (get_authorization_code c w).2 = storage w ∧
  clock (get_authorization_code c w).2 = clock w.
Proof.
  unfold get_authorization_code.
  destruct (authorization_codes (storage w) !! c) as [a|]; [|done].
  cbn. by destruct (_ >? _)%Z, (ac_used a).
Qed.

Lemma get_authorization_code_found c w a :
  authorization_codes (storage w) !! c = Some a →
  (get_authorization_code c w).2 = (utcnow w).2.
Proof.
  intros Ha. unfold get_authorization_code. rewrite Ha.
  cbn. by destruct (_ >? _)%Z, (ac_used a).
Qed.

Lemma mark_code_as_used_true c w :
  (mark_code_as_used c w).1 = true →
  ∃ a, authorization_codes (storage w) !! c = Some a ∧ ac_used a = false ∧
       (clock w (ticks w) ≤ ac_expires_at a)%Z ∧
       (mark_code_as_used c w).2 =
         with_storage (with_authorization_codes <[c := set_used a]>) (utcnow w).2.
Proof.
  unfold mark_code_as_used.
  destruct (authorization_codes (storage w) !! c) as [a|]; [|done].
  destruct (ac_used a) eqn:Hused; [done|].
  cbn. rewrite Z.gtb_ltb. destruct (Z.ltb_spec (ac_expires_at a) (clock w (ticks w))); [done|].
  intros _. by exists a.
Qed.

Lemma mark_code_as_used_marks c w a :
  authorization_codes (storage w) !! c = Some a →
  ac_used a = false →
  (clock w (ticks w) ≤ ac_expires_at a)%Z →
  mark_code_as_used c w =
    (true, with_storage (with_authorization_codes <[c := set_used a]>) (utcnow w).2).
Proof.
  intros Ha Hused Hnow. unfold mark_code_as_used. rewrite Ha, Hused.
  cbn. by rewrite Z.gtb_ltb, (proj2 (Z.ltb_ge _ _)).
Qed.

Lemma mark_code_as_used_late c w a :
  authorization_codes (storage w) !! c = Some a →
  ac_used a = false →
  (clock w (ticks w) > ac_expires_at a)%Z →
  mark_code_as_used c w = (false, (utcnow w).2).
Proof.
  intros Ha Hused Hnow. unfold mark_code_as_used. rewrite Ha, Hused.
  cbn. by rewrite Z.gtb_ltb, (proj2 (Z.ltb_lt _ _)) by lia.
Qed.

Lemma get_refresh_token_None tok w :
  (get_refresh_token tok w).1 = None ↔
  refresh_tokens (storage w) !! tok = None ∨
  (∃ rt, refresh_tokens (storage w) !! tok = Some rt ∧
         (clock w (ticks w) > rt_expires_at rt)%Z) ∨
  (∃ rt, refresh_tokens (storage w) !! tok = Some rt ∧ rt_revoked rt = true).
Proof.
  unfold get_refresh_token.
  destruct (refresh_tokens (storage w) !! tok) as [rt|]; [|by split; [left|]].
  cbn. rewrite Z.gtb_ltb. destruct (Z.ltb_spec (rt_expires_at rt) (clock w (ticks w))).
  - split; [|done]. intros _. right; left. exists rt. split; [done|lia].
  - destruct (rt_revoked rt) eqn:Hrev.
    + split; [|done]. intros _. right; right. by exists rt.
    + split; [done|].
      intros [|[(rt' & [= <-] & ?)|(rt' & [= <-] & ?)]]; [done|lia|congruence].
Qed.

Lemma get_refresh_token_Some tok w rt :
  refresh_tokens (storage w) !! tok = Some rt →
  rt_revoked rt = false →
  (clock w (ticks w) ≤ rt_expires_at rt)%Z →
  get_refresh_token tok w = (Some rt, (utcnow w).2).
Proof.
  intros Hrt Hrev Hnow. unfold get_refresh_token. rewrite Hrt, Hrev.
  cbn. by rewrite Z.gtb_ltb, (proj2 (Z.ltb_ge _ _)).
Qed.

Lemma get_refresh_token_world tok w :
  storage (get_refresh_token tok w).2 = storage w ∧
  clock (get_refresh_token tok w).2 = clock w.
Proof.
  unfold get_refresh_token.
  destruct (refresh_tokens (storage w) !! tok) as [rt|]; [|done].
  cbn. by destruct (_ >? _)%Z, (rt_revoked rt).
Qed.

(** ** Refresh *)

(** A refresh request reads the storage and the clock and writes nothing. *)
Lemma refresh_grant_reads_only settings form w :
  grant_type form = "refresh_token"%string →
  storage (run (token_endpoint settings form) w).2 = storage w ∧
  clock (run (token_endpoint settings form) w).2 = clock w.
Proof.
  intros Hg. unfold token_endpoint. cbn.
  destruct (get_client _ _) as [client|]; cbn; [|done].
  destruct (client_secret form) as [secret|]; cbn;
    [case_bool_decide; cbn; [|done]|];
    rewrite Hg; cbn;
    (destruct (Py.nonempty _) as [tok|]; cbn; [|done]);
    pose proof (get_refresh_token_world tok w) as [Hst Hck];
    destruct (get_refresh_token tok w) as [[rt|] w']; cbn in *; [|done| |done];
    by destruct (negb _).
Qed.

Lemma refresh_once settings form w client rt tok :
  authenticates client form w →
  presents tok form →
  refresh_tokens (storage w) !! tok = Some rt →
  client_id form = rt_client_id rt →
  rt_revoked rt = false →
  (clock w (ticks w) ≤ rt_expires_at rt)%Z →
  ∃ response,
    (run (token_endpoint settings form) w).1 = Returned response ∧
    sub (jwt_claims (access_token response)) = rt_user_id rt ∧
    claim_client_id (jwt_claims (access_token response)) = rt_client_id rt ∧
    claim_scope (jwt_claims (access_token response)) = default ""%string (rt_scope rt) ∧
    tr_refresh_token response = Some tok ∧
    tr_scope response = rt_scope rt.
Proof.
  intros [Hc Hs] [Hg Ht] Hrt Hid Hrev Hnow.
  unfold token_endpoint. cbn. rewrite Hc. cbn.
  rewrite (secret_check_passes _ _ Hs). cbn. rewrite Hg. cbn. rewrite Ht. cbn.
  rewrite (get_refresh_token_Some _ _ _ Hrt Hrev Hnow).
  rewrite Hid, String.eqb_refl. cbn.
  eexists. split; [reflexivity|]. cbn. by rewrite default_nonempty.
Qed.

Lemma refresh_lookup_fails settings form w client tok :
  authenticates client form w →
  presents tok form →
  (get_refresh_token tok w).1 = None →
  run (token_endpoint settings form) w =
    (Raised (http_error 400 "Invalid or expired refresh token"),
     (get_refresh_token tok w).2).
Proof.
  intros [Hc Hs] [Hg Ht] Hnone.
  unfold token_endpoint. cbn. rewrite Hc. cbn.
  rewrite (secret_check_passes _ _ Hs). cbn. rewrite Hg. cbn. rewrite Ht. cbn.
  destruct (get_refresh_token tok w) as [o w']. cbn in Hnone. by subst o.
Qed.

Lemma revoked_never_refreshes settings form w rt tok :
  presents tok form →
  refresh_tokens (storage w) !! tok = Some rt →
  rt_revoked rt = true →
  ∃ e, (run (token_endpoint settings form) w).1 = Raised e.
Proof.
  intros [Hg Ht] Hrt Hrev.
  assert ((get_refresh_token tok w).1 = None) as Hnone.
  { apply get_refresh_token_None. right; right. by exists rt. }
  unfold token_endpoint. cbn.
  destruct (get_client _ _) as [client|]; cbn; [|by eexists].
  destruct (client_secret form) as [secret|]; cbn;
    [case_bool_decide; cbn; [|by eexists]|];
    rewrite Hg; cbn; rewrite Ht; cbn;
    destruct (get_refresh_token tok w) as [o w']; cbn in Hnone; subst o; by eexists.
Qed.


(** ** Scopes in the states the server reaches *)

Lemma nonempty_or_else a b :
  is_Some (Py.nonempty b) → is_Some (Py.nonempty (Py.or_else a b)).
Proof.
  intros Hb. unfold Py.or_else.
  destruct (Py.nonempty a) as [t|] eqn:Ha; [|done].
  destruct a as [[|x t']|]; try done. injection Ha as <-. by eexists.
Qed.

Lemma scoped_empty : scoped empty_storage.
Proof. repeat split; intros k x H; cbn in H; by rewrite lookup_empty in H. Qed.

Lemma register_client_scoped request w :
  scoped (storage w) → scoped (storage (run (register_client request) w).2).
Proof.
  intros (Hcl & Hco & Hrt). unfold register_client.
  case_bool_decide; [done|]. cbn.
  split; [|done]. intros k client. unfold store_client. cbn. rewrite lookup_insert. case_decide.
  - intros [= <-]. cbn. by apply nonempty_or_else.
  - apply Hcl.
Qed.

Lemma authorize_scoped settings response_type cid redirect challenge method scope state w :
  scoped (storage w) →
  scoped (storage (run (authorize settings response_type cid redirect challenge method
                          scope state) w).2).
Proof.
  intros (Hcl & Hco & Hrt). unfold authorize.
  destruct (negb (response_type =? "code")%string); [done|]. cbn.
  destruct (get_client cid (storage w)) as [client|] eqn:Hclient; [|done].
  destruct (negb (bool_decide _)); [done|].
  destruct (challenge =? "")%string; [done|].
  destruct (CodeChallengeMethod_of_value method) as [m|]; [|done].
  cbn. split; [done|]. split; [|done].
  intros k a. unfold store_authorization_code. cbn. rewrite lookup_insert. case_decide.
  - intros [= <-]. cbn. apply nonempty_or_else. by eapply Hcl.
  - apply Hco.
Qed.

Lemma set_used_scoped st c a :
  scoped st → authorization_codes st !! c = Some a →
  scoped (with_authorization_codes <[c := set_used a]> st).
Proof.
  intros (Hcl & Hco & Hrt) Ha. split; [done|]. split; [|done].
  intros k a'. cbn. rewrite lookup_insert. case_decide.
  - intros [= <-]. cbn. by eapply Hco.
  - apply Hco.
Qed.

Lemma mark_code_as_used_false c w :
  (mark_code_as_used c w).1 = false → storage (mark_code_as_used c w).2 = storage w.
Proof.
  unfold mark_code_as_used.
  destruct (authorization_codes (storage w) !! c) as [a|]; [|done].
  destruct (ac_used a); [done|]. cbn. by destruct (_ >? _)%Z.
Qed.

Lemma secret_check_cases client form :
  let check :=
    match client_secret form with
    | Some secret =>
        if negb (bool_decide (rc_client_secret client = Some secret))
        then @Raise unit (http_error 401 "Invalid client credentials")
        else Ret tt
    | None => Ret tt
    end in
  check = Ret tt ∨ check = Raise (http_error 401 "Invalid client credentials").
Proof. destruct (client_secret form); cbn; [case_bool_decide|]; auto. Qed.

(** The token endpoint writes to the storage only when it serves a code:
    it marks the code and stores a refresh token with the code's scope. *)
Lemma token_endpoint_storage settings form w :
  storage (run (token_endpoint settings form) w).2 = storage w ∨
  ∃ c a rt,
    authorization_codes (storage w) !! c = Some a ∧
    rt_scope rt = ac_scope a ∧
    storage (run (token_endpoint settings form) w).2 =
      store_refresh_token rt (with_authorization_codes <[c := set_used a]> (storage w)).
Proof.
  destruct (String.eqb_spec (grant_type form) "authorization_code") as [Hg|Hg].
  2:{ left. destruct (String.eqb_spec (grant_type form) "refresh_token") as [Hr|Hr].
      - by apply refresh_grant_reads_only.
      - unfold token_endpoint. cbn.
        destruct (get_client _ _) as [client|]; cbn; [|done].
        destruct (secret_check_cases client form) as [-> | ->]; cbn; [|done].
        destruct (String.eqb_spec (grant_type form) "authorization_code"); [done|].
        by destruct (String.eqb_spec (grant_type form) "refresh_token"). }
  unfold token_endpoint. cbn.
  destruct (get_client _ _) as [client|]; cbn; [|by left].
  destruct (secret_check_cases client form) as [-> | ->]; cbn; [|by left].
  rewrite Hg. cbn.
  destruct (Py.nonempty (code form)) as [c|]; [|by left].
  destruct (Py.nonempty (redirect_uri form)) as [r|]; [|by left].
  destruct (Py.nonempty (code_verifier form)) as [v|]; [|by left].
  cbn.
  pose proof (get_authorization_code_world c w) as [Hst _].
  pose proof (get_authorization_code_Some c w) as Hget.
  destruct (get_authorization_code c w) as [[a|] w1]; cbn in *; [|by left].
  destruct (proj1 (Hget a) eq_refl) as (Ha & _ & _).
  destruct (negb (ac_client_id a =? _)%string); [by left|].
  destruct (negb (ac_redirect_uri a =? _)%string); [by left|].
  destruct (negb (verify_code_challenge _ _ _)); [by left|].
  cbn.
  pose proof (mark_code_as_used_true c w1) as Htrue.
  pose proof (mark_code_as_used_false c w1) as Hfalse.
  destruct (mark_code_as_used c w1) as [[|] w2]; cbn in *.
  2:{ left. by rewrite Hfalse. }
  destruct Htrue as (a' & Ha' & _ & _ & ->); [done|].
  rewrite Hst, Ha in Ha'. injection Ha' as <-.
  right. eexists c, a, _. split; [done|]. cbn. rewrite Hst.
  split; [|reflexivity]. done.
Qed.

Lemma token_endpoint_scoped settings form w :
  scoped (storage w) → scoped (storage (run (token_endpoint settings form) w).2).
Proof.
  intros Hsc.
  destruct (token_endpoint_storage settings form w) as [->|(c & a & rt & Ha & Hscope & ->)];
    [done|].
  pose proof (set_used_scoped _ _ _ Hsc Ha) as (Hcl & Hco & Hrt).
  split; [done|]. split; [done|].
  intros k rt'. unfold store_refresh_token. cbn. rewrite lookup_insert. case_decide.
  - intros [= <-]. rewrite Hscope. by eapply (proj1 (proj2 Hsc)).
  - apply Hrt.
Qed.

Lemma reachable_scoped settings w : reachable settings w → scoped (storage w).
Proof.
  intros (w0 & requests & Hw0 & ->).
  assert (scoped (storage w0)) as Hsc by (rewrite Hw0; apply scoped_empty).
  clear Hw0. revert w0 Hsc.
  induction requests as [|r requests IH]; intros w0 Hsc; [done|].
  cbn [fold_left]. apply IH. destruct r; cbn [serve].
  - by apply register_client_scoped.
  - by apply authorize_scoped.
  - by apply token_endpoint_scoped.
Qed.

Lemma timegm_add_minutes (d : datetime) (m : Z) :
  timegm (d + timedelta_minutes m)%Z = (timegm d + m * 60)%Z.
Proof.
  unfold timegm, timedelta_minutes.
  replace (d + m * 60000000)%Z with (d + m * 60 * 1000000)%Z by lia.
  by rewrite Z.div_add.
Qed.

(** The rejection of [verify_access_token] for a given library message. *)
Lemma verify_minted settings other (claims : Claims) (now : datetime) :
  let token := jwt_encode claims (JWT_SECRET_KEY settings) (JWT_ALGORITHM settings) in
  JWT_ALGORITHM other = JWT_ALGORITHM settings →
  verify_access_token other now token =
    if negb (JWT_SECRET_KEY settings =? JWT_SECRET_KEY other)%string then
      Raised {| status_code := 401;
                detail := "Invalid token: Signature verification failed.";
                headers := [("WWW-Authenticate", "Bearer")]%string |}
    else if (exp claims <? timegm now)%Z then
      Raised {| status_code := 401;
                detail := "Invalid token: Signature has expired.";
                headers := [("WWW-Authenticate", "Bearer")]%string |}
    else if negb (aud claims =? SERVER_URL other)%string then
      Raised {| status_code := 401;
                detail := "Invalid token: Invalid audience";
                headers := [("WWW-Authenticate", "Bearer")]%string |}
    else Returned claims.
Proof.
  cbn zeta. intros Halg. unfold verify_access_token, jwt_decode, jwt_encode. cbn.
  rewrite Halg. rewrite bool_decide_eq_true_2 by (left). cbn.
  destruct (negb (JWT_SECRET_KEY settings =? JWT_SECRET_KEY other)%string); [reflexivity|].
  destruct (exp claims <? timegm now)%Z; [reflexivity|].
  by destruct (negb (aud claims =? SERVER_URL other)%string).
Qed.

(** A token signed with the server's key and algorithm, for the server as
    audience, is accepted until its expiry. *)
Lemma minted_verifies settings (claims : Claims) (now : datetime) :
  aud claims = SERVER_URL settings →
  (timegm now ≤ exp claims)%Z →
  verify_access_token settings now
    (jwt_encode claims (JWT_SECRET_KEY settings) (JWT_ALGORITHM settings)) = Returned claims.
Proof.
  intros Haud Hnow.
  pose proof (verify_minted settings settings claims now eq_refl) as Hv.
  cbn zeta in Hv. rewrite Hv, String.eqb_refl. cbn [negb].
  destruct (Z.ltb_spec (exp claims) (timegm now)); [lia|].
  by rewrite Haud, String.eqb_refl.
Qed.

(** What a served refresh request returns: the token [create_access_token]
    mints from the two clock readings that follow the lookup's. *)
Lemma refresh_serves settings form w client rt tok :
  authenticates client form w →
  presents tok form →
  refresh_tokens (storage w) !! tok = Some rt →
  client_id form = rt_client_id rt →
  rt_revoked rt = false →
  (clock w (ticks w) ≤ rt_expires_at rt)%Z →
  run (token_endpoint settings form) w =
    (Returned
       {| access_token :=
            jwt_encode
              {| sub := rt_user_id rt;
                 claim_client_id := rt_client_id rt;
                 claim_scope := default ""%string (rt_scope rt);
                 exp := timegm (clock w (1 + ticks w)
                          + timedelta_minutes (JWT_ACCESS_TOKEN_EXPIRE_MINUTES settings))%Z;
                 iat := timegm (clock w (2 + ticks w));
                 iss := SERVER_URL settings;
                 aud := SERVER_URL settings |}
              (JWT_SECRET_KEY settings) (JWT_ALGORITHM settings);
          token_type := "Bearer";
          expires_in := (JWT_ACCESS_TOKEN_EXPIRE_MINUTES settings * 60)%Z;
          tr_refresh_token := Some tok;
          tr_scope := rt_scope rt |},
     (utcnow (utcnow (utcnow w).2).2).2).
Proof.
  intros [Hc Hs] [Hg Ht] Hrt Hid Hrev Hnow.
  unfold token_endpoint. cbn. rewrite Hc. cbn.
  rewrite (secret_check_passes _ _ Hs). cbn. rewrite Hg. cbn. rewrite Ht. cbn.
  rewrite (get_refresh_token_Some _ _ _ Hrt Hrev Hnow).
  rewrite Hid, String.eqb_refl. cbn. by rewrite default_nonempty.
Qed.

(** The [i]-th of a run of refresh requests is served from the clock
    readings [3i+1] and [3i+2] after the start of the run. *)
Lemma refresh_all_minted settings (forms : list TokenForm) (w : World)
    (client : RegisteredClient) (rt : RefreshToken) (tok : string) :
  refresh_tokens (storage w) !! tok = Some rt →
  rt_revoked rt = false →
  (∀ n, (clock w n ≤ rt_expires_at rt)%Z) →
  Forall (λ form, authenticates client form w ∧ presents tok form ∧
                  client_id form = rt_client_id rt) forms →
  ∀ w', storage w' = storage w → clock w' = clock w →
  ∀ i form, forms !! i = Some form →
    (run_all (map (token_endpoint settings) forms) w').1 !! i =
      Some (Returned
        {| access_token :=
             jwt_encode
               {| sub := rt_user_id rt;
                  claim_client_id := rt_client_id rt;
                  claim_scope := default ""%string (rt_scope rt);
                  exp := timegm (clock w (ticks w' + 3 * i + 1)
                           + timedelta_minutes (JWT_ACCESS_TOKEN_EXPIRE_MINUTES settings))%Z;
                  iat := timegm (clock w (ticks w' + 3 * i + 2));
                  iss := SERVER_URL settings;
                  aud := SERVER_URL settings |}
               (JWT_SECRET_KEY settings) (JWT_ALGORITHM settings);
           token_type := "Bearer";
           expires_in := (JWT_ACCESS_TOKEN_EXPIRE_MINUTES settings * 60)%Z;
           tr_refresh_token := Some tok;
           tr_scope := rt_scope rt |}).
Proof.
  intros Hrt Hrev Hclock Hforms.
  induction Hforms as [|form forms (Hauth & Hpres & Hid) _ IH]; intros w' Hst Hck i form' Hi.
  { by rewrite lookup_nil in Hi. }
  cbn [map run_all].
  rewrite (refresh_serves settings form w' client rt tok).
  2:{ destruct Hauth as [Hc Hs]. split; [|exact Hs]. by rewrite Hst. }
  2:{ exact Hpres. }
  2:{ by rewrite Hst. }
  2:{ exact Hid. }
  2:{ exact Hrev. }
  2:{ rewrite Hck. apply Hclock. }
  specialize (IH (utcnow (utcnow (utcnow w').2).2).2 Hst Hck).
  destruct (run_all (map (token_endpoint settings) forms) (utcnow (utcnow (utcnow w').2).2).2)
    as [os w2].
  cbn [fst snd] in *. destruct i as [|i].
  - rewrite Hck. replace (ticks w' + 3 * 0 + 1) with (1 + ticks w') by lia.
    replace (ticks w' + 3 * 0 + 2) with (2 + ticks w') by lia. reflexivity.
  - transitivity (os !! i); [reflexivity|]. rewrite (IH i form' Hi). cbn [utcnow snd ticks].
    replace (S (S (S (ticks w'))) + 3 * i + 1) with (ticks w' + 3 * S i + 1) by lia.
    replace (S (S (S (ticks w'))) + 3 * i + 2) with (ticks w' + 3 * S i + 2) by lia.
    reflexivity.
Qed.

(** C7: while a refresh token is stored, not revoked and not expired, each
    of any number of refresh calls returns a new access token whose
    subject, client identifier and scope are those of the refresh token;
    no refresh request writes to the storage; and every request presenting a
    revoked token raises. The access token of the [i]-th call is the one
    minted at that call: signed with the server's key and algorithm, issued
    by and for the server, with its expiry and its issue time taken from the
    call's own two clock readings after the lookup, the configured lifetime
    as [expires_in], and accepted by [verify_access_token] until its
    expiry. The scope claim is written as [scope or ""]; in every state the
    server reaches the refresh token has a scope, which the claim then
    equals. *)
Theorem C7_refresh_repeatable settings (forms : list TokenForm) (w : World)
    (client : RegisteredClient) (rt : RefreshToken) (tok : string) :
  refresh_tokens (storage w) !! tok = Some rt →
  Forall (λ form, authenticates client form w ∧ presents tok form ∧
                  client_id form = rt_client_id rt) forms →
  (∀ form, grant_type form = "refresh_token"%string →
     storage (run (token_endpoint settings form) w).2 = storage w) ∧
  (rt_revoked rt = false → (∀ n, (clock w n ≤ rt_expires_at rt)%Z) →
     storage (run_all (map (token_endpoint settings) forms) w).2 = storage w ∧
     Forall2 (λ form o, ∃ response, o = Returned response ∧
        sub (jwt_claims (access_token response)) = rt_user_id rt ∧
        claim_client_id (jwt_claims (access_token response)) = rt_client_id rt ∧
        claim_scope (jwt_claims (access_token response)) = default ""%string (rt_scope rt) ∧
        tr_scope response = rt_scope rt ∧
        tr_refresh_token response = refresh_token form)
       forms (run_all (map (token_endpoint settings) forms) w).1 ∧
     (∀ i form, forms !! i = Some form →
        ∃ response,
          (run_all (map (token_endpoint settings) forms) w).1 !! i =
            Some (Returned response) ∧
          access_token response =
            jwt_encode
              {| sub := rt_user_id rt;
                 claim_client_id := rt_client_id rt;
                 claim_scope := default ""%string (rt_scope rt);
                 exp := timegm (clock w (ticks w + 3 * i + 1)
                          + timedelta_minutes (JWT_ACCESS_TOKEN_EXPIRE_MINUTES settings))%Z;
                 iat := timegm (clock w (ticks w + 3 * i + 2));
                 iss := SERVER_URL settings;
                 aud := SERVER_URL settings |}
              (JWT_SECRET_KEY settings) (JWT_ALGORITHM settings) ∧
          token_type response = "Bearer"%string ∧
          expires_in response = (JWT_ACCESS_TOKEN_EXPIRE_MINUTES settings * 60)%Z ∧
          exp (jwt_claims (access_token response)) =
            (timegm (clock w (ticks w + 3 * i + 1)) + expires_in response)%Z ∧
          ∀ now, (timegm now ≤ exp (jwt_claims (access_token response)))%Z →
            verify_access_token settings now (access_token response) =
              Returned (jwt_claims (access_token response)))) ∧
  (rt_revoked rt = true →
     ∀ form, presents tok form →
       ∃ e, (run (token_endpoint settings form) w).1 = Raised e) ∧
  (reachable settings w →
     ∃ scope, rt_scope rt = Some scope ∧ scope ≠ ""%string ∧
              default ""%string (rt_scope rt) = scope).
Proof.
  intros Hrt Hforms. split; [|split; [|split]].
  - intros form Hg. by apply refresh_grant_reads_only.
  - intros Hrev Hclock.
    assert (∀ i form, forms !! i = Some form →
        ∃ response,
          (run_all (map (token_endpoint settings) forms) w).1 !! i =
            Some (Returned response) ∧
          access_token response =
            jwt_encode
              {| sub := rt_user_id rt;
                 claim_client_id := rt_client_id rt;
                 claim_scope := default ""%string (rt_scope rt);
                 exp := timegm (clock w (ticks w + 3 * i + 1)
                          + timedelta_minutes (JWT_ACCESS_TOKEN_EXPIRE_MINUTES settings))%Z;
                 iat := timegm (clock w (ticks w + 3 * i + 2));
                 iss := SERVER_URL settings;
                 aud := SERVER_URL settings |}
              (JWT_SECRET_KEY settings) (JWT_ALGORITHM settings) ∧
          token_type response = "Bearer"%string ∧
          expires_in response = (JWT_ACCESS_TOKEN_EXPIRE_MINUTES settings * 60)%Z ∧
          exp (jwt_claims (access_token response)) =
            (timegm (clock w (ticks w + 3 * i + 1)) + expires_in response)%Z ∧
          ∀ now, (timegm now ≤ exp (jwt_claims (access_token response)))%Z →
            verify_access_token settings now (access_token response) =
              Returned (jwt_claims (access_token response))) as Hminted.
    { intros i form Hi. eexists. split.
      - by apply (refresh_all_minted settings forms w client rt tok Hrt Hrev Hclock Hforms
                    w eq_refl eq_refl i form).
      - cbn [access_token token_type expires_in jwt_claims jwt_encode exp].
        split; [reflexivity|]. split; [reflexivity|]. split; [reflexivity|].
        split; [apply timegm_add_minutes|].
        intros now Hnow. by apply minted_verifies. }
    cut (storage (run_all (map (token_endpoint settings) forms) w).2 = storage w ∧
      Forall2 (λ form o, ∃ response, o = Returned response ∧
        sub (jwt_claims (access_token response)) = rt_user_id rt ∧
        claim_client_id (jwt_claims (access_token response)) = rt_client_id rt ∧
        claim_scope (jwt_claims (access_token response)) = default ""%string (rt_scope rt) ∧
        tr_scope response = rt_scope rt ∧
        tr_refresh_token response = refresh_token form)
       forms (run_all (map (token_endpoint settings) forms) w).1).
    { intros [H1 H2]. split; [exact H1|]. split; [exact H2|exact Hminted]. }
    clear Hminted.
    assert (∀ w', storage w' = storage w → clock w' = clock w →
      storage (run_all (map (token_endpoint settings) forms) w').2 = storage w ∧
      Forall2 (λ form o, ∃ response, o = Returned response ∧
        sub (jwt_claims (access_token response)) = rt_user_id rt ∧
        claim_client_id (jwt_claims (access_token response)) = rt_client_id rt ∧
        claim_scope (jwt_claims (access_token response)) = default ""%string (rt_scope rt) ∧
        tr_scope response = rt_scope rt ∧
        tr_refresh_token response = refresh_token form)
       forms (run_all (map (token_endpoint settings) forms) w').1) as Hgen; [|by apply Hgen].
    induction Hforms as [|form forms (Hauth & Hpres & Hid) _ IH]; intros w' Hst Hck.
    { by split; [|constructor]. }
    cbn [map run_all].
    destruct (refresh_grant_reads_only settings form w' (proj1 Hpres)) as [Hst' Hck'].
    destruct (refresh_once settings form w' client rt tok)
      as (response & Hrun & Hsub & Hcid & Hscope & Htok & Hrscope); try done.
    { destruct Hauth as [Hc Hs]. split; [|done]. by rewrite Hst. }
    { by rewrite Hst. }
    { rewrite Hck. apply Hclock. }
    destruct (run (token_endpoint settings form) w') as [o w1]. cbn in *. subst o.
    destruct (IH w1) as [IH1 IH2]; [congruence..|].
    destruct (run_all _ w1) as [os w2]. cbn in *. split; [done|].
    constructor; [|done]. eexists; repeat split; try done.
    rewrite Htok.
    destruct Hpres as [_ Hne]. revert Hne.
    destruct (refresh_token form) as [[|]|]; cbn; congruence.
  - intros Hrev form Hpres. by eapply revoked_never_refreshes.
  - intros Hreach. apply reachable_scoped in Hreach as (_ & _ & Hscoped).
    destruct (Hscoped _ _ Hrt) as [scope Hscope].
    exists scope. destruct (rt_scope rt) as [[|x s']|]; try done.
    injection Hscope as <-. done.
Qed.

Lemma sample_clock_bounded st t0 n : (clock (sample_world st t0) n ≤ t0 + 100)%Z.
Proof. cbn. lia. Qed.

Lemma C7_refresh_repeatable_witness :
  storage (run_all (map (token_endpoint default_settings) [refresh_form; refresh_form]) world1).2
    = sample_storage ∧
  Forall2 (λ form o, ∃ response, o = Returned response ∧
      sub (jwt_claims (access_token response)) = "mock_user_123"%string ∧
      claim_client_id (jwt_claims (access_token response)) = "client_a"%string ∧
      claim_scope (jwt_claims (access_token response)) = "mcp:tools:read"%string ∧
      tr_scope response = Some "mcp:tools:read"%string ∧
      tr_refresh_token response = refresh_token form)
    [refresh_form; refresh_form]
    (run_all (map (token_endpoint default_settings) [refresh_form; refresh_form]) world1).1 ∧
  ∃ response,
    (run_all (map (token_endpoint default_settings) [refresh_form; refresh_form]) world1).1
      !! 1 = Some (Returned response) ∧
    jwt_signed_with (access_token response) = JWT_SECRET_KEY default_settings ∧
    exp (jwt_claims (access_token response)) = 3600%Z ∧
    expires_in response = 3600%Z ∧
    verify_access_token default_settings 3600000000%Z (access_token response) =
      Returned (jwt_claims (access_token response)).
Proof.
  destruct (proj1 (proj2 (C7_refresh_repeatable default_settings [refresh_form; refresh_form]
              world1 sample_client sample_refresh "rtok" eq_refl
              ltac:(repeat constructor))))
    as (Hst & Hall & Hminted).
  - reflexivity.
  - intros n. pose proof (sample_clock_bounded sample_storage 1000%Z n). cbn in *. lia.
  - split; [exact Hst|]. split; [exact Hall|].
    destruct (Hminted 1 refresh_form eq_refl) as (response & Hi & Htoken & _ & Hexpires & Hexp & Hv).
    exists response. split; [exact Hi|].
    assert (exp (jwt_claims (access_token response)) = 3600%Z) as Hexp'.
    { rewrite Hexp, Hexpires. reflexivity. }
    split; [by rewrite Htoken|]. split; [exact Hexp'|]. split; [exact Hexpires|].
    apply Hv. rewrite Hexp'. vm_compute. discriminate.
Defined.

(** C8: a refresh token that is unknown, one that has expired and one that
    was revoked are all looked up as [None], and the token endpoint answers
    the three requests with one and the same error, the storage left as it
    was. *)
Theorem C8_refresh_failures_uniform settings (form : TokenForm) (w : World)
    (client : RegisteredClient) (tok : string) :
  authenticates client form w →
  presents tok form →
  refresh_tokens (storage w) !! tok = None ∨
  (∃ rt, refresh_tokens (storage w) !! tok = Some rt ∧
         (clock w (ticks w) > rt_expires_at rt)%Z) ∨
  (∃ rt, refresh_tokens (storage w) !! tok = Some rt ∧ rt_revoked rt = true) →
  (get_refresh_token tok w).1 = None ∧
  (run (token_endpoint settings form) w).1 =
    Raised (http_error 400 "Invalid or expired refresh token") ∧
  storage (run (token_endpoint settings form) w).2 = storage w.
Proof.
  intros Hauth Hpres Hfail.
  apply get_refresh_token_None in Hfail. split; [done|].
  rewrite (refresh_lookup_fails settings form w client tok) by done.
  split; [done|]. apply get_refresh_token_world.
Qed.

Lemma C8_refresh_failures_uniform_witness :
  let unknown := sample_world (store_client sample_client empty_storage) 1000%Z in
  let expired := sample_world sample_storage 6000%Z in
  let revoked := sample_world (revoke_refresh_token "rtok" sample_storage) 1000%Z in
  let e := http_error 400 "Invalid or expired refresh token" in
  (run (token_endpoint default_settings refresh_form) unknown).1 = Raised e ∧
  (run (token_endpoint default_settings refresh_form) expired).1 = Raised e ∧
  (run (token_endpoint default_settings refresh_form) revoked).1 = Raised e.
Proof.
  intros unknown expired revoked e.
  assert (∀ w, get_client "client_a" (storage w) = Some sample_client →
            authenticates sample_client refresh_form w) as Hauth.
  { intros w Hw. split; [exact Hw|left; reflexivity]. }
  assert (presents "rtok" refresh_form) as Hpres by (split; reflexivity).
  split; [|split].
  - refine (proj1 (proj2 (C8_refresh_failures_uniform default_settings refresh_form unknown
                            sample_client "rtok" (Hauth _ _) Hpres _))).
    + vm_compute. reflexivity.
    + left. vm_compute. reflexivity.
  - refine (proj1 (proj2 (C8_refresh_failures_uniform default_settings refresh_form expired
                            sample_client "rtok" (Hauth _ _) Hpres _))).
    + vm_compute. reflexivity.
    + right; left. exists sample_refresh. split; vm_compute; reflexivity.
  - refine (proj1 (proj2 (C8_refresh_failures_uniform default_settings refresh_form revoked
                            sample_client "rtok" (Hauth _ _) Hpres _))).
    + vm_compute. reflexivity.
    + right; right. exists (set_revoked sample_refresh). split; vm_compute; reflexivity.
Defined.

(** ** Redemption of an authorization code *)

(** What a successful redemption tells about the request and the code. *)
Lemma redeem_returned settings form w response w' :
  grant_type form = "authorization_code"%string →
  run (token_endpoint settings form) w = (Returned response, w') →
  ∃ client c r v a,
    authenticates client form w ∧
    Py.nonempty (code form) = Some c ∧
    Py.nonempty (redirect_uri form) = Some r ∧
    Py.nonempty (code_verifier form) = Some v ∧
    authorization_codes (storage w) !! c = Some a ∧
    ac_used a = false ∧
    (clock w (ticks w) ≤ ac_expires_at a)%Z ∧
    (clock w (S (ticks w)) ≤ ac_expires_at a)%Z ∧
    ac_client_id a = client_id form ∧
    ac_redirect_uri a = r ∧
    verify_code_challenge v (ac_code_challenge a) (ac_code_challenge_method a) = true ∧
    authorization_codes (storage w') !! c = Some (set_used a).
Proof.
  intros Hg. unfold token_endpoint. cbn.
  destruct (get_client _ _) as [client|] eqn:Hc; cbn; [|done].
  intros Hrun.
  assert (client_secret form = None ∨ client_secret form = rc_client_secret client) as Hs.
  { destruct (client_secret form) as [secret|]; [|by left].
    cbn in Hrun. case_bool_decide; [by right|done]. }
  rewrite (secret_check_passes _ _ Hs) in Hrun. cbn in Hrun. rewrite Hg in Hrun. cbn in Hrun.
  destruct (Py.nonempty (code form)) as [c|]; [|done].
  destruct (Py.nonempty (redirect_uri form)) as [r|]; [|done].
  destruct (Py.nonempty (code_verifier form)) as [v|]; [|done].
  cbn in Hrun.
  destruct (get_authorization_code c w) as [[a|] w1] eqn:Hget; [|done].
  pose proof (f_equal fst Hget) as Hget1. pose proof (f_equal snd Hget) as Hget2.
  cbn in Hget1, Hget2.
  apply get_authorization_code_Some in Hget1 as (Ha & Hnow & Hused).
  rewrite (get_authorization_code_found _ _ _ Ha) in Hget2.
  destruct (String.eqb_spec (ac_client_id a) (client_id form)) as [Hid|]; [|done].
  destruct (String.eqb_spec (ac_redirect_uri a) r) as [Hr|]; [|done].
  destruct (verify_code_challenge _ _ _) eqn:Hv; [|done].
  cbn in Hrun.
  destruct (mark_code_as_used c w1) as [[|] w2] eqn:Hmark; cbn in Hrun; [|done].
  pose proof (f_equal fst Hmark) as Hmark1. pose proof (f_equal snd Hmark) as Hmark2.
  cbn [fst snd] in Hmark1, Hmark2.
  apply mark_code_as_used_true in Hmark1 as (a' & Ha' & _ & Hnow' & Hw2).
  subst w1. cbn in Ha', Hnow'. rewrite Ha in Ha'. injection Ha' as <-.
  rewrite Hw2 in Hmark2. subst w2.
  injection Hrun as <- <-.
  exists client, c, r, v, a. repeat split; try done.
  cbn. apply lookup_insert_eq.
Qed.

Lemma redeem_lookup_fails settings form w client c r v :
  authenticates client form w →
  grant_type form = "authorization_code"%string →
  Py.nonempty (code form) = Some c →
  Py.nonempty (redirect_uri form) = Some r →
  Py.nonempty (code_verifier form) = Some v →
  (get_authorization_code c w).1 = None →
  run (token_endpoint settings form) w =
    (Raised (http_error 400 "Invalid or expired authorization code"),
     (get_authorization_code c w).2).
Proof.
  intros [Hc Hs] Hg Hcode Hr Hv Hget.
  unfold token_endpoint. cbn. rewrite Hc. cbn.
  rewrite (secret_check_passes _ _ Hs). cbn. rewrite Hg. cbn. rewrite Hcode, Hr, Hv. cbn.
  destruct (get_authorization_code c w) as [o w']. cbn in Hget. by subst o.
Qed.

Lemma redeem_mismatch settings form w client c r v a :
  authenticates client form w →
  grant_type form = "authorization_code"%string →
  Py.nonempty (code form) = Some c →
  Py.nonempty (redirect_uri form) = Some r →
  Py.nonempty (code_verifier form) = Some v →
  (get_authorization_code c w).1 = Some a →
  ac_client_id a ≠ client_id form ∨ ac_redirect_uri a ≠ r ∨
    verify_code_challenge v (ac_code_challenge a) (ac_code_challenge_method a) = false →
  ∃ e, run (token_endpoint settings form) w = (Raised e, (utcnow w).2) ∧
       e ∈ [http_error 400 "Authorization code was issued to different client";
            http_error 400 "Redirect URI mismatch";
            http_error 400 "Invalid code_verifier"].
Proof.
  intros [Hc Hs] Hg Hcode Hr Hv Hget Hbad.
  pose proof (proj1 (get_authorization_code_Some _ _ _) Hget) as (Ha & _ & _).
  pose proof (get_authorization_code_found _ _ _ Ha) as Hw.
  unfold token_endpoint. cbn. rewrite Hc. cbn.
  rewrite (secret_check_passes _ _ Hs). cbn. rewrite Hg. cbn. rewrite Hcode, Hr, Hv. cbn.
  destruct (get_authorization_code c w) as [o w']. cbn in Hget, Hw. subst o w'.
  destruct (String.eqb_spec (ac_client_id a) (client_id form)) as [Hid|]; cbn.
  2:{ eexists. split; [done|]. left. }
  destruct (String.eqb_spec (ac_redirect_uri a) r) as [Hredir|]; cbn.
  2:{ eexists. split; [done|]. right; left. }
  destruct (verify_code_challenge _ _ _) eqn:Hver; cbn.
  { by destruct Hbad as [|[|]]. }
  eexists. split; [done|]. right; right; left.
Qed.

(** The bad verifier alone: the request is refused as a bad grant. *)
Lemma redeem_bad_verifier settings form w client c r v a :
  authenticates client form w →
  grant_type form = "authorization_code"%string →
  Py.nonempty (code form) = Some c →
  Py.nonempty (redirect_uri form) = Some r →
  Py.nonempty (code_verifier form) = Some v →
  (get_authorization_code c w).1 = Some a →
  ac_client_id a = client_id form →
  ac_redirect_uri a = r →
  verify_code_challenge v (ac_code_challenge a) (ac_code_challenge_method a) = false →
  run (token_endpoint settings form) w =
    (Raised (http_error 400 "Invalid code_verifier"), (utcnow w).2).
Proof.
  intros [Hc Hs] Hg Hcode Hr Hv Hget Hid Hredir Hver.
  pose proof (proj1 (get_authorization_code_Some _ _ _) Hget) as (Ha & _ & _).
  pose proof (get_authorization_code_found _ _ _ Ha) as Hw.
  unfold token_endpoint. cbn. rewrite Hc. cbn.
  rewrite (secret_check_passes _ _ Hs). cbn. rewrite Hg. cbn. rewrite Hcode, Hr, Hv. cbn.
  destruct (get_authorization_code c w) as [o w']. cbn in Hget, Hw. subst o w'.
  by rewrite Hid, Hredir, !String.eqb_refl, Hver.
Qed.

(** A matching request for a fresh code is served, and the code is spent. *)
Lemma redeem_fresh settings form w client a c :
  fresh client a c w →
  ac_used a = false →
  matching client a c form →
  ∃ response w',
    run (token_endpoint settings form) w = (Returned response, w') ∧
    spent client a c w' ∧
    sub (jwt_claims (access_token response)) = ac_user_id a ∧
    claim_client_id (jwt_claims (access_token response)) = ac_client_id a ∧
    claim_scope (jwt_claims (access_token response)) = default ""%string (ac_scope a).
Proof.
  intros (Hc & Hclock & Ha) Hused (Hg & Hcode & Hid & Hr & (v & Hv & Hver) & Hs).
  assert ((get_authorization_code c w).1 = Some a) as Hget.
  { by apply get_authorization_code_Some. }
  pose proof (get_authorization_code_found _ _ _ Ha) as Hw.
  unfold token_endpoint. cbn. unfold get_client. rewrite Hid, Hc. cbn.
  rewrite (secret_check_passes _ _ Hs). cbn. rewrite Hg. cbn. rewrite Hcode, Hr, Hv. cbn.
  destruct (get_authorization_code c w) as [o w1]. cbn in Hget, Hw. subst o.
  rewrite !String.eqb_refl, Hver. cbn.
  rewrite (mark_code_as_used_marks c w1 a) by (subst w1; cbn; auto). cbn. subst w1.
  eexists _, _. split; [reflexivity|]. cbn. rewrite default_nonempty.
  split; [|done]. unfold spent. cbn. split; [done|]. split; [done|].
  apply lookup_insert_eq.
Qed.

Lemma fresh_utcnow client a c w : fresh client a c w → fresh client a c (utcnow w).2.
Proof. by intros (? & ? & ?). Qed.

(** C10: a redemption request refused because its client identifier or its
    redirect URI differs from the code's, or because its verifier fails
    PKCE, leaves the storage as it was, the code unused; the matching request
    that follows is served. *)
Theorem C10_refused_request_keeps_code settings (bad good : TokenForm) (w : World)
    (owner client : RegisteredClient) (a : AuthorizationCode) (c r v : string) :
  fresh owner a c w →
  ac_used a = false →
  authenticates client bad w →
  grant_type bad = "authorization_code"%string →
  Py.nonempty (code bad) = Some c →
  Py.nonempty (redirect_uri bad) = Some r →
  Py.nonempty (code_verifier bad) = Some v →
  ac_client_id a ≠ client_id bad ∨ ac_redirect_uri a ≠ r ∨
    verify_code_challenge v (ac_code_challenge a) (ac_code_challenge_method a) = false →
  matching owner a c good →
  ∃ e response w',
    e ∈ [http_error 400 "Authorization code was issued to different client";
         http_error 400 "Redirect URI mismatch";
         http_error 400 "Invalid code_verifier"] ∧
    storage (run (token_endpoint settings bad) w).2 = storage w ∧
    authorization_codes (storage (run (token_endpoint settings bad) w).2) !! c = Some a ∧
    run_all [token_endpoint settings bad; token_endpoint settings good] w =
      ([Raised e; Returned response], w') ∧
    authorization_codes (storage w') !! c = Some (set_used a).
Proof.
  intros Hfresh Hused Hauth Hg Hcode Hr Hv Hbad Hgood.
  assert ((get_authorization_code c w).1 = Some a) as Hget.
  { destruct Hfresh as (_ & Hclock & Ha). by apply get_authorization_code_Some. }
  destruct (redeem_mismatch settings bad w client c r v a) as (e & Hrun & He); try done.
  destruct (redeem_fresh settings good (utcnow w).2 owner a c)
    as (response & w' & Hrun' & Hspent & _); [by apply fresh_utcnow|done..|].
  exists e, response, w'. cbn [run_all]. rewrite Hrun. cbn [fst snd]. rewrite Hrun'.
  split; [done|]. split; [done|]. split; [apply Hfresh|]. split; [done|]. apply Hspent.
Qed.

Lemma world1_fresh : fresh sample_client sample_code "code1" world1.
Proof.
  split; [vm_compute; reflexivity|]. split; [|vm_compute; reflexivity].
  intros n. pose proof (sample_clock_bounded sample_storage 1000%Z n). cbn in *. lia.
Qed.

Lemma redeem_form_matching : matching sample_client sample_code "code1" redeem_form.
Proof.
  repeat split; try done; [|by left].
  exists sample_verifier. split; [done|]. vm_compute. reflexivity.
Qed.

Lemma C10_refused_request_keeps_code_witness :
  let bad := {| grant_type := "authorization_code"; code := Some "code1"%string;
                redirect_uri := Some "https://a/cb"%string;
                code_verifier := Some "guess"%string; refresh_token := None;
                client_id := "client_a"; client_secret := None |} in
  ∃ e response w',
    run_all [token_endpoint default_settings bad; token_endpoint default_settings redeem_form]
      world1 = ([Raised e; Returned response], w') ∧
    authorization_codes (storage (run (token_endpoint default_settings bad) world1).2)
      !! "code1"%string = Some sample_code.
Proof.
  intros bad.
  destruct (C10_refused_request_keeps_code default_settings bad redeem_form world1
              sample_client sample_client sample_code "code1" "https://a/cb" "guess")
    as (e & response & w' & _ & _ & Hkept & Hrun & _).
  - apply world1_fresh.
  - reflexivity.
  - split; [vm_compute; reflexivity|by left].
  - reflexivity.
  - reflexivity.
  - reflexivity.
  - reflexivity.
  - right; right. vm_compute. reflexivity.
  - apply redeem_form_matching.
  - exists e, response, w'. split; [exact Hrun|exact Hkept].
Defined.

(** ** Expiry of authorization codes *)

(** What [authorize] stores when it answers with a redirect: the code drawn
    from the random source, unused, expiring the configured number of
    minutes after the clock reading it took. *)
Lemma authorize_issues settings response_type cid redirect challenge method scope state
    (w : World) url w' :
  run (authorize settings response_type cid redirect challenge method scope state) w
    = (Returned url, w') →
  ∃ a, authorization_codes (storage w') !! entropy w (draws w) = Some a ∧
       ac_code a = entropy w (draws w) ∧
       ac_client_id a = cid ∧
       ac_redirect_uri a = redirect ∧
       ac_code_challenge a = challenge ∧
       ac_used a = false ∧
       ac_expires_at a =
         (clock w (ticks w)
          + timedelta_minutes (OAUTH_AUTHORIZATION_CODE_EXPIRE_MINUTES settings))%Z.
Proof.
  unfold authorize.
  destruct (negb (response_type =? "code")%string); [done|]. cbn.
  destruct (get_client cid (storage w)) as [client|]; [|done].
  destruct (negb (bool_decide _)); [done|].
  destruct (challenge =? "")%string; [done|].
  destruct (CodeChallengeMethod_of_value method) as [m|]; [|done].
  cbn. intros [= _ <-]. cbn.
  eexists. split; [apply lookup_insert_eq|done].
Qed.

(** C2, as the code has it: a redemption request whose clock reading, at
    the lookup of the code or at its marking, is later than the code's expiry
    never returns; when the request passes the client check and carries its
    three parameters, an expiry passed at the lookup is answered with status
    400, "Invalid or expired authorization code". The expiry is the instant
    of issue plus the lifetime, so with a lifetime of zero this covers every
    reading later than the instant of issue. *)
Theorem C2_expired_code_never_redeems settings (form : TokenForm) (w : World)
    (c : string) (a : AuthorizationCode) (issued_at ttl : Z) :
  grant_type form = "authorization_code"%string →
  Py.nonempty (code form) = Some c →
  authorization_codes (storage w) !! c = Some a →
  ac_expires_at a = (issued_at + timedelta_minutes ttl)%Z →
  (clock w (ticks w) > issued_at + timedelta_minutes ttl ∨
   clock w (S (ticks w)) > issued_at + timedelta_minutes ttl)%Z →
  (∃ e, (run (token_endpoint settings form) w).1 = Raised e) ∧
  (∀ client r v,
     authenticates client form w →
     Py.nonempty (redirect_uri form) = Some r →
     Py.nonempty (code_verifier form) = Some v →
     (clock w (ticks w) > issued_at + timedelta_minutes ttl)%Z →
     run (token_endpoint settings form) w =
       (Raised (http_error 400 "Invalid or expired authorization code"), (utcnow w).2)).
Proof.
  intros Hg Hcode Ha Hexp Hlate. split.
  - destruct (run (token_endpoint settings form) w) as [[response|e] w'] eqn:Hrun;
      [|by exists e].
    apply redeem_returned in Hrun as (client & c' & r & v & a' & _ & Hc' & _ & _ & Ha'
                                       & _ & Hnow1 & Hnow2 & _); [|done].
    rewrite Hcode in Hc'. injection Hc' as <-.
    rewrite Ha in Ha'. injection Ha' as <-. lia.
  - intros client r v Hauth Hr Hv Hnow.
    rewrite <-(get_authorization_code_found c w a Ha).
    eapply redeem_lookup_fails; try done.
    destruct (get_authorization_code c w).1 as [a'|] eqn:Hget; [|done].
    apply get_authorization_code_Some in Hget as (Ha' & ? & _).
    rewrite Ha in Ha'. injection Ha' as <-. lia.
Qed.

Lemma C2_expired_code_never_redeems_witness :
  run (token_endpoint default_settings redeem_form) (sample_world sample_storage 2001%Z) =
    (Raised (http_error 400 "Invalid or expired authorization code"),
     (utcnow (sample_world sample_storage 2001%Z)).2).
Proof.
  refine (proj2 (C2_expired_code_never_redeems default_settings redeem_form
            (sample_world sample_storage 2001%Z) "code1" sample_code 2000%Z 0%Z _ _ _ _ _)
          sample_client "https://a/cb"%string sample_verifier _ _ _ _).
  - reflexivity.
  - reflexivity.
  - vm_compute. reflexivity.
  - reflexivity.
  - left. vm_compute. reflexivity.
  - split; [vm_compute; reflexivity|left; reflexivity].
  - reflexivity.
  - reflexivity.
  - vm_compute. reflexivity.
Defined.

(** A code issued with a lifetime of zero and redeemed at the very clock
    reading of its issue is served: the expiry check is [now > expires_at]. *)
Lemma C2_zero_ttl_redeemed_at_issue :
  let settings0 := {| SERVER_URL := SERVER_URL default_settings;
                      JWT_SECRET_KEY := JWT_SECRET_KEY default_settings;
                      JWT_ALGORITHM := JWT_ALGORITHM default_settings;
                      JWT_ACCESS_TOKEN_EXPIRE_MINUTES := 60;
                      OAUTH_AUTHORIZATION_CODE_EXPIRE_MINUTES := 0;
                      OAUTH_REFRESH_TOKEN_EXPIRE_DAYS := 30 |} in
  let w0 := frozen_world (store_client sample_client empty_storage) 1000%Z in
  let issued := run (authorize settings0 "code" "client_a" "https://a/cb"
                       (ac_code_challenge sample_code) "S256" None None) w0 in
  let form := {| grant_type := "authorization_code"; code := Some "a"%string;
                 redirect_uri := Some "https://a/cb"%string;
                 code_verifier := Some sample_verifier; refresh_token := None;
                 client_id := "client_a"; client_secret := None |} in
  issued.1 = Returned "https://a/cb?code=a"%string ∧
  (ac_expires_at <$> authorization_codes (storage issued.2) !! "a"%string) = Some 1000%Z ∧
  ∃ response w', run (token_endpoint settings0 form) issued.2 = (Returned response, w').
Proof.
  intros settings0 w0 issued form. split; [|split].
  - vm_compute. reflexivity.
  - vm_compute. reflexivity.
  - eexists _, _. vm_compute. reflexivity.
Qed.

(** ** Requests without a client secret *)

(** C3, as the code has it: a request without a client secret skips the
    secret comparison. Under the authorization-code grant it is served only
    if its verifier passes PKCE against the stored challenge, and a failing
    verifier is answered with status 400, "Invalid code_verifier" (a bad
    grant, not a bad client). The refresh grant asks for no PKCE proof: a
    stored, live refresh token of the client is enough. *)
Theorem C3_no_secret settings (form : TokenForm) (w : World) :
  client_secret form = None →
  (∀ response w',
     grant_type form = "authorization_code"%string →
     run (token_endpoint settings form) w = (Returned response, w') →
     ∃ c v a,
       Py.nonempty (code form) = Some c ∧
       Py.nonempty (code_verifier form) = Some v ∧
       authorization_codes (storage w) !! c = Some a ∧
       verify_code_challenge v (ac_code_challenge a) (ac_code_challenge_method a) = true) ∧
  (∀ client c r v a,
     get_client (client_id form) (storage w) = Some client →
     grant_type form = "authorization_code"%string →
     Py.nonempty (code form) = Some c →
     Py.nonempty (redirect_uri form) = Some r →
     Py.nonempty (code_verifier form) = Some v →
     (get_authorization_code c w).1 = Some a →
     ac_client_id a = client_id form →
     ac_redirect_uri a = r →
     verify_code_challenge v (ac_code_challenge a) (ac_code_challenge_method a) = false →
     run (token_endpoint settings form) w =
       (Raised (http_error 400 "Invalid code_verifier"), (utcnow w).2)) ∧
  (∀ client tok rt,
     get_client (client_id form) (storage w) = Some client →
     presents tok form →
     (get_refresh_token tok w).1 = Some rt →
     rt_client_id rt = client_id form →
     ∃ response w', run (token_endpoint settings form) w = (Returned response, w')).
Proof.
  intros Hsecret. split; [|split].
  - intros response w' Hg Hrun.
    apply redeem_returned in Hrun as (client & c & r & v & a & _ & Hc & _ & Hv & Ha
                                       & _ & _ & _ & _ & _ & Hver & _); [|done].
    by exists c, v, a.
  - intros client c r v a Hclient Hg Hc Hr Hv Hget Hid Hredir Hver.
    eapply redeem_bad_verifier; try done. split; [done|by left].
  - intros client tok rt Hclient [Hg Htok] Hget Hid.
    unfold token_endpoint. cbn. rewrite Hclient. cbn. rewrite Hsecret. cbn.
    rewrite Hg. cbn. rewrite Htok. cbn.
    destruct (get_refresh_token tok w) as [o w1]. cbn in Hget. subst o.
    rewrite Hid, String.eqb_refl. cbn. by eexists _, _.
Qed.

Lemma C3_no_secret_witness :
  ∃ response w',
    run (token_endpoint default_settings refresh_form) world1 = (Returned response, w').
Proof.
  refine (proj2 (proj2 (C3_no_secret default_settings refresh_form world1 _))
            sample_client "rtok"%string sample_refresh _ _ _ _).
  - reflexivity.
  - vm_compute. reflexivity.
  - done.
  - vm_compute. reflexivity.
  - reflexivity.
Defined.

(** A refresh request with neither a client secret nor a verifier is served,
    and a code request with no secret and a failing verifier is answered with
    status 400, not 401. *)
Lemma C3_refresh_without_secret_or_pkce :
  let bad := {| grant_type := "authorization_code"; code := Some "code1"%string;
                redirect_uri := Some "https://a/cb"%string;
                code_verifier := Some "guess"%string; refresh_token := None;
                client_id := "client_a"; client_secret := None |} in
  client_secret refresh_form = None ∧
  code_verifier refresh_form = None ∧
  (∃ response w',
     run (token_endpoint default_settings refresh_form) world1 = (Returned response, w')) ∧
  (run (token_endpoint default_settings bad) world1).1 =
    Raised (http_error 400 "Invalid code_verifier").
Proof.
  intros bad. split; [done|]. split; [done|]. split.
  - eexists _, _. vm_compute. reflexivity.
  - vm_compute. reflexivity.
Qed.

(** ** Verification of access tokens *)

(** C5, as the code has it: every rejected access token is answered with
    status 401 and the header [WWW-Authenticate: Bearer], whatever the cause;
    the detail is "Invalid token: " followed by the message of the error
    the JWT library raised, which is "Signature verification failed." for a
    bad signature and "Signature has expired." for an elapsed expiry. *)
Theorem C5_rejection_names_its_cause settings (now : datetime) (token : JWT)
    (e : HTTPException) :
  verify_access_token settings now token = Raised e →
  status_code e = 401%Z ∧
  headers e = [("WWW-Authenticate", "Bearer")]%string ∧
  ∃ reason,
    detail e = ("Invalid token: " +:+ reason)%string ∧
    (jwt_alg token = JWT_ALGORITHM settings →
     jwt_signed_with token ≠ JWT_SECRET_KEY settings →
     reason = "Signature verification failed."%string) ∧
    (jwt_alg token = JWT_ALGORITHM settings →
     jwt_signed_with token = JWT_SECRET_KEY settings →
     (exp (jwt_claims token) < timegm now)%Z →
     reason = "Signature has expired."%string).
Proof.
  unfold verify_access_token, jwt_decode.
  destruct (bool_decide_reflect (jwt_alg token ∈ [JWT_ALGORITHM settings])) as [Halg|Halg]; cbn.
  2:{ intros [= <-]. cbn. repeat split. eexists. split; [done|].
      split; intros Halg'; destruct Halg; rewrite Halg'; left. }
  destruct (String.eqb_spec (jwt_signed_with token) (JWT_SECRET_KEY settings)) as [Hkey|Hkey]; cbn.
  2:{ intros [= <-]. cbn. repeat split. eexists. split; [done|]. by split. }
  destruct (Z.ltb_spec (exp (jwt_claims token)) (timegm now)) as [Hexp|Hexp].
  { intros [= <-]. cbn. repeat split. eexists. split; [done|]. by split. }
  destruct (negb _); [|done].
  intros [= <-]. cbn. repeat split. eexists. split; [done|]. split; [done|]. lia.
Qed.

Lemma C5_rejection_names_its_cause_witness :
  let forged := jwt_encode (sample_claims 5000) "some other key" "HS256" in
  ∃ e, verify_access_token default_settings 1000000%Z forged = Raised e ∧
       status_code e = 401%Z ∧
       detail e = "Invalid token: Signature verification failed."%string.
Proof.
  intros forged. eexists. split; [reflexivity|].
  destruct (C5_rejection_names_its_cause default_settings 1000000%Z forged _ eq_refl)
    as (Hstatus & _ & reason & Hdetail & Hsig & _).
  split; [exact Hstatus|]. rewrite Hdetail, Hsig; done.
Defined.

(** A token whose expiry has passed and a token signed with another key are
    both rejected, with two different errors. *)
Lemma C5_expired_and_forged_differ :
  let expired := jwt_encode (sample_claims 0) (JWT_SECRET_KEY default_settings) "HS256" in
  let forged := jwt_encode (sample_claims 5000) "some other key" "HS256" in
  ∃ e1 e2,
    verify_access_token default_settings 1000000%Z expired = Raised e1 ∧
    verify_access_token default_settings 1000000%Z forged = Raised e2 ∧
    detail e1 = "Invalid token: Signature has expired."%string ∧
    detail e2 = "Invalid token: Signature verification failed."%string ∧
    e1 ≠ e2.
Proof.
  intros expired forged. eexists _, _.
  split; [reflexivity|]. split; [reflexivity|]. split; [reflexivity|].
  split; [reflexivity|]. discriminate.
Qed.

(** ** PKCE *)

Section pkce.
Local Open Scope Z_scope.

Local Ltac sextet := unfold is_byte in *; Z.div_mod_to_equations; lia.

Lemma list_ind3 {A} (P : list A → Prop) :
  P [] → (∀ x, P [x]) → (∀ x y, P [x; y]) →
  (∀ x y z l, P l → P (x :: y :: z :: l)) →
  ∀ l, P l.
Proof.
  intros H0 H1 H2 H3 l.
  assert (P l ∧ (∀ x, P (x :: l)) ∧ (∀ x y, P (x :: y :: l))) as [? _]; [|done].
  induction l as [|a l (IH0 & IH1 & IH2)]; [by repeat split|].
  split; [apply IH1|]. split; [intros x; apply IH2|]. intros x y. by apply H3.
Qed.

Lemma alphabet_range v : 0 ≤ v < 64 → 45 ≤ Base64.alphabet v < 123 ∧ Base64.alphabet v ≠ 61.
Proof.
  intros Hv. unfold Base64.alphabet.
  destruct (Z.ltb_spec v 26); [lia|].
  destruct (Z.ltb_spec v 52); [lia|].
  destruct (Z.ltb_spec v 62); [lia|].
  destruct (Z.eqb_spec v 62); lia.
Qed.

Lemma alphabet_inj u v :
  0 ≤ u < 64 → 0 ≤ v < 64 → Base64.alphabet u = Base64.alphabet v → u = v.
Proof.
  intros Hu Hv. unfold Base64.alphabet.
  destruct (Z.ltb_spec u 26), (Z.ltb_spec v 26),
    (Z.ltb_spec u 52), (Z.ltb_spec v 52),
    (Z.ltb_spec u 62), (Z.ltb_spec v 62),
    (Z.eqb_spec u 62), (Z.eqb_spec v 62); lia.
Qed.

Lemma ord_chr x : is_byte x → Py.ord (Py.chr x) = x.
Proof.
  intros [? ?]. unfold Py.ord, Py.chr.
  rewrite N_ascii_embedding; lia.
Qed.

Lemma chr_inj x y : is_byte x → is_byte y → Py.chr x = Py.chr y → x = y.
Proof. intros Hx Hy Heq. by rewrite <-(ord_chr x), <-(ord_chr y), Heq. Qed.

(** The character of a six-bit value. *)
Lemma digit_inj u v :
  0 ≤ u < 64 → 0 ≤ v < 64 →
  Py.chr (Base64.alphabet u) = Py.chr (Base64.alphabet v) → u = v.
Proof.
  intros Hu Hv Heq. apply alphabet_inj; [done..|].
  pose proof (alphabet_range u Hu). pose proof (alphabet_range v Hv).
  apply chr_inj; [unfold is_byte; lia..|done].
Qed.

Lemma digit_not_padding v : 0 ≤ v < 64 → Ascii.eqb (Py.chr (Base64.alphabet v)) "=" = false.
Proof.
  intros Hv. apply Ascii.eqb_neq. intros Heq.
  pose proof (alphabet_range v Hv) as [? ?].
  change "="%char with (Py.chr 61) in Heq.
  apply chr_inj in Heq; [done|unfold is_byte; lia..].
Qed.

Lemma rstrip_cons c x s :
  Ascii.eqb x c = false → Py.rstrip c (String x s) = String x (Py.rstrip c s).
Proof. intros Hx. cbn. rewrite Hx. by destruct (Py.rstrip c s). Qed.

Local Abbreviation challenge_of d :=
  (Py.rstrip "=" (Py.decode_utf8 (Base64.urlsafe_b64encode d))).

Lemma challenge_of_group x y z l :
  is_byte x → is_byte y → is_byte z →
  challenge_of (x :: y :: z :: l) =
    String (Py.chr (Base64.alphabet (x / 4)))
      (String (Py.chr (Base64.alphabet (x mod 4 * 16 + y / 16)))
        (String (Py.chr (Base64.alphabet (y mod 16 * 4 + z / 64)))
          (String (Py.chr (Base64.alphabet (z mod 64))) (challenge_of l)))).
Proof.
  unfold is_byte. intros Hx Hy Hz.
  change (Py.decode_utf8 (Base64.urlsafe_b64encode (x :: y :: z :: l))) with
    (String (Py.chr (Base64.alphabet (x / 4)))
      (String (Py.chr (Base64.alphabet (x mod 4 * 16 + y / 16)))
        (String (Py.chr (Base64.alphabet (y mod 16 * 4 + z / 64)))
          (String (Py.chr (Base64.alphabet (z mod 64)))
             (Py.decode_utf8 (Base64.urlsafe_b64encode l)))))).
  by do 4 (rewrite rstrip_cons by (apply digit_not_padding; sextet)).
Qed.

Lemma challenge_of_two x y :
  is_byte x → is_byte y →
  challenge_of [x; y] =
    String (Py.chr (Base64.alphabet (x / 4)))
      (String (Py.chr (Base64.alphabet (x mod 4 * 16 + y / 16)))
        (String (Py.chr (Base64.alphabet (y mod 16 * 4))) EmptyString)).
Proof.
  unfold is_byte. intros Hx Hy.
  change (Py.decode_utf8 (Base64.urlsafe_b64encode [x; y])) with
    (String (Py.chr (Base64.alphabet (x / 4)))
      (String (Py.chr (Base64.alphabet (x mod 4 * 16 + y / 16)))
        (String (Py.chr (Base64.alphabet (y mod 16 * 4))) "="%string))).
  by do 3 (rewrite rstrip_cons by (apply digit_not_padding; sextet)).
Qed.

Lemma challenge_of_one x :
  is_byte x →
  challenge_of [x] =
    String (Py.chr (Base64.alphabet (x / 4)))
      (String (Py.chr (Base64.alphabet (x mod 4 * 16))) EmptyString).
Proof.
  unfold is_byte. intros Hx.
  change (Py.decode_utf8 (Base64.urlsafe_b64encode [x])) with
    (String (Py.chr (Base64.alphabet (x / 4)))
      (String (Py.chr (Base64.alphabet (x mod 4 * 16))) "=="%string)).
  by do 2 (rewrite rstrip_cons by (apply digit_not_padding; sextet)).
Qed.

(** Stripped of its padding, the encoding still tells apart any two
    [bytes] objects of one length. *)
Lemma challenge_of_inj (l l' : list Z) :
  length l = length l' → Forall is_byte l → Forall is_byte l' →
  challenge_of l = challenge_of l' → l = l'.
Proof.
  revert l'. induction l as [|x|x y|x y z l IH] using list_ind3; intros l' Hlen Hl Hl' Heq.
  - by destruct l'.
  - destruct l' as [|x' [|]]; try done.
    apply Forall_cons in Hl as [Hx _]. apply Forall_cons in Hl' as [Hx' _].
    rewrite !challenge_of_one in Heq by done. unfold is_byte in *.
    injection Heq as H1 H2.
    apply digit_inj in H1; [|sextet..]. apply digit_inj in H2; [|sextet..].
    f_equal. sextet.
  - destruct l' as [|x' [|y' [|]]]; try done.
    apply Forall_cons in Hl as [Hx [Hy _]%Forall_cons].
    apply Forall_cons in Hl' as [Hx' [Hy' _]%Forall_cons].
    rewrite !challenge_of_two in Heq by done. unfold is_byte in *.
    injection Heq as H1 H2 H3.
    apply digit_inj in H1; [|sextet..]. apply digit_inj in H2; [|sextet..].
    apply digit_inj in H3; [|sextet..].
    assert (x = x') as -> by sextet. assert (y = y') as -> by sextet. done.
  - destruct l' as [|x' [|y' [|z' l']]]; try done.
    apply Forall_cons in Hl as [Hx [Hy [Hz Hl]%Forall_cons]%Forall_cons].
    apply Forall_cons in Hl' as [Hx' [Hy' [Hz' Hl']%Forall_cons]%Forall_cons].
    rewrite !challenge_of_group in Heq by done. unfold is_byte in *.
    injection Heq as H1 H2 H3 H4 Hrest.
    apply digit_inj in H1; [|sextet..]. apply digit_inj in H2; [|sextet..].
    apply digit_inj in H3; [|sextet..]. apply digit_inj in H4; [|sextet..].
    assert (x = x') as -> by sextet. assert (y = y') as -> by sextet.
    assert (z = z') as -> by sextet.
    f_equal. f_equal. f_equal. apply IH; [|done..]. cbn in Hlen. lia.
Qed.

(** *** Digests *)

Lemma digest_length m : length (Sha256.digest m) = 32%nat.
Proof. reflexivity. Qed.

Lemma bytes_of_word_bytes x : Forall is_byte (Sha256.bytes_of_word x).
Proof. repeat constructor; apply Z.mod_pos_bound; lia. Qed.

Lemma digest_bytes m : Forall is_byte (Sha256.digest m).
Proof.
  unfold Sha256.digest, Sha256.bytes_of_hash.
  repeat (apply Forall_app; split); apply bytes_of_word_bytes.
Qed.

Lemma number_of_bytes_bound l :
  Forall is_byte l → 0 ≤ number_of_bytes l < 256 ^ Z.of_nat (length l).
Proof.
  induction 1 as [|x l [? ?] _ IH]; [done|].
  cbn [number_of_bytes length]. rewrite Nat2Z.inj_succ, Z.pow_succ_r by lia. lia.
Qed.

Lemma number_of_bytes_inj l l' :
  length l = length l' → Forall is_byte l → Forall is_byte l' →
  number_of_bytes l = number_of_bytes l' → l = l'.
Proof.
  intros Hlen Hl. revert l' Hlen.
  induction Hl as [|x l [? ?] _ IH]; intros [|x' l'] Hlen Hl' Heq; try done.
  apply Forall_cons in Hl' as [[? ?] Hl']. cbn in Heq.
  assert (x = x') as -> by lia.
  f_equal. apply IH; [by injection Hlen|done|lia].
Qed.

(** *** A family of verifiers *)

Lemma verifier_of_number_length n z : String.length (verifier_of_number n z) = n.
Proof. revert z. induction n as [|n IH]; intros z; [done|]. cbn. by rewrite IH. Qed.

Lemma verifier_of_number_inj n z z' :
  0 ≤ z < 64 ^ Z.of_nat n → 0 ≤ z' < 64 ^ Z.of_nat n →
  verifier_of_number n z = verifier_of_number n z' → z = z'.
Proof.
  revert z z'. induction n as [|n IH]; intros z z' Hz Hz' Heq.
  { change (64 ^ Z.of_nat 0) with 1 in *. lia. }
  rewrite Nat2Z.inj_succ, Z.pow_succ_r in Hz, Hz' by lia.
  cbn in Heq. injection Heq as Hdigit Hrest.
  apply digit_inj in Hdigit; [|apply Z.mod_pos_bound; lia..].
  apply IH in Hrest; [|sextet..].
  rewrite (Z.div_mod z 64), (Z.div_mod z' 64) by lia. congruence.
Qed.

(** Two different verifiers of 43 characters share a digest: there are
    more such verifiers than digests. *)
Lemma digest_collision :
  ∃ v v', v ≠ v' ∧ String.length v = 43%nat ∧ String.length v' = 43%nat ∧
          Sha256.digest (Py.encode_utf8 v) = Sha256.digest (Py.encode_utf8 v').
Proof.
  pose (f := λ i : nat,
    Z.to_nat (number_of_bytes
      (Sha256.digest (Py.encode_utf8 (verifier_of_number 43 (Z.of_nat i)))))).
  assert (0 < 256 ^ 32) as Hpos by (by apply Z.pow_pos_nonneg).
  assert (256 ^ 32 < 64 ^ 43) as Hmore.
  { change 256 with (2 ^ 8). change 64 with (2 ^ 6).
    rewrite <-!Z.pow_mul_r by lia. apply Z.pow_lt_mono_r; lia. }
  remember (256 ^ 32) as digests eqn:Hdigests.
  remember (64 ^ 43) as verifiers eqn:Hverifiers.
  destruct (nat_pigeonhole f (S (Z.to_nat digests)) (Z.to_nat digests))
    as (i & j & Hij & Hf); [lia| |].
  { intros i _. unfold f. apply Z2Nat.inj_lt.
    - apply number_of_bytes_bound, digest_bytes.
    - lia.
    - rewrite Hdigests.
      apply (number_of_bytes_bound (Sha256.digest _)), digest_bytes. }
  unfold f in Hf. apply Z2Nat.inj in Hf;
    [|apply number_of_bytes_bound, digest_bytes..].
  apply number_of_bytes_inj in Hf; [|done|apply digest_bytes..].
  exists (verifier_of_number 43 (Z.of_nat i)), (verifier_of_number 43 (Z.of_nat j)).
  split; [|repeat split; [apply verifier_of_number_length..|exact Hf]].
  intros Heq. apply verifier_of_number_inj in Heq; [lia|..].
  - change (Z.of_nat 43) with 43. rewrite <-Hverifiers. lia.
  - change (Z.of_nat 43) with 43. rewrite <-Hverifiers. lia.
Qed.
End pkce.

(** The S256 challenge of [v] is accepted for [v'] exactly when the two
    digests agree. *)
Lemma s256_accepts v v' :
  verify_code_challenge v'
    (Py.rstrip "=" (Py.decode_utf8 (Base64.urlsafe_b64encode
       (Sha256.digest (Py.encode_utf8 v))))) S256 = true ↔
  Sha256.digest (Py.encode_utf8 v') = Sha256.digest (Py.encode_utf8 v).
Proof.
  unfold verify_code_challenge, generate_code_challenge.
  rewrite String.eqb_eq. split; [|by intros ->].
  apply challenge_of_inj; [by rewrite !digest_length|apply digest_bytes..].
Qed.

(** C6, as the code has it: the challenge computed from a verifier is
    accepted for that verifier, and for another verifier exactly when the two
    have the same SHA-256 digest; every verifier with a different digest is
    refused. *)
Theorem C6_pkce_round_trip (v : string) :
  ∃ challenge,
    generate_code_challenge v S256 = inr challenge ∧
    verify_code_challenge v challenge S256 = true ∧
    ∀ v', verify_code_challenge v' challenge S256 = true ↔
          Sha256.digest (Py.encode_utf8 v') = Sha256.digest (Py.encode_utf8 v).
Proof.
  eexists. split; [reflexivity|]. split.
  - by apply s256_accepts.
  - intros v'. apply s256_accepts.
Qed.

(** Not every pair of different verifiers is told apart: two of them share
    a digest, hence a challenge. *)
Lemma C6_some_other_verifier_passes :
  ¬ (∀ v v' challenge,
       v ≠ v' →
       generate_code_challenge v S256 = inr challenge →
       verify_code_challenge v' challenge S256 = false).
Proof.
  intros Hclaim.
  destruct digest_collision as (v & v' & Hne & _ & _ & Hdigest).
  specialize (Hclaim v v' _ Hne eq_refl).
  rewrite (proj2 (s256_accepts v v')) in Hclaim; [done|]. by symmetry.
Qed.

(** ** Comparisons *)

(** C4: the PKCE check and the client-secret check compare with [==] and
    [!=], which stop at the first difference: against two wrong values of
    the right length the comparison looks at one position or at all of them,
    where a fixed-time comparison looks at all of them both times. *)
Theorem C4_comparisons_stop_at_first_difference :
  let early := "X9Melhoa2OwvFrEMTJguCHaoeK1t8URWbuGJSstw-cM"%string in
  let late := "E9Melhoa2OwvFrEMTJguCHaoeK1t8URWbuGJSstw-cX"%string in
  verify_code_challenge sample_verifier early S256 = false ∧
  verify_code_challenge sample_verifier late S256 = false ∧
  verify_code_challenge_steps sample_verifier early S256 = 1 ∧
  verify_code_challenge_steps sample_verifier late S256 = 43 ∧
  Py.compare_digest_steps (ac_code_challenge sample_code) early = 43 ∧
  Py.compare_digest_steps (ac_code_challenge sample_code) late = 43 ∧
  client_secret_check_steps sample_client "x3cret" = 1 ∧
  client_secret_check_steps sample_client "s3creX" = 6.
Proof. vm_compute. repeat split. Qed.

(** ** The race for one authorization code *)

Section race_proofs.
Context (settings : Settings) (client : RegisteredClient)
        (auth_code : AuthorizationCode) (c : string).
Hypothesis unused : ac_used auth_code = false.

Local Abbreviation fresh := (fresh client auth_code c).
Local Abbreviation spent := (spent client auth_code c).
Local Abbreviation wins := (@Winner client auth_code c TokenResponse).
Local Abbreviation loses := (@Loser client auth_code c TokenResponse).
Local Abbreviation contends := (@Contender client auth_code c TokenResponse).

Lemma spent_utcnow w : spent w → spent (utcnow w).2.
Proof. by intros (? & ? & ?). Qed.

Lemma spent_draw w : spent w → spent (draw w).2.
Proof. by intros (? & ? & ?). Qed.

Lemma spent_store_refresh_token rt w :
  spent w → spent (with_storage (store_refresh_token rt) w).
Proof. by intros (? & ? & ?). Qed.

Lemma fresh_get w :
  fresh w → get_authorization_code c w = (Some auth_code, (utcnow w).2).
Proof.
  intros (_ & Hclock & Ha). unfold get_authorization_code. rewrite Ha, unused.
  cbn. by rewrite Z.gtb_ltb, (proj2 (Z.ltb_ge _ _)).
Qed.

Lemma spent_get w :
  spent w → get_authorization_code c w = (None, (utcnow w).2).
Proof.
  intros (_ & _ & Ha). unfold get_authorization_code. rewrite Ha. cbn.
  by destruct (_ >? _)%Z.
Qed.

Lemma fresh_mark w :
  fresh w →
  mark_code_as_used c w =
    (true, with_storage (with_authorization_codes <[c := set_used auth_code]>) (utcnow w).2).
Proof. intros (_ & Hclock & Ha). by apply mark_code_as_used_marks. Qed.

Lemma spent_mark w : spent w → mark_code_as_used c w = (false, w).
Proof. intros (_ & _ & Ha). unfold mark_code_as_used. by rewrite Ha. Qed.

(** After the lookup of the client, a matching request is at the lookup of
    the code. *)
Local Ltac at_code_lookup Hclient Hs Hg Hcode Hr Hv :=
  rewrite Hclient by auto; cbn -[Contender Loser Winner];
  rewrite (secret_check_passes _ _ Hs); cbn -[Contender Loser Winner];
  rewrite Hg; cbn -[Contender Loser Winner];
  rewrite Hcode, Hr, Hv; cbn -[Contender Loser Winner].

Lemma token_endpoint_contender form :
  matching client auth_code c form → contends (token_endpoint settings form).
Proof.
  intros (Hg & Hcode & Hid & Hr & (v & Hv & Hver) & Hs).
  assert (∀ w, fresh w ∨ spent w →
            get_client (client_id form) (storage w) = Some client) as Hclient.
  { intros w [(Hc & _)|(Hc & _)]; unfold get_client; by rewrite Hid. }
  assert (∀ K : option AuthorizationCode → Prog TokenResponse,
            (∀ w, fresh w → contends (K (Some auth_code))) →
            loses (K None) →
            contends (Vis (GetAuthorizationCode c) K)) as Hlookup.
  { intros K Hsome Hnone. split; intros w Hw; cbn -[get_authorization_code].
    - left. rewrite fresh_get by done. split; [by apply fresh_utcnow|]. by eapply Hsome.
    - rewrite spent_get by done. split; [by apply spent_utcnow|]. by right. }
  assert (∀ K : bool → Prog TokenResponse,
            wins (K true) → loses (K false) →
            contends (Vis (MarkCodeAsUsed c) K)) as Hmark.
  { intros K Htrue Hfalse. split; intros w Hw; cbn -[mark_code_as_used].
    - right. rewrite fresh_mark by done. cbn. split; [|done].
      destruct Hw as (? & ? & ?). repeat split; try done. cbn. apply lookup_insert_eq.
    - rewrite spent_mark by done. cbn. split; [done|by right]. }
  unfold token_endpoint.
  split; intros w Hw; cbn -[Contender Loser Winner];
    [left; split; [done|] | split; [done|]; left];
    at_code_lookup Hclient Hs Hg Hcode Hr Hv;
    (apply Hlookup; [|by left]);
    intros _ _; rewrite Hid, !String.eqb_refl, Hver; cbn -[Contender Loser Winner];
    (apply Hmark; [|by right]); cbn;
    (intros w1 Hw1; split; [by apply spent_utcnow|]);
    (intros w2 Hw2; split; [by apply spent_utcnow|]);
    (intros w3 Hw3; split; [by apply spent_draw|]);
    (intros w4 Hw4; split; [by apply spent_utcnow|]);
    (intros w5 Hw5; split; [by apply spent_store_refresh_token|]); done.
Qed.

Local Abbreviation invariant := (@race_invariant client auth_code c TokenResponse).

Lemma race_step (pw : list (Prog TokenResponse) * World) (i : nat) :
  invariant pw → invariant (sched_step pw i).
Proof.
  destruct pw as [pool w]. unfold sched_step. cbn [fst snd].
  destruct (pool !! i) as [[r|e|X op k]|] eqn:Hi; try done.
  pose proof (lookup_lt_Some _ _ _ Hi) as Hlt.
  destruct (exec op w) as [x w'] eqn:Hexec.
  unfold race_invariant. cbn [fst snd].
  intros [[Hfresh Hall]|(Hspent & i0 & p0 & Hi0 & Hwin & Hrest)].
  - pose proof (proj1 (Forall_lookup _ _) Hall i _ Hi) as [Hstep _].
    destruct (Hstep w Hfresh) as [[Hfresh' Hnext]|[Hspent' Hnext]];
      rewrite Hexec in *; cbn [fst snd] in *.
    + left. split; [done|]. by apply Forall_insert.
    + right. split; [done|]. exists i, (k x).
      split; [by apply list_lookup_insert_eq|]. split; [done|].
      intros j q Hj Hq. rewrite list_lookup_insert_ne in Hq by done.
      left. by apply (proj1 (Forall_lookup _ _) Hall j).
  - right. destruct (decide (i = i0)) as [->|Hne].
    + rewrite Hi in Hi0. injection Hi0 as <-.
      destruct (Hwin w Hspent) as [Hspent' Hnext]. rewrite Hexec in *. cbn [fst snd] in *.
      split; [done|]. exists i0, (k x).
      split; [by apply list_lookup_insert_eq|]. split; [done|].
      intros j q Hj Hq. rewrite list_lookup_insert_ne in Hq by done. by eapply Hrest.
    + assert (spent w' ∧ (contends (k x) ∨ loses (k x))) as [Hspent' Hnext].
      { destruct (Hrest i _ Hne Hi) as [[_ Hstep]|Hstep].
        - specialize (Hstep w Hspent). by rewrite Hexec in Hstep.
        - specialize (Hstep w Hspent). rewrite Hexec in Hstep. cbn in Hstep.
          split; [apply Hstep|right; apply Hstep]. }
      split; [done|]. exists i0, p0.
      split; [by rewrite list_lookup_insert_ne|]. split; [done|].
      intros j q Hj Hq. destruct (decide (j = i)) as [->|Hji].
      * rewrite list_lookup_insert_eq in Hq by done. by injection Hq as <-.
      * rewrite list_lookup_insert_ne in Hq by done. by eapply Hrest.
Qed.

Lemma race_interleave schedule (pw : list (Prog TokenResponse) * World) :
  invariant pw → invariant (interleave schedule pw).
Proof.
  revert pw. induction schedule as [|i schedule IH]; intros pw Hinv; [done|].
  apply IH. by apply race_step.
Qed.

Lemma race_start (forms : list TokenForm) (w : World) :
  fresh w → Forall (matching client auth_code c) forms →
  invariant (map (token_endpoint settings) forms, w).
Proof.
  intros Hfresh Hforms. left. split; [done|]. cbn.
  apply Forall_map. eapply Forall_impl; [done|].
  intros form. apply token_endpoint_contender.
Qed.

Lemma race_end (pw : list (Prog TokenResponse) * World) :
  invariant pw → pw.1 ≠ [] → Forall (λ p, finished p = true) pw.1 →
  ∃ i response,
    pw.1 !! i = Some (Ret response) ∧
    ∀ j q, j ≠ i → pw.1 !! j = Some q → ∃ e, q = Raise e ∧ rejected e.
Proof.
  destruct pw as [pool w]. unfold race_invariant. cbn [fst snd].
  intros [[_ Hall]|(_ & i & p & Hi & Hwin & Hrest)] Hne Hdone.
  - destruct pool as [|p pool]; [done|].
    apply Forall_cons in Hall as [Hp _]. apply Forall_cons in Hdone as [Hfin _].
    by destruct p.
  - destruct p as [response|e|]; [|done|].
    2:{ by pose proof (proj1 (Forall_lookup _ _) Hdone i _ Hi). }
    exists i, response. split; [done|]. intros j q Hj Hq.
    pose proof (proj1 (Forall_lookup _ _) Hdone j _ Hq) as Hfin.
    destruct (Hrest j q Hj Hq) as [Hq'|Hq']; destruct q as [|e|]; try done.
    by exists e.
Qed.

Lemma race_safe (pw : list (Prog TokenResponse) * World) i j r r' :
  invariant pw → pw.1 !! i = Some (Ret r) → pw.1 !! j = Some (Ret r') → i = j.
Proof.
  destruct pw as [pool w]. unfold race_invariant. cbn [fst snd].
  intros [[_ Hall]|(_ & i0 & p & Hi0 & Hwin & Hrest)] Hi Hj.
  - by pose proof (proj1 (Forall_lookup _ _) Hall i _ Hi).
  - destruct (decide (i = i0)) as [->|Hne]; [|by destruct (Hrest i _ Hne Hi)].
    destruct (decide (j = i0)) as [->|Hne]; [done|by destruct (Hrest j _ Hne Hj)].
Qed.
End race_proofs.

(** *** Every handler of the pool ends *)

Lemma sched_step_length {A} (pw : list (Prog A) * World) (i : nat) :
  length (sched_step pw i).1 = length pw.1.
Proof.
  unfold sched_step. destruct (pw.1 !! i) as [[| |X op k]|]; try done.
  destruct (exec op pw.2). cbn. apply length_insert.
Qed.

Lemma interleave_length {A} schedule (pw : list (Prog A) * World) :
  length (interleave schedule pw).1 = length pw.1.
Proof.
  revert pw. induction schedule as [|i schedule IH]; intros pw; [done|].
  cbn. unfold interleave in IH. by rewrite IH, sched_step_length.
Qed.

Lemma ends_within_finished {A} (n : nat) (p : Prog A) : finished p = true → ends_within n p.
Proof. by destruct p. Qed.

Lemma interleave_finishes {A} schedule (pool : list (Prog A)) (w : World)
    (i n : nat) (p : Prog A) :
  pool !! i = Some p →
  ends_within n p →
  n ≤ count_occ Nat.eq_dec schedule i →
  ∃ p', (interleave schedule (pool, w)).1 !! i = Some p' ∧ finished p' = true.
Proof.
  revert pool w n p. induction schedule as [|j schedule IH]; intros pool w n p Hi Hn Hturns.
  { exists p. split; [done|]. destruct p; try done. cbn in *.
    assert (n = 0) as -> by lia. done. }
  cbn [interleave fold_left]. change (fold_left sched_step schedule ?pw) with (interleave schedule pw).
  cbn [count_occ] in Hturns. unfold sched_step at 1. cbn [fst snd].
  destruct (Nat.eq_dec j i) as [->|Hne].
  - rewrite Hi. destruct p as [a|e|X op k].
    + apply (IH pool w 0 (Ret a)); [done..|lia].
    + apply (IH pool w 0 (Raise e)); [done..|lia].
    + destruct (exec op w) as [x w'].
      destruct n as [|n]; [done|]. cbn in Hn.
      apply (IH _ w' n (k x)); [|done|lia].
      apply list_lookup_insert_eq. by eapply lookup_lt_Some.
  - destruct (pool !! j) as [[a|e|X op k]|]; try by apply (IH pool w n p).
    destruct (exec op w) as [x w'].
    apply (IH _ w' n p); [|done..]. by rewrite list_lookup_insert_ne.
Qed.

Lemma token_endpoint_ends settings form : ends_within 8 (token_endpoint settings form).
Proof.
  unfold token_endpoint. cbn. intros [client|]; [|done]. cbn.
  destruct (client_secret form) as [secret|]; cbn; [destruct (negb _); [done|]; cbn|];
    (destruct (grant_type form =? "authorization_code")%string;
     [ destruct (Py.nonempty (code form)); [|done];
       destruct (Py.nonempty (redirect_uri form)); [|done];
       destruct (Py.nonempty (code_verifier form)); [|done];
       cbn; intros [a|]; [|done];
       repeat (destruct (negb _); [done|]); cbn; intros [|]; done
     | destruct (_ =? "refresh_token")%string; [|done];
       destruct (Py.nonempty (refresh_token form)); [|done];
       cbn; intros [rt|]; [|done]; by destruct (negb _) ]).
Qed.

(** C1: however the scheduler interleaves the operations of N >= 2 handlers
    that redeem one fresh code with matching parameters, no two handlers
    ever return; once the handlers have ended exactly one has returned and
    every other has raised status 400, as an invalid, expired or already used
    code; and every schedule that gives each handler eight turns ends them
    all. The clock stays within the code's lifetime. *)
Theorem C1_code_redeemed_once settings (forms : list TokenForm) (w : World)
    (client : RegisteredClient) (auth_code : AuthorizationCode) (c : string)
    (schedule : list nat) :
  2 ≤ length forms →
  fresh client auth_code c w →
  ac_used auth_code = false →
  Forall (matching client auth_code c) forms →
  let final := (interleave schedule (map (token_endpoint settings) forms, w)).1 in
  length final = length forms ∧
  (∀ i j response response',
     final !! i = Some (Ret response) → final !! j = Some (Ret response') → i = j) ∧
  ((∀ i, i < length forms → 8 ≤ count_occ Nat.eq_dec schedule i) →
   Forall (λ p, finished p = true) final) ∧
  (Forall (λ p, finished p = true) final →
   ∃ i response,
     final !! i = Some (Ret response) ∧
     ∀ j q, j ≠ i → final !! j = Some q → ∃ e, q = Raise e ∧ rejected e).
Proof.
  intros HN Hfresh Hunused Hforms final.
  assert (length final = length forms) as Hlen.
  { unfold final. rewrite interleave_length. cbn [fst]. apply length_map. }
  split; [done|]. split.
  { intros i j response response'. apply (race_safe client auth_code c).
    apply race_interleave, race_start; done. }
  split.
  - intros Hturns. apply Forall_lookup. intros i p Hp.
    pose proof (lookup_lt_Some _ _ _ Hp) as Hi. rewrite Hlen in Hi.
    destruct (lookup_lt_is_Some_2 forms i Hi) as [form Hform].
    destruct (interleave_finishes schedule (map (token_endpoint settings) forms) w i 8
                (token_endpoint settings form)) as (p' & Hp' & Hfin).
    + by rewrite list_lookup_fmap, Hform.
    + apply token_endpoint_ends.
    + by apply Hturns.
    + fold final in Hp'. congruence.
  - intros Hdone.
    apply (race_end client auth_code c
             (interleave schedule (map (token_endpoint settings) forms, w))); [|..|done].
    + apply race_interleave, race_start; done.
    + fold final. intros Hnil. rewrite Hnil in Hlen. cbn in Hlen. lia.
Qed.

Lemma C1_code_redeemed_once_witness :
  let with_secret :=
    {| grant_type := "authorization_code"; code := Some "code1"%string;
       redirect_uri := Some "https://a/cb"%string;
       code_verifier := Some sample_verifier; refresh_token := None;
       client_id := "client_a"; client_secret := Some "s3cret"%string |} in
  let forms := [redeem_form; with_secret; redeem_form] in
  let schedule := concat (replicate 8 [0; 1; 2]) in
  let final := (interleave schedule (map (token_endpoint default_settings) forms, world1)).1 in
  ∃ i response,
    final !! i = Some (Ret response) ∧
    ∀ j q, j ≠ i → final !! j = Some q → ∃ e, q = Raise e ∧ rejected e.
Proof.
  intros with_secret forms schedule final.
  destruct (C1_code_redeemed_once default_settings forms world1 sample_client sample_code
              "code1" schedule) as (_ & _ & Hends & Hone).
  - cbn. lia.
  - apply world1_fresh.
  - reflexivity.
  - apply Forall_cons. split; [apply redeem_form_matching|].
    apply Forall_cons. split; [|by apply Forall_cons; split; [apply redeem_form_matching|]].
    split; [reflexivity|]. split; [reflexivity|]. split; [reflexivity|].
    split; [reflexivity|]. split; [|right; reflexivity].
    exists sample_verifier. split; [reflexivity|]. vm_compute. reflexivity.
  - apply Hone, Hends. intros i Hi.
    destruct i as [|[|[|i]]]; [vm_compute; lia..|cbn in Hi; lia].
Defined.

(** Two interleavings of two handlers: the second handler marks the code
    before the first looks it up, or after. *)
Example race_lost_at_lookup :
  map (λ p, match p with Raise e => Some (detail e) | _ => None end)
    (interleave [0; 1; 1; 1; 0; 1; 1; 1; 1; 1]
       (map (token_endpoint default_settings) [redeem_form; redeem_form], world1)).1
  = [Some "Invalid or expired authorization code"%string; None].
Proof. vm_compute. reflexivity. Qed.

Example race_lost_at_marking :
  map (λ p, match p with Raise e => Some (detail e) | _ => None end)
    (interleave [0; 0; 1; 1; 1; 0; 1; 1; 1; 1; 1]
       (map (token_endpoint default_settings) [redeem_form; redeem_form], world1)).1
  = [Some "Authorization code already used or expired"%string; None].
Proof. vm_compute. reflexivity. Qed.

Example race_both_ended :
  map finished
    (interleave [0; 0; 1; 1; 1; 0; 1; 1; 1; 1; 1]
       (map (token_endpoint default_settings) [redeem_form; redeem_form], world1)).1
  = [true; true].
Proof. vm_compute. reflexivity. Qed.

(** ** The flow of [server/tests/test_flow.py], run on the model *)

Example complete_flow :
  let callback := "http://localhost:3000/callback"%string in
  let scopes := "mcp:tools:read mcp:tools:execute"%string in
  let registered := run (register_client (sample_request [callback])) world0 in
  let authorized :=
    run (authorize default_settings "code" "client_a" callback
           (ac_code_challenge sample_code) "S256" (Some scopes)
           (Some "random_state_123"%string)) registered.2 in
  let exchange :=
    {| grant_type := "authorization_code"; code := Some "c"%string;
       redirect_uri := Some callback; code_verifier := Some sample_verifier;
       refresh_token := None; client_id := "client_a"; client_secret := None |} in
  let redeemed := run (token_endpoint default_settings exchange) authorized.2 in
  let refresh :=
    {| grant_type := "refresh_token"; code := None; redirect_uri := None;
       code_verifier := None; refresh_token := Some "d"%string;
       client_id := "client_a"; client_secret := None |} in
  let refreshed := run (token_endpoint default_settings refresh) redeemed.2 in
  (∃ response, registered.1 = Returned response ∧
     resp_client_id response = "client_a"%string ∧
     resp_client_secret response = Some "b"%string ∧
     resp_scope response = Some scopes) ∧
  authorized.1 =
    Returned "http://localhost:3000/callback?code=c&state=random_state_123"%string ∧
  (∃ response, redeemed.1 = Returned response ∧
     token_type response = "Bearer"%string ∧
     expires_in response = 3600%Z ∧
     tr_refresh_token response = Some "d"%string ∧
     verify_access_token default_settings 2000%Z (access_token response)
       = Returned (jwt_claims (access_token response))) ∧
  (∃ response, refreshed.1 = Returned response ∧
     claim_scope (jwt_claims (access_token response)) = scopes ∧
     sub (jwt_claims (access_token response)) = "mock_user_123"%string ∧
     tr_refresh_token response = Some "d"%string) ∧
  (run (token_endpoint default_settings exchange) redeemed.2).1 =
    Raised (http_error 400 "Invalid or expired authorization code").
Proof.
  vm_compute.
  split; [eexists; repeat split|]. split; [reflexivity|].
  split; [eexists; repeat split|]. split; [eexists; repeat split|]. reflexivity.
Qed.

Example sha256_two_blocks :
  Sha256.digest (repeat 97%Z 70)
  = [107; 213; 229; 3; 72; 85; 161; 18; 65; 240; 222; 232; 252; 114; 133; 15; 253;
     153; 85; 178; 131; 71; 168; 100; 40; 181; 250; 25; 17; 159; 106; 208]%Z.
Proof. vm_compute. reflexivity. Qed.

Example challenge_of_empty_verifier :
  generate_code_challenge "" S256
  = inr "47DEQpj8HBSa-_TImW-5JCeuQeRkm5NMpJWZG3hSuFU"%string.
Proof. vm_compute. reflexivity. Qed.

Example plain_challenge_is_verifier :
  generate_code_challenge sample_verifier PLAIN = inr sample_verifier ∧
  verify_code_challenge sample_verifier sample_verifier PLAIN = true ∧
  verify_code_challenge "other" sample_verifier PLAIN = false.
Proof. vm_compute. repeat split. Qed.

(** ** The storage's maintenance methods *)

Lemma get_refresh_token_fst (tok : string) (w : World) :
  (get_refresh_token tok w).1 =
    match refresh_tokens (storage w) !! tok with
    | Some rt =>
        if (clock w (ticks w) >? rt_expires_at rt)%Z then None
        else if rt_revoked rt then None else Some rt
    | None => None
    end.
Proof.
  unfold get_refresh_token.
  destruct (refresh_tokens (storage w) !! tok) as [rt|]; [|reflexivity].
  cbn. destruct (_ >? _)%Z; [reflexivity|]. by destruct (rt_revoked rt).
Qed.

Lemma get_authorization_code_fst (c : string) (w : World) :
  (get_authorization_code c w).1 =
    match authorization_codes (storage w) !! c with
    | Some a =>
        if (clock w (ticks w) >? ac_expires_at a)%Z then None
        else if ac_used a then None else Some a
    | None => None
    end.
Proof.
  unfold get_authorization_code.
  destruct (authorization_codes (storage w) !! c) as [a|]; [|reflexivity].
  cbn. destruct (_ >? _)%Z; [reflexivity|]. by destruct (ac_used a).
Qed.

(** X1: a revoked refresh token is never returned again, whatever the clock
    reads; revoking touches no other refresh token, no client and no code;
    revoking an absent token changes nothing, and revoking twice is revoking
    once. *)
Theorem revoke_refresh_token_is_final (tok : string) (w : World) :
  let w' := with_storage (revoke_refresh_token tok) w in
  (get_refresh_token tok w').1 = None ∧
  (∀ other, other ≠ tok →
     (get_refresh_token other w').1 = (get_refresh_token other w).1) ∧
  clients (storage w') = clients (storage w) ∧
  authorization_codes (storage w') = authorization_codes (storage w) ∧
  (refresh_tokens (storage w) !! tok = None → storage w' = storage w) ∧
  revoke_refresh_token tok (storage w') = storage w'.
Proof.
  cbn zeta. split_and!.
  - rewrite get_refresh_token_fst. cbn. rewrite lookup_alter_eq.
    destruct (refresh_tokens (storage w) !! tok) as [rt|]; [|reflexivity].
    cbn. by destruct (_ >? _)%Z.
  - intros other Hne. rewrite !get_refresh_token_fst. cbn.
    by rewrite lookup_alter_ne.
  - reflexivity.
  - reflexivity.
  - intros Hnone. destruct w as [[cl co rts] ? ? ? ?]. cbn in *.
    unfold revoke_refresh_token, with_refresh_tokens. cbn. f_equal.
    apply map_eq. intros k. destruct (decide (k = tok)) as [->|Hne].
    + by rewrite lookup_alter_eq, Hnone.
    + by rewrite lookup_alter_ne.
  - destruct w as [[cl co rts] ? ? ? ?]. cbn.
    unfold revoke_refresh_token, with_refresh_tokens. cbn. f_equal.
    apply map_eq. intros k. destruct (decide (k = tok)) as [->|Hne].
    + rewrite !lookup_alter_eq. by destruct (rts !! tok).
    + by rewrite !lookup_alter_ne.
Qed.

Lemma cleanup_expired_codes_lookup (c : string) (w : World) :
  authorization_codes (storage (cleanup_expired_codes w)) !! c =
    match authorization_codes (storage w) !! c with
    | Some a => if (ac_expires_at a >? clock w (ticks w))%Z then Some a else None
    | None => None
    end.
Proof.
  unfold cleanup_expired_codes. cbn.
  destruct (authorization_codes (storage w) !! c) as [a|] eqn:E.
  - destruct (Z.gtb_spec (ac_expires_at a) (clock w (ticks w))) as [Hgt|Hle].
    + apply map_lookup_filter_Some. cbn. split; [exact E|lia].
    + apply map_lookup_filter_None. right. intros a' E' Hgt. cbn in Hgt.
      rewrite E in E'. injection E' as <-. lia.
  - apply map_lookup_filter_None. by left.
Qed.

Lemma cleanup_expired_tokens_lookup (tok : string) (w : World) :
  refresh_tokens (storage (cleanup_expired_tokens w)) !! tok =
    match refresh_tokens (storage w) !! tok with
    | Some rt => if (rt_expires_at rt >? clock w (ticks w))%Z then Some rt else None
    | None => None
    end.
Proof.
  unfold cleanup_expired_tokens. cbn.
  destruct (refresh_tokens (storage w) !! tok) as [rt|] eqn:E.
  - destruct (Z.gtb_spec (rt_expires_at rt) (clock w (ticks w))) as [Hgt|Hle].
    + apply map_lookup_filter_Some. cbn. split; [exact E|lia].
    + apply map_lookup_filter_None. right. intros rt' E' Hgt. cbn in Hgt.
      rewrite E in E'. injection E' as <-. lia.
  - apply map_lookup_filter_None. by left.
Qed.

(** X2: [cleanup_expired_codes] reads the clock once and keeps exactly the
    codes that expire after that reading, leaving clients and refresh
    tokens alone; no lookup succeeds after the clean-up that would have
    failed without it, and when the clock has moved on by the next reading
    every lookup answers as it would have without the clean-up. A code
    that expires exactly at the reading is removed although a lookup at
    that same reading would still have returned it. *)
Theorem cleanup_expired_codes_keeps_live_codes (c : string) (w : World) :
  let now := clock w (ticks w) in
  let w' := cleanup_expired_codes w in
  ticks w' = S (ticks w) ∧
  clients (storage w') = clients (storage w) ∧
  refresh_tokens (storage w') = refresh_tokens (storage w) ∧
  (∀ a, authorization_codes (storage w') !! c = Some a ↔
        authorization_codes (storage w) !! c = Some a ∧ (ac_expires_at a > now)%Z) ∧
  (∀ a, (get_authorization_code c w').1 = Some a →
        (get_authorization_code c (utcnow w).2).1 = Some a) ∧
  ((now < clock w (S (ticks w)))%Z →
     (get_authorization_code c w').1 = (get_authorization_code c (utcnow w).2).1) ∧
  (∀ a, authorization_codes (storage w) !! c = Some a →
        ac_used a = false → ac_expires_at a = now → clock w (S (ticks w)) = now →
        (get_authorization_code c (utcnow w).2).1 = Some a ∧
        (get_authorization_code c w').1 = None).
Proof.
  cbn zeta. split_and!; try reflexivity.
  - intros a. rewrite cleanup_expired_codes_lookup.
    destruct (authorization_codes (storage w) !! c) as [a'|]; [|by intuition].
    destruct (Z.gtb_spec (ac_expires_at a') (clock w (ticks w))).
    + split; [intros [= <-]; split; [reflexivity|lia]|by intros [? _]].
    + split; [discriminate|]. intros [[= <-] ?]. lia.
  - intros a. rewrite !get_authorization_code_fst, cleanup_expired_codes_lookup.
    cbn [utcnow snd storage]. unfold cleanup_expired_codes. cbn [utcnow ticks clock with_storage].
    destruct (authorization_codes (storage w) !! c) as [a'|]; [|discriminate].
    destruct (ac_expires_at a' >? clock w (ticks w))%Z; [auto|discriminate].
  - intros Hlt. rewrite !get_authorization_code_fst, cleanup_expired_codes_lookup.
    cbn [utcnow snd storage]. unfold cleanup_expired_codes. cbn [utcnow ticks clock with_storage].
    destruct (authorization_codes (storage w) !! c) as [a|]; [|reflexivity].
    destruct (Z.gtb_spec (ac_expires_at a) (clock w (ticks w))); [reflexivity|].
    destruct (Z.gtb_spec (clock w (S (ticks w))) (ac_expires_at a)); [reflexivity|lia].
  - intros a E Hused Hexp Hclock.
    rewrite !get_authorization_code_fst, cleanup_expired_codes_lookup.
    cbn [utcnow snd storage ticks clock].
    rewrite E, Hused, Hclock, Hexp.
    destruct (Z.gtb_spec (clock w (ticks w)) (clock w (ticks w))); [lia|].
    split; reflexivity.
Qed.

(** X3: [cleanup_all] reads the clock twice, first for the codes, then for
    the refresh tokens, and leaves the clients alone; it removes only what
    has expired by its reading, so once the clock has moved on every lookup
    of a code or of a refresh token answers as it would have without the
    clean-up; a revoked token that has not expired stays stored. *)
Theorem cleanup_all_is_unobservable (c tok : string) (w : World) :
  (clock w (ticks w) < clock w (S (S (ticks w))))%Z →
  (clock w (S (ticks w)) < clock w (S (S (ticks w))))%Z →
  let w' := cleanup_all w in
  let later := (utcnow (utcnow w).2).2 in
  ticks w' = S (S (ticks w)) ∧
  clients (storage w') = clients (storage w) ∧
  (get_authorization_code c w').1 = (get_authorization_code c later).1 ∧
  (get_refresh_token tok w').1 = (get_refresh_token tok later).1 ∧
  (∀ rt, refresh_tokens (storage w) !! tok = Some rt →
         (rt_expires_at rt > clock w (S (ticks w)))%Z →
         refresh_tokens (storage w') !! tok = Some rt).
Proof.
  intros Hcodes Htokens. cbn zeta. unfold cleanup_all. split_and!; try reflexivity.
  - rewrite !get_authorization_code_fst.
    replace (authorization_codes (storage (cleanup_expired_tokens (cleanup_expired_codes w))))
      with (authorization_codes (storage (cleanup_expired_codes w))) by reflexivity.
    rewrite cleanup_expired_codes_lookup. cbn [utcnow snd storage ticks clock].
    replace (clock (cleanup_expired_tokens (cleanup_expired_codes w))) with (clock w)
      by reflexivity.
    replace (ticks (cleanup_expired_tokens (cleanup_expired_codes w))) with (S (S (ticks w)))
      by reflexivity.
    destruct (authorization_codes (storage w) !! c) as [a|]; [|reflexivity].
    destruct (Z.gtb_spec (ac_expires_at a) (clock w (ticks w))); [reflexivity|].
    destruct (Z.gtb_spec (clock w (S (S (ticks w)))) (ac_expires_at a)); [reflexivity|lia].
  - rewrite !get_refresh_token_fst, cleanup_expired_tokens_lookup.
    cbn [utcnow snd storage ticks clock].
    replace (clock (cleanup_expired_tokens (cleanup_expired_codes w))) with (clock w)
      by reflexivity.
    replace (ticks (cleanup_expired_tokens (cleanup_expired_codes w))) with (S (S (ticks w)))
      by reflexivity.
    replace (refresh_tokens (storage (cleanup_expired_codes w)))
      with (refresh_tokens (storage w)) by reflexivity.
    replace (clock (cleanup_expired_codes w)) with (clock w) by reflexivity.
    replace (ticks (cleanup_expired_codes w)) with (S (ticks w)) by reflexivity.
    destruct (refresh_tokens (storage w) !! tok) as [rt|]; [|reflexivity].
    destruct (Z.gtb_spec (rt_expires_at rt) (clock w (S (ticks w)))); [reflexivity|].
    destruct (Z.gtb_spec (clock w (S (S (ticks w)))) (rt_expires_at rt)); [reflexivity|lia].
  - intros rt E Hgt. rewrite cleanup_expired_tokens_lookup.
    replace (refresh_tokens (storage (cleanup_expired_codes w)))
      with (refresh_tokens (storage w)) by reflexivity.
    replace (clock (cleanup_expired_codes w)) with (clock w) by reflexivity.
    replace (ticks (cleanup_expired_codes w)) with (S (ticks w)) by reflexivity.
    rewrite E. destruct (Z.gtb_spec (rt_expires_at rt) (clock w (S (ticks w)))); [reflexivity|lia].
Qed.

Lemma cleanup_all_is_unobservable_witness :
  (get_authorization_code "code1" (cleanup_all world1)).1 = Some sample_code ∧
  (get_refresh_token "rtok" (cleanup_all world1)).1 = Some sample_refresh.
Proof.
  pose proof (cleanup_all_is_unobservable "code1" "rtok" world1) as H.
  cbn zeta in H.
  destruct H as (_ & _ & Hc & Ht & _); [vm_compute; reflexivity|vm_compute; reflexivity|].
  split; [rewrite Hc|rewrite Ht]; vm_compute; reflexivity.
Defined.

(** ** The shape of verifiers and challenges *)

Section pkce_shape.
Local Open Scope Z_scope.

Local Ltac sextet := unfold is_byte in *; Z.div_mod_to_equations; lia.

Local Abbreviation unpadded d :=
  (Py.rstrip "=" (Py.decode_utf8 (Base64.urlsafe_b64encode d))).

Lemma digit_urlsafe v : 0 ≤ v < 64 → urlsafe_char (Py.chr (Base64.alphabet v)).
Proof.
  intros Hv. unfold urlsafe_char.
  pose proof (alphabet_range v Hv) as [? _].
  rewrite ord_chr by (unfold is_byte; lia).
  unfold Base64.alphabet.
  destruct (Z.ltb_spec v 26); [lia|].
  destruct (Z.ltb_spec v 52); [lia|].
  destruct (Z.ltb_spec v 62); [lia|].
  destruct (Z.eqb_spec v 62); lia.
Qed.

Lemma urlsafe_text_cons c s : urlsafe_char c → urlsafe_text s → urlsafe_text (String c s).
Proof. intros Hc Hs. unfold urlsafe_text. cbn. by constructor. Qed.

(** Without its padding the encoding of [n] bytes has [ceil(4n/3)]
    characters. *)
Lemma unpadded_length (l : list Z) :
  Forall is_byte l →
  (3 * String.length (unpadded l) = 4 * length l + length l * 2 mod 3)%nat.
Proof.
  induction l as [| x | x y | x y z l IH] using list_ind3; intros Hl.
  - reflexivity.
  - apply Forall_cons in Hl as [Hx _]. by rewrite challenge_of_one.
  - apply Forall_cons in Hl as [Hx Hl]. apply Forall_cons in Hl as [Hy _].
    by rewrite challenge_of_two.
  - apply Forall_cons in Hl as [Hx Hl]. apply Forall_cons in Hl as [Hy Hl].
    apply Forall_cons in Hl as [Hz Hl].
    rewrite challenge_of_group by done. specialize (IH Hl).
    cbn [String.length length].
    replace (S (S (S (length l))) * 2)%nat with (length l * 2 + 2 * 3)%nat by lia.
    rewrite Nat.Div0.mod_add. lia.
Qed.

Lemma unpadded_urlsafe (l : list Z) : Forall is_byte l → urlsafe_text (unpadded l).
Proof.
  induction l as [| x | x y | x y z l IH] using list_ind3; intros Hl.
  - constructor.
  - apply Forall_cons in Hl as [Hx _]. rewrite challenge_of_one by done.
    repeat (apply urlsafe_text_cons; [apply digit_urlsafe; sextet|]). constructor.
  - apply Forall_cons in Hl as [Hx Hl]. apply Forall_cons in Hl as [Hy _].
    rewrite challenge_of_two by done.
    repeat (apply urlsafe_text_cons; [apply digit_urlsafe; sextet|]). constructor.
  - apply Forall_cons in Hl as [Hx Hl]. apply Forall_cons in Hl as [Hy Hl].
    apply Forall_cons in Hl as [Hz Hl].
    rewrite challenge_of_group by done.
    do 4 (apply urlsafe_text_cons; [apply digit_urlsafe; sextet|]). by apply IH.
Qed.

Lemma slice_to_length (n : nat) (s : string) :
  (n ≤ String.length s)%nat → String.length (slice_to n s) = n.
Proof.
  revert s. induction n as [|n IH]; intros [|c s] Hn; cbn in *; try lia.
  rewrite IH; lia.
Qed.

Lemma slice_to_urlsafe (n : nat) (s : string) : urlsafe_text s → urlsafe_text (slice_to n s).
Proof.
  revert s. induction n as [|n IH]; intros [|c s] Hs; cbn; try constructor.
  - by inversion Hs.
  - apply IH. by inversion Hs.
Qed.

(** The characters cut off by the slice are lost: the encoding of a prefix
    of whole three-byte groups that is long enough fixes the verifier. *)
Lemma unpadded_app (a b : list Z) (m : nat) :
  length a = (3 * m)%nat → Forall is_byte a →
  unpadded (a ++ b) = (unpadded a ++ unpadded b)%string.
Proof.
  revert a. induction m as [|m IH]; intros a Hlen Ha.
  - destruct a; [reflexivity|discriminate].
  - destruct a as [|x [|y [|z a]]]; cbn in Hlen; try lia.
    apply Forall_cons in Ha as [Hx Ha]. apply Forall_cons in Ha as [Hy Ha].
    apply Forall_cons in Ha as [Hz Ha].
    change ((x :: y :: z :: a) ++ b) with (x :: y :: z :: (a ++ b)).
    rewrite !challenge_of_group by done. rewrite (IH a) by (done || lia).
    reflexivity.
Qed.

Lemma slice_to_app (n : nat) (s t : string) :
  (n ≤ String.length s)%nat → slice_to n (s ++ t) = slice_to n s.
Proof.
  revert s. induction n as [|n IH]; intros s Hn.
  - by destruct s, t.
  - destruct s as [|c s]; simpl in *; [lia|]. rewrite IH; [reflexivity|lia].
Qed.
End pkce_shape.

(** X4: every S256 challenge the server computes has 43 characters, all of
    them letters, digits, [-] or [_]: no padding is left, whatever the
    verifier. *)
Theorem s256_challenge_shape (code_verifier : string) :
  ∃ challenge,
    generate_code_challenge code_verifier S256 = inr challenge ∧
    String.length challenge = 43 ∧
    urlsafe_text challenge.
Proof.
  eexists. split; [reflexivity|]. cbn zeta.
  pose proof (digest_bytes (Py.encode_utf8 code_verifier)) as Hb.
  pose proof (digest_length (Py.encode_utf8 code_verifier)) as Hl.
  split; [|by apply unpadded_urlsafe].
  pose proof (unpadded_length _ Hb) as H. rewrite Hl in H.
  change (32 * 2 mod 3) with 1 in H. lia.
Qed.

(** X5: [generate_code_verifier] raises the [ValueError] exactly when the
    length is below 43 or above 128; otherwise, from the [length] random
    bytes it drew, it returns a verifier of exactly [length] characters, all
    letters, digits, [-] or [_]. *)
Theorem generate_code_verifier_shape (length : Z) (random_bytes : Py.bytes) :
  List.length random_bytes = Z.to_nat length →
  Forall is_byte random_bytes →
  ((length < 43 ∨ length > 128)%Z ↔
     generate_code_verifier length random_bytes =
       inl "Code verifier length must be between 43 and 128"%string) ∧
  ((43 ≤ length ≤ 128)%Z →
     ∃ verifier,
       generate_code_verifier length random_bytes = inr verifier ∧
       String.length verifier = Z.to_nat length ∧
       urlsafe_text verifier).
Proof.
  intros Hlen Hbytes. unfold generate_code_verifier.
  destruct (Z.ltb_spec length 43) as [Hlow|Hlow]; cbn [orb].
  - split; [split; [reflexivity|lia]|lia].
  - destruct (Z.gtb_spec length 128) as [Hhigh|Hhigh].
    + split; [split; [reflexivity|lia]|lia].
    + split; [split; [lia|discriminate]|].
      intros _. eexists. split; [reflexivity|]. split.
      * apply slice_to_length. pose proof (unpadded_length _ Hbytes). lia.
      * apply slice_to_urlsafe. by apply unpadded_urlsafe.
Qed.

Lemma generate_code_verifier_shape_witness :
  ∃ verifier,
    generate_code_verifier 43 (repeat 7%Z 43) = inr verifier ∧
    String.length verifier = 43 ∧ urlsafe_text verifier.
Proof.
  destruct (generate_code_verifier_shape 43 (repeat 7%Z 43)) as [_ H].
  - reflexivity.
  - apply List.Forall_forall. intros x Hx. apply repeat_spec in Hx as ->.
    unfold is_byte. lia.
  - apply H. lia.
Defined.

(** X6: the slice throws random bytes away: a verifier of [length]
    characters is fixed by the first [3m] random bytes as soon as [4m]
    reaches [length], so of the 64 bytes drawn for the default length only
    the first 48 count. *)
Theorem generate_code_verifier_ignores_tail (length : Z) (m : nat)
    (head tail tail' : Py.bytes) :
  List.length head = 3 * m →
  Forall is_byte head →
  (length ≤ 4 * Z.of_nat m)%Z →
  generate_code_verifier length (head ++ tail) =
    generate_code_verifier length (head ++ tail').
Proof.
  intros Hlen Hbytes Hm. unfold generate_code_verifier.
  destruct ((length <? 43) || (length >? 128))%Z; [reflexivity|].
  cbn zeta. rewrite !(unpadded_app head _ m) by done.
  pose proof (unpadded_length _ Hbytes) as H.
  rewrite Hlen in H. replace (3 * m * 2) with (2 * m * 3) in H by lia.
  rewrite Nat.Div0.mod_mul in H.
  rewrite !slice_to_app by lia. reflexivity.
Qed.

Lemma generate_code_verifier_ignores_tail_witness :
  generate_code_verifier 64 (repeat 7%Z 48 ++ repeat 1%Z 16) =
    generate_code_verifier 64 (repeat 7%Z 48 ++ repeat 2%Z 16).
Proof.
  apply (generate_code_verifier_ignores_tail 64 16).
  - reflexivity.
  - apply List.Forall_forall. intros x Hx. apply repeat_spec in Hx as ->.
    unfold is_byte. lia.
  - lia.
Defined.

(** X7: the client's [PKCEHelper] agrees with the server: its verifier, made
    of 32 random bytes, has 43 URL-safe characters (the least the server's
    own generator allows), and the challenge it computes for any verifier
    is the server's S256 challenge, which the server accepts for that
    verifier under S256. Under [plain] the server accepts that challenge
    only when it is the verifier itself. *)
Theorem client_challenge_is_accepted (random_bytes : Py.bytes) (verifier : string) :
  List.length random_bytes = 32 →
  Forall is_byte random_bytes →
  String.length (PKCEHelper.generate_code_verifier random_bytes) = 43 ∧
  urlsafe_text (PKCEHelper.generate_code_verifier random_bytes) ∧
  generate_code_challenge verifier S256 = inr (PKCEHelper.generate_code_challenge verifier) ∧
  verify_code_challenge verifier (PKCEHelper.generate_code_challenge verifier) S256 = true ∧
  (verify_code_challenge verifier (PKCEHelper.generate_code_challenge verifier) PLAIN = true ↔
   PKCEHelper.generate_code_challenge verifier = verifier).
Proof.
  intros Hlen Hbytes. unfold PKCEHelper.generate_code_verifier. split_and!.
  - pose proof (unpadded_length _ Hbytes) as H. rewrite Hlen in H.
    change (32 * 2 mod 3) with 1 in H. lia.
  - by apply unpadded_urlsafe.
  - reflexivity.
  - unfold verify_code_challenge, generate_code_challenge, PKCEHelper.generate_code_challenge.
    cbn zeta. apply String.eqb_refl.
  - unfold verify_code_challenge, generate_code_challenge.
    rewrite String.eqb_eq. split; intros H; symmetry; exact H.
Qed.

Lemma client_challenge_is_accepted_witness :
  String.length (PKCEHelper.generate_code_verifier (repeat 7%Z 32)) = 43 ∧
  verify_code_challenge sample_verifier
    (PKCEHelper.generate_code_challenge sample_verifier) S256 = true.
Proof.
  destruct (client_challenge_is_accepted (repeat 7%Z 32) sample_verifier)
    as (H1 & _ & _ & H2 & _).
  - reflexivity.
  - apply List.Forall_forall. intros x Hx. apply repeat_spec in Hx as ->.
    unfold is_byte. lia.
  - split; [exact H1|exact H2].
Defined.

(** ** The token endpoint, case by case *)

(** A request that fails the client check. *)
Lemma bad_credentials_refused settings form w :
  get_client (client_id form) (storage w) = None ∨
  (∃ client secret,
     get_client (client_id form) (storage w) = Some client ∧
     client_secret form = Some secret ∧
     rc_client_secret client ≠ Some secret) →
  run (token_endpoint settings form) w =
    (Raised (http_error 401 "Invalid client credentials"), w).
Proof.
  intros [Hc | (client & secret & Hc & Hs & Hne)]; unfold token_endpoint; cbn; rewrite Hc; cbn.
  - reflexivity.
  - rewrite Hs. cbn. case_bool_decide; [contradiction|]. reflexivity.
Qed.

Lemma authenticates_or_not form w :
  (∃ client, authenticates client form w) ∨
  get_client (client_id form) (storage w) = None ∨
  (∃ client secret,
     get_client (client_id form) (storage w) = Some client ∧
     client_secret form = Some secret ∧
     rc_client_secret client ≠ Some secret).
Proof.
  unfold authenticates.
  destruct (get_client (client_id form) (storage w)) as [client|]; [|by right; left].
  destruct (client_secret form) as [secret|] eqn:Hs; [|left; exists client; by auto].
  destruct (decide (rc_client_secret client = Some secret)) as [Heq|Hne].
  - left. exists client. by auto.
  - right; right. by exists client, secret.
Qed.

(** The outcome of a request that passed the client check is one of the
    grants' own: status 400 whenever it is an error. *)
Lemma authenticated_errors_are_400 settings form w client e :
  authenticates client form w →
  (run (token_endpoint settings form) w).1 = Raised e →
  status_code e = 400%Z.
Proof.
  intros [Hc Hs]. unfold token_endpoint. cbn. rewrite Hc. cbn.
  rewrite (secret_check_passes _ _ Hs). cbn.
  destruct (grant_type form =? "authorization_code")%string.
  - destruct (Py.nonempty (code form)) as [c|]; [|by intros [= <-]].
    destruct (Py.nonempty (redirect_uri form)) as [r|]; [|by intros [= <-]].
    destruct (Py.nonempty (code_verifier form)) as [v|]; [|by intros [= <-]].
    cbn. destruct (get_authorization_code c w) as [[a|] w1]; [|by intros [= <-]].
    destruct (negb (ac_client_id a =? _)%string); [by intros [= <-]|].
    destruct (negb (ac_redirect_uri a =? _)%string); [by intros [= <-]|].
    destruct (negb (verify_code_challenge _ _ _)); [by intros [= <-]|].
    cbn. destruct (mark_code_as_used c w1) as [[|] w2]; cbn; [discriminate|by intros [= <-]].
  - destruct (grant_type form =? "refresh_token")%string; [|by intros [= <-]].
    destruct (Py.nonempty (refresh_token form)) as [tok|]; [|by intros [= <-]].
    cbn. destruct (get_refresh_token tok w) as [[rt|] w1]; [|by intros [= <-]].
    destruct (negb (rt_client_id rt =? _)%string); [by intros [= <-]|].
    cbn. discriminate.
Qed.

(** X8: the token endpoint answers with status 401 exactly when the client
    is unknown or the secret sent differs from the registered one; the
    answer is then "Invalid client credentials" and nothing was read from
    the clock or written to the storage, whatever else the request carries:
    the grant, the code and the verifier are not looked at. *)
Theorem token_endpoint_401_iff_bad_credentials settings (form : TokenForm) (w : World) :
  let bad_credentials :=
    get_client (client_id form) (storage w) = None ∨
    (∃ client secret,
       get_client (client_id form) (storage w) = Some client ∧
       client_secret form = Some secret ∧
       rc_client_secret client ≠ Some secret) in
  (bad_credentials →
     run (token_endpoint settings form) w =
       (Raised (http_error 401 "Invalid client credentials"), w)) ∧
  (∀ e, (run (token_endpoint settings form) w).1 = Raised e →
        status_code e = 401%Z → bad_credentials).
Proof.
  cbn zeta. split; [apply bad_credentials_refused|].
  intros e Hrun He.
  destruct (authenticates_or_not form w) as [[client Hauth]|Hbad]; [|exact Hbad].
  pose proof (authenticated_errors_are_400 _ _ _ _ _ Hauth Hrun) as H400.
  rewrite He in H400. discriminate.
Qed.

(** X9: a request that passed the client check and lacks what its grant
    needs is refused with status 400 before anything is read or written:
    an authorization-code request with a missing or empty code, redirect
    URI or verifier; a refresh request with a missing or empty token; and
    every other grant type, named in the answer. *)
Theorem token_endpoint_malformed_requests settings (form : TokenForm) (w : World)
    (client : RegisteredClient) :
  authenticates client form w →
  (grant_type form = "authorization_code"%string →
   Py.nonempty (code form) = None ∨ Py.nonempty (redirect_uri form) = None ∨
     Py.nonempty (code_verifier form) = None →
   run (token_endpoint settings form) w =
     (Raised (http_error 400 "code, redirect_uri, and code_verifier are required"), w)) ∧
  (grant_type form = "refresh_token"%string →
   Py.nonempty (refresh_token form) = None →
   run (token_endpoint settings form) w =
     (Raised (http_error 400 "refresh_token is required"), w)) ∧
  (grant_type form ≠ "authorization_code"%string →
   grant_type form ≠ "refresh_token"%string →
   run (token_endpoint settings form) w =
     (Raised (http_error 400 ("Unsupported grant_type: " +:+ grant_type form)), w)).
Proof.
  intros [Hc Hs]. split_and!.
  - intros Hg Hmissing. unfold token_endpoint. cbn. rewrite Hc. cbn.
    rewrite (secret_check_passes _ _ Hs). cbn. rewrite Hg. cbn.
    destruct Hmissing as [-> | [-> | ->]].
    + reflexivity.
    + by destruct (Py.nonempty (code form)).
    + by destruct (Py.nonempty (code form)), (Py.nonempty (redirect_uri form)).
  - intros Hg Hmissing. unfold token_endpoint. cbn. rewrite Hc. cbn.
    rewrite (secret_check_passes _ _ Hs). cbn. rewrite Hg. cbn. by rewrite Hmissing.
  - intros Hg Hg'. unfold token_endpoint. cbn. rewrite Hc. cbn.
    rewrite (secret_check_passes _ _ Hs). cbn.
    destruct (String.eqb_spec (grant_type form) "authorization_code"); [contradiction|].
    destruct (String.eqb_spec (grant_type form) "refresh_token"); [contradiction|].
    reflexivity.
Qed.

Lemma token_endpoint_malformed_requests_witness :
  run (token_endpoint default_settings password_form) world1 =
    (Raised (http_error 400 "Unsupported grant_type: password"), world1).
Proof.
  destruct (token_endpoint_malformed_requests default_settings password_form world1
              sample_client) as (_ & _ & H).
  - split; [reflexivity|left; reflexivity].
  - apply H; discriminate.
Defined.

(** X10: a refresh token presented by a client other than the one it was
    issued to is refused with status 400, "Refresh token was issued to
    different client", although the token is stored, live and not revoked;
    the storage is left as it was, and the token's owner is served
    afterwards. *)
Theorem refresh_token_is_bound_to_its_client settings (thief owner : TokenForm) (w : World)
    (client client' : RegisteredClient) (tok : string) (rt : RefreshToken) :
  authenticates client thief w →
  presents tok thief →
  refresh_tokens (storage w) !! tok = Some rt →
  rt_revoked rt = false →
  (∀ n, (clock w n ≤ rt_expires_at rt)%Z) →
  rt_client_id rt ≠ client_id thief →
  authenticates client' owner w →
  presents tok owner →
  client_id owner = rt_client_id rt →
  ∃ response w',
    run_all [token_endpoint settings thief; token_endpoint settings owner] w =
      ([Raised (http_error 400 "Refresh token was issued to different client");
        Returned response], w') ∧
    storage w' = storage w ∧
    claim_client_id (jwt_claims (access_token response)) = rt_client_id rt.
Proof.
  intros [Hc Hs] [Hg Ht] Hrt Hrev Hclock Hne Hauth' Hpres' Hid'.
  assert (run (token_endpoint settings thief) w =
            (Raised (http_error 400 "Refresh token was issued to different client"),
             (utcnow w).2)) as Hthief.
  { unfold token_endpoint. cbn. rewrite Hc. cbn.
    rewrite (secret_check_passes _ _ Hs). cbn. rewrite Hg. cbn. rewrite Ht. cbn.
    rewrite (get_refresh_token_Some _ _ _ Hrt Hrev (Hclock _)).
    destruct (String.eqb_spec (rt_client_id rt) (client_id thief)); [contradiction|].
    reflexivity. }
  cbn [run_all]. rewrite Hthief.
  destruct (refresh_once settings owner (utcnow w).2 client' rt tok)
    as (response & Hrun & _ & Hcid & _); try done.
  { apply Hclock. }
  pose proof (refresh_grant_reads_only settings owner (utcnow w).2 (proj1 Hpres')) as [Hst _].
  destruct (run (token_endpoint settings owner) (utcnow w).2) as [o w'].
  cbn in Hrun, Hst. subst o. exists response, w'. split; [reflexivity|]. split; [exact Hst|exact Hcid].
Qed.

Lemma refresh_token_is_bound_to_its_client_witness :
  ∃ response w',
    run_all [token_endpoint default_settings thief_form;
             token_endpoint default_settings refresh_form] world2 =
      ([Raised (http_error 400 "Refresh token was issued to different client");
        Returned response], w') ∧
    storage w' = storage world2 ∧
    claim_client_id (jwt_claims (access_token response)) = "client_a"%string.
Proof.
  apply (refresh_token_is_bound_to_its_client default_settings thief_form refresh_form
           world2 sample_client_b sample_client "rtok" sample_refresh).
  - split; [reflexivity|left; reflexivity].
  - split; reflexivity.
  - reflexivity.
  - reflexivity.
  - intros n. cbn. lia.
  - discriminate.
  - split; [reflexivity|left; reflexivity].
  - split; reflexivity.
  - reflexivity.
Defined.

(** ** What a served redemption returns and leaves behind *)

Lemma redeem_serves settings form w client a c r v :
  authenticates client form w →
  grant_type form = "authorization_code"%string →
  Py.nonempty (code form) = Some c →
  Py.nonempty (redirect_uri form) = Some r →
  Py.nonempty (code_verifier form) = Some v →
  authorization_codes (storage w) !! c = Some a →
  ac_used a = false →
  (clock w (ticks w) ≤ ac_expires_at a)%Z →
  (clock w (S (ticks w)) ≤ ac_expires_at a)%Z →
  ac_client_id a = client_id form →
  ac_redirect_uri a = r →
  verify_code_challenge v (ac_code_challenge a) (ac_code_challenge_method a) = true →
  run (token_endpoint settings form) w =
    (Returned
       {| access_token :=
            jwt_encode
              {| sub := ac_user_id a;
                 claim_client_id := client_id form;
                 claim_scope := default ""%string (Py.nonempty (ac_scope a));
                 exp := timegm (clock w (2 + ticks w)
                          + timedelta_minutes (JWT_ACCESS_TOKEN_EXPIRE_MINUTES settings))%Z;
                 iat := timegm (clock w (3 + ticks w));
                 iss := SERVER_URL settings;
                 aud := SERVER_URL settings |}
              (JWT_SECRET_KEY settings) (JWT_ALGORITHM settings);
          token_type := "Bearer";
          expires_in := (JWT_ACCESS_TOKEN_EXPIRE_MINUTES settings * 60)%Z;
          tr_refresh_token := Some (entropy w (draws w));
          tr_scope := ac_scope a |},
     {| storage :=
          store_refresh_token
            {| rt_token := entropy w (draws w);
               rt_client_id := client_id form;
               rt_user_id := ac_user_id a;
               rt_scope := ac_scope a;
               rt_expires_at :=
                 (clock w (4 + ticks w)
                  + timedelta_days (OAUTH_REFRESH_TOKEN_EXPIRE_DAYS settings))%Z;
               rt_revoked := false |}
            (with_authorization_codes <[c := set_used a]> (storage w));
        clock := clock w;
        ticks := 5 + ticks w;
        entropy := entropy w;
        draws := S (draws w) |}).
Proof.
  intros [Hc Hs] Hg Hcode Hr Hv Ha Hused Hnow Hnow' Hid Hredir Hver.
  assert ((get_authorization_code c w).1 = Some a) as Hget.
  { by apply get_authorization_code_Some. }
  pose proof (get_authorization_code_found _ _ _ Ha) as Hw.
  unfold token_endpoint. cbn. rewrite Hc. cbn.
  rewrite (secret_check_passes _ _ Hs). cbn. rewrite Hg. cbn. rewrite Hcode, Hr, Hv. cbn.
  destruct (get_authorization_code c w) as [o w1]. cbn in Hget, Hw. subst o.
  rewrite Hid, Hredir, !String.eqb_refl, Hver. cbn.
  rewrite (mark_code_as_used_marks c w1 a) by (subst w1; cbn; auto). cbn. subst w1.
  reflexivity.
Qed.

(** X11: the authorization-code grant is served exactly when the client
    check passes, code, redirect URI and verifier are present, the code is
    stored, unused and not past its expiry at the two clock readings of the
    lookup and of the marking, it was issued to this client and this
    redirect URI, and the verifier passes PKCE. *)
Theorem redemption_served_iff settings (form : TokenForm) (w : World) :
  grant_type form = "authorization_code"%string →
  (∃ response w', run (token_endpoint settings form) w = (Returned response, w')) ↔
  (∃ client c r v a,
     authenticates client form w ∧
     Py.nonempty (code form) = Some c ∧
     Py.nonempty (redirect_uri form) = Some r ∧
     Py.nonempty (code_verifier form) = Some v ∧
     authorization_codes (storage w) !! c = Some a ∧
     ac_used a = false ∧
     (clock w (ticks w) ≤ ac_expires_at a)%Z ∧
     (clock w (S (ticks w)) ≤ ac_expires_at a)%Z ∧
     ac_client_id a = client_id form ∧
     ac_redirect_uri a = r ∧
     verify_code_challenge v (ac_code_challenge a) (ac_code_challenge_method a) = true).
Proof.
  intros Hg. split.
  - intros (response & w' & Hrun).
    destruct (redeem_returned _ _ _ _ _ Hg Hrun)
      as (client & c & r & v & a & H1 & H2 & H3 & H4 & H5 & H6 & H7 & H8 & H9 & H10 & H11 & _).
    exists client, c, r, v, a. repeat split; assumption || apply H1.
  - intros (client & c & r & v & a & H1 & H2 & H3 & H4 & H5 & H6 & H7 & H8 & H9 & H10 & H11).
    eexists _, _. by eapply redeem_serves.
Qed.

Lemma redemption_served_iff_witness :
  ∃ response w', run (token_endpoint default_settings redeem_form) world1 = (Returned response, w').
Proof.
  apply (redemption_served_iff default_settings redeem_form world1); [reflexivity|].
  exists sample_client, "code1"%string, "https://a/cb"%string, sample_verifier, sample_code.
  split; [split; [reflexivity|left; reflexivity]|].
  repeat (split; [vm_compute; first [reflexivity | discriminate]|]).
  vm_compute. reflexivity.
Defined.

(** X12: the refresh token returned by a served redemption is accepted
    afterwards: presented by the same client before its expiry (the clock
    reading of its storing plus the configured days), it yields an access
    token with the subject, the client and the scope of the one the
    redemption returned, and the same scope in the response. (A request
    presents a token only if the token is not the empty text, which the
    endpoint takes for a missing one.) *)
Theorem redeemed_refresh_token_is_accepted settings (redeem refresh : TokenForm)
    (w w' : World) (response : TokenResponse) (tok : string) :
  grant_type redeem = "authorization_code"%string →
  run (token_endpoint settings redeem) w = (Returned response, w') →
  tr_refresh_token response = Some tok →
  presents tok refresh →
  client_id refresh = client_id redeem →
  client_secret refresh = client_secret redeem →
  (clock w (5 + ticks w) ≤
     clock w (4 + ticks w) + timedelta_days (OAUTH_REFRESH_TOKEN_EXPIRE_DAYS settings))%Z →
  ∃ response',
    (run (token_endpoint settings refresh) w').1 = Returned response' ∧
    sub (jwt_claims (access_token response')) = sub (jwt_claims (access_token response)) ∧
    claim_client_id (jwt_claims (access_token response')) =
      claim_client_id (jwt_claims (access_token response)) ∧
    claim_scope (jwt_claims (access_token response')) =
      claim_scope (jwt_claims (access_token response)) ∧
    tr_scope response' = tr_scope response ∧
    tr_refresh_token response' = Some tok.
Proof.
  intros Hg Hrun Htok Hpres Hid Hsecret Hclock.
  destruct (redeem_returned _ _ _ _ _ Hg Hrun)
    as (client & c & r & v & a & H1 & H2 & H3 & H4 & H5 & H6 & H7 & H8 & H9 & H10 & H11 & _).
  rewrite (redeem_serves settings redeem w client a c r v) in Hrun by assumption.
  injection Hrun as <- <-. cbn in Htok. injection Htok as <-.
  destruct H1 as [Hc Hs].
  match goal with
  | |- context [run (token_endpoint settings refresh) ?W] =>
      edestruct (refresh_once settings refresh W client)
        as (response' & Hrun' & Hsub & Hcid & Hscope & Ht & Hsc)
  end.
  - split; [cbn; rewrite Hid; exact Hc|]. rewrite Hsecret. exact Hs.
  - exact Hpres.
  - cbn. unfold store_refresh_token. cbn. apply lookup_insert_eq.
  - cbn. exact Hid.
  - reflexivity.
  - cbn. exact Hclock.
  - exists response'. split; [exact Hrun'|]. cbn in *.
    rewrite Hsub, Hcid, Hscope, Ht, Hsc, default_nonempty. repeat split.
Qed.

Lemma redeemed_refresh_token_is_accepted_witness :
  ∃ response',
    (run (token_endpoint default_settings drawn_refresh_form)
       (run (token_endpoint default_settings redeem_form) world1).2).1 = Returned response' ∧
    sub (jwt_claims (access_token response')) = "mock_user_123"%string ∧
    tr_refresh_token response' = Some "a"%string.
Proof.
  destruct (run (token_endpoint default_settings redeem_form) world1) as [o w'] eqn:Hrun.
  assert (∃ response, o = Returned response ∧ tr_refresh_token response = Some "a"%string ∧
            sub (jwt_claims (access_token response)) = "mock_user_123"%string)
    as (response & -> & Htok & Hsub).
  { apply (f_equal fst) in Hrun. cbn [fst] in Hrun. subst o.
    vm_compute. eexists. split; [reflexivity|]. split; reflexivity. }
  destruct (redeemed_refresh_token_is_accepted default_settings redeem_form
              drawn_refresh_form world1 w' response "a"%string)
    as (response' & H1 & H2 & _ & _ & _ & H3); try reflexivity; try assumption.
  - split; reflexivity.
  - vm_compute. discriminate.
  - exists response'. cbn [snd]. split; [exact H1|]. split; [|exact H3].
    rewrite H2. exact Hsub.
Defined.

(** ** A redeemed code stays spent *)

(** No operation touches the clock's or the random source's future; the
    counts of readings and draws only grow. *)
Lemma exec_oracles {X} (op : Op X) (w : World) :
  entropy (exec op w).2 = entropy w ∧ clock (exec op w).2 = clock w ∧
  draws w ≤ draws (exec op w).2.
Proof.
  destruct op as [ | nbytes | | cl | cid | a | c | c | rt | tok ]; cbn;
    try (repeat split; lia).
  - unfold get_authorization_code.
    destruct (authorization_codes (storage w) !! c) as [a|]; [|by repeat split].
    cbn. destruct (_ >? _)%Z; [by repeat split|]. by destruct (ac_used a).
  - unfold mark_code_as_used.
    destruct (authorization_codes (storage w) !! c) as [a|]; [|by repeat split].
    destruct (ac_used a); [by repeat split|]. cbn. by destruct (_ >? _)%Z.
  - unfold get_refresh_token.
    destruct (refresh_tokens (storage w) !! tok) as [rt|]; [|by repeat split].
    cbn. destruct (_ >? _)%Z; [by repeat split|]. by destruct (rt_revoked rt).
Qed.

Lemma run_oracles {A} (p : Prog A) (w : World) :
  entropy (run p w).2 = entropy w ∧ clock (run p w).2 = clock w ∧
  draws w ≤ draws (run p w).2.
Proof.
  revert w. induction p as [a|e|X op k IH]; intros w; cbn; [by repeat split..|].
  pose proof (exec_oracles op w) as (He & Hc & Hd).
  destruct (exec op w) as [x w1]. cbn in *.
  destruct (IH x w1) as (He' & Hc' & Hd').
  rewrite He', Hc', He, Hc. repeat split. lia.
Qed.

Lemma serve_oracles settings (w : World) (r : Request) :
  entropy (serve settings w r) = entropy w ∧ clock (serve settings w r) = clock w ∧
  draws w ≤ draws (serve settings w r).
Proof. destruct r; cbn [serve]; apply run_oracles. Qed.

Lemma register_client_storage request w :
  storage (run (register_client request) w).2 = storage w ∨
  ∃ client,
    rc_client_id client = ("client_" +:+ entropy w (draws w))%string ∧
    storage (run (register_client request) w).2 = store_client client (storage w).
Proof.
  unfold register_client. case_bool_decide; [by left|].
  right. cbn. eexists. split; [|reflexivity]. reflexivity.
Qed.

Lemma authorize_storage settings response_type cid redirect challenge method scope state w :
  storage (run (authorize settings response_type cid redirect challenge method
                  scope state) w).2 = storage w ∨
  ∃ a,
    ac_code a = entropy w (draws w) ∧ ac_used a = false ∧ ac_client_id a = cid ∧
    is_Some (clients (storage w) !! cid) ∧
    storage (run (authorize settings response_type cid redirect challenge method
                    scope state) w).2 = store_authorization_code a (storage w).
Proof.
  unfold authorize.
  destruct (negb (response_type =? "code")%string); [by left|]. cbn.
  destruct (get_client cid (storage w)) as [client|] eqn:Hclient; [|by left].
  destruct (negb (bool_decide _)); [by left|].
  destruct (challenge =? "")%string; [by left|].
  destruct (CodeChallengeMethod_of_value method) as [m|]; [|by left].
  right. cbn. eexists. split; [|split; [|split; [|split; [|reflexivity]]]]; try reflexivity.
  by eexists.
Qed.

(** A request for a code that is stored as used is refused. *)
Lemma used_code_refused settings form w c a :
  grant_type form = "authorization_code"%string →
  Py.nonempty (code form) = Some c →
  authorization_codes (storage w) !! c = Some a →
  ac_used a = true →
  ∃ e, (run (token_endpoint settings form) w).1 = Raised e ∧
       e ∈ [http_error 401 "Invalid client credentials";
            http_error 400 "code, redirect_uri, and code_verifier are required";
            http_error 400 "Invalid or expired authorization code"].
Proof.
  intros Hg Hcode Ha Hused.
  destruct (authenticates_or_not form w) as [[client Hauth]|Hbad].
  2:{ rewrite (bad_credentials_refused settings form w Hbad). eexists. split; [reflexivity|].
      left. }
  destruct (Py.nonempty (redirect_uri form)) as [r|] eqn:Hr.
  2:{ destruct Hauth as [Hc Hs]. unfold token_endpoint. cbn. rewrite Hc. cbn.
      rewrite (secret_check_passes _ _ Hs). cbn. rewrite Hg. cbn. rewrite Hcode, Hr.
      eexists. split; [reflexivity|]. right; left. }
  destruct (Py.nonempty (code_verifier form)) as [v|] eqn:Hv.
  2:{ destruct Hauth as [Hc Hs]. unfold token_endpoint. cbn. rewrite Hc. cbn.
      rewrite (secret_check_passes _ _ Hs). cbn. rewrite Hg. cbn. rewrite Hcode, Hr, Hv.
      eexists. split; [reflexivity|]. right; left. }
  assert ((get_authorization_code c w).1 = None) as Hnone.
  { rewrite get_authorization_code_fst, Ha, Hused. by destruct (_ >? _)%Z. }
  rewrite (redeem_lookup_fails settings form w client c r v) by assumption.
  eexists. split; [reflexivity|]. right; right; left.
Qed.

Lemma serve_keeps_spent settings c w r :
  spent_for_good_at c w → spent_for_good_at c (serve settings w r).
Proof.
  intros [(a & Ha & Hused) Hdraws].
  pose proof (serve_oracles settings w r) as (He & _ & Hd).
  split.
  2:{ intros n Hn. rewrite He. apply Hdraws. lia. }
  destruct r as [request | rtype cid redirect challenge method scope state | form];
    cbn [serve].
  - destruct (register_client_storage request w) as [-> | (client & _ & ->)];
      by exists a.
  - destruct (authorize_storage settings rtype cid redirect challenge method scope state w)
      as [-> | (a' & Hcode & _ & _ & _ & ->)]; [by exists a|].
    exists a. split; [|exact Hused]. unfold store_authorization_code. cbn.
    rewrite lookup_insert_ne; [exact Ha|]. rewrite Hcode. apply Hdraws. lia.
  - destruct (token_endpoint_storage settings form w)
      as [-> | (c' & a' & rt & Ha' & _ & ->)]; [by exists a|].
    unfold store_refresh_token. cbn. destruct (decide (c' = c)) as [->|Hne].
    + exists (set_used a'). split; [apply lookup_insert_eq|reflexivity].
    + exists a. split; [|exact Hused]. by rewrite lookup_insert_ne.
Qed.

(** X13: once a code has been redeemed it stays spent: whatever requests
    the server handles afterwards (registrations, authorizations, token
    requests, served or refused), every later request to redeem that code
    is refused. No handler resets the flag or removes the code; the one
    way back would be an authorization that stores a new code under the same
    text, so the random source is taken never to draw that text again. *)
Theorem redeemed_code_stays_spent settings (first again : TokenForm) (w w' : World)
    (response : TokenResponse) (requests : list Request) (c : string) :
  grant_type first = "authorization_code"%string →
  Py.nonempty (code first) = Some c →
  run (token_endpoint settings first) w = (Returned response, w') →
  (∀ n, draws w ≤ n → entropy w n ≠ c) →
  grant_type again = "authorization_code"%string →
  Py.nonempty (code again) = Some c →
  ∃ e,
    (run (token_endpoint settings again) (fold_left (serve settings) requests w')).1 =
      Raised e ∧
    e ∈ [http_error 401 "Invalid client credentials";
         http_error 400 "code, redirect_uri, and code_verifier are required";
         http_error 400 "Invalid or expired authorization code"].
Proof.
  intros Hg Hcode Hrun Hdraws Hg' Hcode'.
  assert (spent_for_good_at c w') as Hspent.
  { destruct (redeem_returned _ _ _ _ _ Hg Hrun)
      as (client & c0 & r & v & a & _ & Hc0 & _ & _ & _ & _ & _ & _ & _ & _ & _ & Hmarked).
    rewrite Hcode in Hc0. injection Hc0 as <-.
    pose proof (run_oracles (token_endpoint settings first) w) as (He & _ & Hd).
    rewrite Hrun in He, Hd. cbn in He, Hd.
    split; [by exists (set_used a)|]. intros n Hn. rewrite He. apply Hdraws. lia. }
  clear Hrun Hdraws.
  assert (spent_for_good_at c (fold_left (serve settings) requests w')) as [(a & Ha & Hused) _].
  { revert w' Hspent. induction requests as [|r requests IH]; intros w' Hspent; [exact Hspent|].
    cbn [fold_left]. apply IH. by apply serve_keeps_spent. }
  by eapply used_code_refused.
Qed.

Lemma redeemed_code_stays_spent_witness :
  ∃ e,
    (run (token_endpoint default_settings redeem_form)
       (fold_left (serve default_settings)
          [Register (sample_request ["https://c/cb"%string]); Token refresh_form]
          (run (token_endpoint default_settings redeem_form) world1).2)).1 = Raised e ∧
    e ∈ [http_error 401 "Invalid client credentials";
         http_error 400 "code, redirect_uri, and code_verifier are required";
         http_error 400 "Invalid or expired authorization code"].
Proof.
  destruct (run (token_endpoint default_settings redeem_form) world1) as [o w'] eqn:Hrun.
  assert (∃ response, o = Returned response) as [response ->].
  { apply (f_equal fst) in Hrun. cbn [fst] in Hrun. subst o. vm_compute. by eexists. }
  cbn [snd].
  apply (redeemed_code_stays_spent default_settings redeem_form redeem_form world1 w'
           response _ "code1"%string); try reflexivity.
  - exact Hrun.
  - intros n _. cbn. discriminate.
Defined.

(** ** Access tokens: minting, verifying, and what the metadata promises *)


(** The access token of every response of the token endpoint is one that
    [create_access_token] minted for the request's client at some clock
    reading of the request. *)
Lemma token_endpoint_mints settings form w response w' :
  run (token_endpoint settings form) w = (Returned response, w') →
  ∃ (n : nat) (uid : string) (scope : option string),
    ticks w ≤ n ∧
    access_token response =
      jwt_encode
        {| sub := uid;
           claim_client_id := client_id form;
           claim_scope := default ""%string (Py.nonempty scope);
           exp := timegm (clock w n
                    + timedelta_minutes (JWT_ACCESS_TOKEN_EXPIRE_MINUTES settings))%Z;
           iat := timegm (clock w (S n));
           iss := SERVER_URL settings;
           aud := SERVER_URL settings |}
        (JWT_SECRET_KEY settings) (JWT_ALGORITHM settings) ∧
    token_type response = "Bearer"%string ∧
    expires_in response = (JWT_ACCESS_TOKEN_EXPIRE_MINUTES settings * 60)%Z ∧
    tr_scope response = scope.
Proof.
  intros Hrun.
  destruct (String.eqb_spec (grant_type form) "authorization_code") as [Hg|Hg].
  { destruct (redeem_returned _ _ _ _ _ Hg Hrun)
      as (client & c & r & v & a & H1 & H2 & H3 & H4 & H5 & H6 & H7 & H8 & H9 & H10 & H11 & _).
    rewrite (redeem_serves settings form w client a c r v) in Hrun by assumption.
    injection Hrun as <- <-.
    exists (2 + ticks w), (ac_user_id a), (ac_scope a). split; [lia|]. by repeat split. }
  revert Hrun. unfold token_endpoint. cbn.
  destruct (get_client _ _) as [client|]; cbn; [|discriminate].
  destruct (secret_check_cases client form) as [-> | ->]; cbn; [|discriminate].
  destruct (String.eqb_spec (grant_type form) "authorization_code"); [contradiction|].
  destruct (grant_type form =? "refresh_token")%string; [|discriminate].
  destruct (Py.nonempty (refresh_token form)) as [tok|]; [|discriminate].
  cbn.
  assert (get_refresh_token tok w = (None, w) ∨
          (get_refresh_token tok w).2 = (utcnow w).2) as Hget.
  { unfold get_refresh_token.
    destruct (refresh_tokens (storage w) !! tok) as [rt|]; [|by left].
    right. cbn. destruct (_ >? _)%Z; [reflexivity|]. by destruct (rt_revoked rt). }
  destruct (get_refresh_token tok w) as [[rt|] w1]; [|discriminate].
  destruct Hget as [[= ]|Hw1]. cbn in Hw1. subst w1.
  destruct (negb (rt_client_id rt =? _)%string); [discriminate|].
  cbn. intros [= <- <-].
  exists (1 + ticks w), (rt_user_id rt), (rt_scope rt). split; [lia|]. by repeat split.
Qed.

(** X15: whatever the token endpoint returns, under either grant, is a
    bearer token that the protected resource accepts: its issuer is the
    issuer of the authorization-server metadata, its audience the resource
    of the protected-resource metadata, which names that issuer as its only
    authorization server; its client is the request's client; [expires_in]
    is the configured lifetime, [JWT_ACCESS_TOKEN_EXPIRE_MINUTES] times
    sixty, and the expiry lies that many seconds after a clock reading of
    the request, the issue time being the next reading; the token is signed
    with the server's key and algorithm; and verification with the server's
    settings succeeds at every instant not past the expiry. *)
Theorem issued_tokens_match_metadata settings (form : TokenForm) (w w' : World)
    (response : TokenResponse) (now : datetime) :
  run (token_endpoint settings form) w = (Returned response, w') →
  let claims := jwt_claims (access_token response) in
  token_type response = "Bearer"%string ∧
  iss claims = as_issuer (authorization_server_metadata settings) ∧
  aud claims = pr_resource (protected_resource_metadata settings) ∧
  pr_authorization_servers (protected_resource_metadata settings) = [iss claims] ∧
  claim_client_id claims = client_id form ∧
  claim_scope claims = default ""%string (tr_scope response) ∧
  (∃ n, ticks w ≤ n ∧ exp claims = (timegm (clock w n) + expires_in response)%Z) ∧
  ((timegm now ≤ exp claims)%Z →
     verify_access_token settings now (access_token response) = Returned claims) ∧
  expires_in response = (JWT_ACCESS_TOKEN_EXPIRE_MINUTES settings * 60)%Z ∧
  (∃ n, ticks w ≤ n ∧
     exp claims =
       (timegm (clock w n) + JWT_ACCESS_TOKEN_EXPIRE_MINUTES settings * 60)%Z ∧
     iat claims = timegm (clock w (S n))) ∧
  jwt_signed_with (access_token response) = JWT_SECRET_KEY settings ∧
  jwt_alg (access_token response) = JWT_ALGORITHM settings.
Proof.
  intros Hrun. cbn zeta.
  destruct (token_endpoint_mints _ _ _ _ _ Hrun)
    as (n & uid & scope & Hn & -> & Htype & Hexp & Hscope).
  cbn [jwt_claims jwt_encode iss aud claim_client_id claim_scope exp iat jwt_signed_with
       jwt_alg].
  rewrite Hexp, Hscope. split; [exact Htype|]. do 4 (split; [reflexivity|]).
  split; [apply default_nonempty|]. split; [|split; [|split; [reflexivity|split; [|by split]]]].
  - exists n. split; [exact Hn|]. apply timegm_add_minutes.
  - intros Hnow.
    pose proof (verify_minted settings settings
      {| sub := uid; claim_client_id := client_id form;
         claim_scope := default ""%string (Py.nonempty scope);
         exp := timegm (clock w n
                  + timedelta_minutes (JWT_ACCESS_TOKEN_EXPIRE_MINUTES settings))%Z;
         iat := timegm (clock w (S n));
         iss := SERVER_URL settings; aud := SERVER_URL settings |} now eq_refl) as Hv.
    cbn zeta in Hv. rewrite Hv. rewrite String.eqb_refl. cbn [negb exp aud].
    destruct (Z.ltb_spec (timegm (clock w n
                + timedelta_minutes (JWT_ACCESS_TOKEN_EXPIRE_MINUTES settings))%Z) (timegm now));
      [lia|].
    rewrite String.eqb_refl. reflexivity.
  - exists n. split; [exact Hn|]. split; [apply timegm_add_minutes|reflexivity].
Qed.

Lemma issued_tokens_match_metadata_witness :
  ∃ response,
    (run (token_endpoint default_settings refresh_form) world1).1 = Returned response ∧
    iss (jwt_claims (access_token response)) = "http://localhost:8000"%string ∧
    expires_in response = 3600%Z ∧
    verify_access_token default_settings 1000000%Z (access_token response) =
      Returned (jwt_claims (access_token response)).
Proof.
  destruct (run (token_endpoint default_settings refresh_form) world1) as [o w'] eqn:Hrun.
  assert (∃ response, o = Returned response ∧
            (timegm 1000000 ≤ exp (jwt_claims (access_token response)))%Z)
    as (response & -> & Hexp).
  { apply (f_equal fst) in Hrun. cbn [fst] in Hrun. subst o. vm_compute.
    eexists. split; [reflexivity|]. cbn. discriminate. }
  destruct (issued_tokens_match_metadata default_settings refresh_form world1 w' response
              1000000%Z Hrun) as (_ & Hiss & _ & _ & _ & _ & _ & Hverify & Hexpires & _).
  exists response. split; [reflexivity|]. split; [exact Hiss|].
  split; [exact Hexpires|]. apply Hverify. exact Hexp.
Defined.

(** ** Refused requests *)

Lemma get_authorization_code_draws c w :
  draws (get_authorization_code c w).2 = draws w.
Proof.
  unfold get_authorization_code.
  destruct (authorization_codes (storage w) !! c) as [a|]; [|done].
  cbn. destruct (_ >? _)%Z; [done|]. by destruct (ac_used a).
Qed.

Lemma mark_code_as_used_draws c w :
  draws (mark_code_as_used c w).2 = draws w.
Proof.
  unfold mark_code_as_used.
  destruct (authorization_codes (storage w) !! c) as [a|]; [|done].
  destruct (ac_used a); [done|]. cbn. by destruct (_ >? _)%Z.
Qed.

Lemma get_refresh_token_draws tok w :
  draws (get_refresh_token tok w).2 = draws w.
Proof.
  unfold get_refresh_token.
  destruct (refresh_tokens (storage w) !! tok) as [rt|]; [|done].
  cbn. destruct (_ >? _)%Z; [done|]. by destruct (rt_revoked rt).
Qed.

(** A token request that raises has marked no code, stored no refresh
    token and drawn nothing. *)
Lemma token_endpoint_raised settings form w e :
  (run (token_endpoint settings form) w).1 = Raised e →
  storage (run (token_endpoint settings form) w).2 = storage w ∧
  draws (run (token_endpoint settings form) w).2 = draws w.
Proof.
  unfold token_endpoint. cbn.
  destruct (get_client _ _) as [client|]; cbn; [|done].
  destruct (secret_check_cases client form) as [-> | ->]; cbn; [|done].
  destruct (grant_type form =? "authorization_code")%string.
  - destruct (Py.nonempty (code form)) as [c|]; [|done].
    destruct (Py.nonempty (redirect_uri form)) as [r|]; [|done].
    destruct (Py.nonempty (code_verifier form)) as [v|]; [|done].
    cbn.
    pose proof (get_authorization_code_world c w) as [Hst _].
    pose proof (get_authorization_code_draws c w) as Hd.
    destruct (get_authorization_code c w) as [[a|] w1]; cbn in *; [|done].
    destruct (negb (ac_client_id a =? _)%string); [done|].
    destruct (negb (ac_redirect_uri a =? _)%string); [done|].
    destruct (negb (verify_code_challenge _ _ _)); [done|].
    cbn.
    pose proof (mark_code_as_used_false c w1) as Hfalse.
    pose proof (mark_code_as_used_draws c w1) as Hd'.
    destruct (mark_code_as_used c w1) as [[|] w2]; cbn in *; [discriminate|].
    intros _. split; [by rewrite Hfalse|congruence].
  - destruct (grant_type form =? "refresh_token")%string; [|done].
    destruct (Py.nonempty (refresh_token form)) as [tok|]; [|done].
    cbn.
    pose proof (get_refresh_token_world tok w) as [Hst _].
    pose proof (get_refresh_token_draws tok w) as Hd.
    destruct (get_refresh_token tok w) as [[rt|] w1]; cbn in *; [|done].
    destruct (negb (rt_client_id rt =? _)%string); [done|].
    cbn. discriminate.
Qed.

(** X16: a request that is refused writes nothing: whichever handler
    raises (registration, authorization or token endpoint, for whatever
    reason), the clients, the codes and the refresh tokens are as they were
    before and nothing was drawn from the random source; registration and
    authorization leave the clock untouched as well, and answer with status
    400, the token endpoint with 400 or 401. *)
Theorem refused_requests_write_nothing settings (r : Request) (w : World)
    (e : HTTPException) :
  match r with
  | Register request => (run (register_client request) w).1 = Raised e
  | Authorize response_type client_id redirect_uri code_challenge code_challenge_method
      scope state =>
      (run (authorize settings response_type client_id redirect_uri code_challenge
              code_challenge_method scope state) w).1 = Raised e
  | Token form => (run (token_endpoint settings form) w).1 = Raised e
  end →
  storage (serve settings w r) = storage w ∧
  draws (serve settings w r) = draws w ∧
  match r with
  | Token _ => status_code e = 400%Z ∨ status_code e = 401%Z
  | _ => status_code e = 400%Z ∧ serve settings w r = w
  end.
Proof.
  destruct r as [request | rtype cid redirect challenge method scope state | form];
    cbn [serve].
  - unfold register_client. case_bool_decide; [|discriminate].
    cbn. intros [= <-]. by repeat split.
  - unfold authorize.
    destruct (negb (rtype =? "code")%string); [cbn; intros [= <-]; by repeat split|]. cbn.
    destruct (get_client cid (storage w)) as [client|];
      [|cbn; intros [= <-]; by repeat split].
    destruct (negb (bool_decide _)); [cbn; intros [= <-]; by repeat split|].
    destruct (challenge =? "")%string; [cbn; intros [= <-]; by repeat split|].
    destruct (CodeChallengeMethod_of_value method) as [m|];
      [|cbn; intros [= <-]; by repeat split].
    cbn. discriminate.
  - intros Hrun. destruct (token_endpoint_raised _ _ _ _ Hrun) as [Hst Hd].
    split; [exact Hst|]. split; [exact Hd|].
    destruct (authenticates_or_not form w) as [[client Hauth]|Hbad].
    + left. by eapply authenticated_errors_are_400.
    + right. rewrite (bad_credentials_refused settings form w Hbad) in Hrun.
      cbn in Hrun. by injection Hrun as <-.
Qed.

Lemma refused_requests_write_nothing_witness :
  storage (serve default_settings world1 (Token thief_form)) = storage world1 ∧
  draws (serve default_settings world1 (Token thief_form)) = draws world1.
Proof.
  destruct (refused_requests_write_nothing default_settings (Token thief_form) world1
              (http_error 401 "Invalid client credentials")) as (H1 & H2 & _).
  - vm_compute. reflexivity.
  - split; [exact H1|exact H2].
Defined.

(** ** Authorization *)

Lemma authorize_serves settings cid redirect challenge method m scope state w client :
  get_client cid (storage w) = Some client →
  redirect ∈ rc_redirect_uris client →
  challenge ≠ ""%string →
  CodeChallengeMethod_of_value method = Some m →
  run (authorize settings "code" cid redirect challenge method scope state) w =
    (Returned (redirect +:+ "?code=" +:+ entropy w (draws w) +:+
               match Py.nonempty state with
               | Some st => "&state=" +:+ st
               | None => ""
               end)%string,
     {| storage :=
          store_authorization_code
            {| ac_code := entropy w (draws w);
               ac_client_id := cid;
               ac_redirect_uri := redirect;
               ac_scope := Py.or_else scope (rc_scope client);
               ac_code_challenge := challenge;
               ac_code_challenge_method := m;
               ac_user_id := "mock_user_123";
               ac_expires_at :=
                 (clock w (ticks w)
                  + timedelta_minutes (OAUTH_AUTHORIZATION_CODE_EXPIRE_MINUTES settings))%Z;
               ac_used := false |}
            (storage w);
        clock := clock w;
        ticks := S (ticks w);
        entropy := entropy w;
        draws := S (draws w) |}).
Proof.
  intros Hc Hredirect Hchallenge Hm. unfold authorize. cbn. rewrite Hc.
  rewrite bool_decide_eq_true_2 by exact Hredirect. cbn.
  destruct (String.eqb_spec challenge "") as [->|_]; [contradiction|].
  rewrite Hm. reflexivity.
Qed.

Lemma CodeChallengeMethod_of_value_Some method :
  is_Some (CodeChallengeMethod_of_value method) ↔
  method = "S256"%string ∨ method = "plain"%string.
Proof.
  unfold CodeChallengeMethod_of_value.
  destruct (String.eqb_spec method "S256") as [->|H1]; [split; [by left|by eexists]|].
  destruct (String.eqb_spec method "plain") as [->|H2]; [split; [by right|by eexists]|].
  split; [intros [? [=]]|intros [|]; contradiction].
Qed.

(** X17: the authorization endpoint issues a code exactly when the response
    type is the advertised one, the client is registered, the redirect URI
    is one of the client's registered URIs (compared as whole texts), the
    challenge is not empty and the challenge method is the advertised
    [S256] or [plain], which the metadata does not advertise but the
    endpoint accepts. *)
Theorem authorization_served_iff settings
    (response_type cid redirect challenge method : string) (scope state : option string)
    (w : World) :
  (∃ url w',
     run (authorize settings response_type cid redirect challenge method scope state) w =
       (Returned url, w')) ↔
  response_type ∈ as_response_types_supported (authorization_server_metadata settings) ∧
  (∃ client, get_client cid (storage w) = Some client ∧
             redirect ∈ rc_redirect_uris client) ∧
  challenge ≠ ""%string ∧
  (method ∈ as_code_challenge_methods_supported (authorization_server_metadata settings) ∨
   method = "plain"%string ∧
   method ∉ as_code_challenge_methods_supported (authorization_server_metadata settings)).
Proof.
  cbn [as_response_types_supported as_code_challenge_methods_supported
       authorization_server_metadata].
  split.
  - intros (url & w' & Hrun). revert Hrun. unfold authorize.
    destruct (String.eqb_spec response_type "code") as [->|]; [|discriminate]. cbn.
    destruct (get_client cid (storage w)) as [client|]; [|discriminate].
    case_bool_decide as Hredirect; [|discriminate]. cbn.
    destruct (String.eqb_spec challenge "") as [|Hchallenge]; [discriminate|].
    destruct (CodeChallengeMethod_of_value method) as [m|] eqn:Hm; [|discriminate].
    intros _. split; [left|]. split; [by exists client|]. split; [exact Hchallenge|].
    destruct (proj1 (CodeChallengeMethod_of_value_Some method)) as [-> | ->];
      [by eexists|left; left|].
    right. split; [reflexivity|]. intros Hin. apply list_elem_of_singleton in Hin. discriminate.
  - intros (Hrtype & (client & Hc & Hredirect) & Hchallenge & Hmethod).
    apply list_elem_of_singleton in Hrtype as ->.
    assert (is_Some (CodeChallengeMethod_of_value method)) as [m Hm].
    { apply CodeChallengeMethod_of_value_Some.
      destruct Hmethod as [Hin | [-> _]]; [|by right].
      apply list_elem_of_singleton in Hin. by left. }
    eexists _, _. by eapply authorize_serves.
Qed.

Lemma s256_challenge_nonempty (verifier : string) :
  PKCEHelper.generate_code_challenge verifier ≠ ""%string.
Proof.
  unfold PKCEHelper.generate_code_challenge. cbn zeta. intros Hempty.
  pose proof (unpadded_length _ (digest_bytes (Py.encode_utf8 verifier))) as H.
  rewrite Hempty, digest_length in H. cbn in H. lia.
Qed.

(** X18: authorization followed by redemption: when a registered client is
    authorized with the S256 challenge of a verifier and one of its redirect
    URIs, the code sits at the end of the redirect URL, and the token request
    that sends this code, the same redirect URI and the verifier, with the
    client's secret or none, is served while the clock has not passed the
    code's lifetime. The tokens are issued to the mock user with the scope
    asked for or, when none was asked for, the client's registered scope:
    the scope asked for is granted as it is. *)
Theorem authorized_code_redeems settings (cid redirect verifier : string)
    (scope state : option string) (form : TokenForm) (w : World)
    (client : RegisteredClient) :
  get_client cid (storage w) = Some client →
  redirect ∈ rc_redirect_uris client →
  grant_type form = "authorization_code"%string →
  Py.nonempty (code form) = Some (entropy w (draws w)) →
  Py.nonempty (redirect_uri form) = Some redirect →
  Py.nonempty (code_verifier form) = Some verifier →
  client_id form = cid →
  client_secret form = None ∨ client_secret form = rc_client_secret client →
  (clock w (1 + ticks w) ≤
     clock w (ticks w)
     + timedelta_minutes (OAUTH_AUTHORIZATION_CODE_EXPIRE_MINUTES settings))%Z →
  (clock w (2 + ticks w) ≤
     clock w (ticks w)
     + timedelta_minutes (OAUTH_AUTHORIZATION_CODE_EXPIRE_MINUTES settings))%Z →
  ∃ w1 response w2,
    run (authorize settings "code" cid redirect
           (PKCEHelper.generate_code_challenge verifier) "S256" scope state) w =
      (Returned (redirect +:+ "?code=" +:+ entropy w (draws w) +:+
                 match Py.nonempty state with
                 | Some st => "&state=" +:+ st
                 | None => ""
                 end)%string, w1) ∧
    run (token_endpoint settings form) w1 = (Returned response, w2) ∧
    sub (jwt_claims (access_token response)) = "mock_user_123"%string ∧
    claim_client_id (jwt_claims (access_token response)) = cid ∧
    tr_scope response = Py.or_else scope (rc_scope client) ∧
    tr_refresh_token response = Some (entropy w (S (draws w))) ∧
    (∃ a, authorization_codes (storage w2) !! entropy w (draws w) = Some a ∧
          ac_used a = true).
Proof.
  intros Hc Hredirect Hg Hcode Hr Hv Hid Hs Hclock1 Hclock2.
  eexists _, _, _.
  split.
  { apply (authorize_serves settings cid redirect _ "S256" S256 scope state w client);
      [exact Hc|exact Hredirect|apply s256_challenge_nonempty|reflexivity]. }
  split.
  { eapply (redeem_serves settings form _ client _ (entropy w (draws w)) redirect verifier).
    - split; [|exact Hs]. rewrite Hid. exact Hc.
    - exact Hg.
    - exact Hcode.
    - exact Hr.
    - exact Hv.
    - cbn. unfold store_authorization_code. cbn. apply lookup_insert_eq.
    - reflexivity.
    - cbn. exact Hclock1.
    - cbn. exact Hclock2.
    - cbn. symmetry. exact Hid.
    - reflexivity.
    - cbn. unfold verify_code_challenge, generate_code_challenge,
        PKCEHelper.generate_code_challenge. cbn zeta. apply String.eqb_refl. }
  cbn. split; [reflexivity|]. split; [exact Hid|]. split; [reflexivity|].
  split; [reflexivity|].
  eexists. unfold store_refresh_token, store_authorization_code. cbn.
  split; [apply lookup_insert_eq|reflexivity].
Qed.

Lemma authorized_code_redeems_witness :
  ∃ w1 response w2,
    run (authorize default_settings "code" "client_a" "https://a/cb"
           (PKCEHelper.generate_code_challenge sample_verifier) "S256" None
           (Some "xyz"%string)) world_client =
      (Returned "https://a/cb?code=a&state=xyz"%string, w1) ∧
    run (token_endpoint default_settings flow_form) w1 = (Returned response, w2) ∧
    sub (jwt_claims (access_token response)) = "mock_user_123"%string ∧
    tr_scope response = Some "mcp:tools:read mcp:tools:execute"%string ∧
    tr_refresh_token response = Some "b"%string.
Proof.
  destruct (authorized_code_redeems default_settings "client_a" "https://a/cb"
              sample_verifier None (Some "xyz"%string) flow_form world_client sample_client)
    as (w1 & response & w2 & H1 & H2 & H3 & _ & H4 & H5 & _).
  - reflexivity.
  - left.
  - reflexivity.
  - reflexivity.
  - reflexivity.
  - reflexivity.
  - reflexivity.
  - right. reflexivity.
  - vm_compute. discriminate.
  - vm_compute. discriminate.
  - exists w1, response, w2. split; [exact H1|]. split; [exact H2|].
    split; [exact H3|]. split; [exact H4|exact H5].
Defined.

(** ** Registration *)

Lemma register_serves request w :
  req_redirect_uris request ≠ [] →
  run (register_client request) w =
    (Returned
       {| resp_client_id := "client_" +:+ entropy w (draws w);
          resp_client_secret := Some (entropy w (S (draws w)));
          resp_client_secret_expires_at := 0;
          resp_redirect_uris := req_redirect_uris request;
          resp_client_name := req_client_name request;
          resp_client_uri := Py.nonempty (req_client_uri request);
          resp_scope :=
            Py.or_else (req_scope request) (Some "mcp:tools:read mcp:tools:execute"%string);
          resp_grant_types :=
            list_or (req_grant_types request) ["authorization_code"; "refresh_token"]%string;
          resp_response_types := list_or (req_response_types request) ["code"%string];
          resp_registration_client_uri := None;
          resp_registration_access_token := None |},
     {| storage :=
          store_client
            {| rc_client_id := "client_" +:+ entropy w (draws w);
               rc_client_secret := Some (entropy w (S (draws w)));
               rc_redirect_uris := req_redirect_uris request;
               rc_client_name := req_client_name request;
               rc_client_uri := Py.nonempty (req_client_uri request);
               rc_scope :=
                 Py.or_else (req_scope request)
                   (Some "mcp:tools:read mcp:tools:execute"%string);
               rc_grant_types :=
                 list_or (req_grant_types request)
                   ["authorization_code"; "refresh_token"]%string;
               rc_response_types := list_or (req_response_types request) ["code"%string];
               rc_created_at := clock w (ticks w) |}
            (storage w);
        clock := clock w;
        ticks := S (ticks w);
        entropy := entropy w;
        draws := S (S (draws w)) |}).
Proof.
  intros Huris. unfold register_client. case_bool_decide; [contradiction|]. reflexivity.
Qed.

(** X19: a registration with redirect URIs always issues a secret that
    never expires; a missing or empty scope becomes the two tool scopes, a
    missing or empty list of grant types becomes the two grants, a missing
    or empty list of response types becomes [code], and whatever else was
    sent (redirect URIs, name, scope, grant types, response types) is kept
    as it is, unchecked. The new client is stored under [client_] followed
    by the drawn identifier, with the secret, redirect URIs, scope, grant
    types and response types of the response and the clock reading of the
    registration, so that [get_client] returns it; every other client,
    every code and every refresh token is left as it was. *)
Theorem registration_defaults (request : ClientRegistrationRequest) (w : World) :
  req_redirect_uris request ≠ [] →
  ∃ response w',
    run (register_client request) w = (Returned response, w') ∧
    resp_client_id response = ("client_" +:+ entropy w (draws w))%string ∧
    resp_client_secret response = Some (entropy w (S (draws w))) ∧
    resp_client_secret_expires_at response = 0%Z ∧
    (Py.nonempty (req_scope request) = None →
       resp_scope response = Some "mcp:tools:read mcp:tools:execute"%string) ∧
    (∀ s, Py.nonempty (req_scope request) = Some s → resp_scope response = Some s) ∧
    (req_grant_types request = None ∨ req_grant_types request = Some [] →
       resp_grant_types response = ["authorization_code"; "refresh_token"]%string) ∧
    (∀ g gs, req_grant_types request = Some (g :: gs) →
       resp_grant_types response = g :: gs) ∧
    (req_response_types request = None ∨ req_response_types request = Some [] →
       resp_response_types response = ["code"%string]) ∧
    (∀ k, k ≠ resp_client_id response →
       clients (storage w') !! k = clients (storage w) !! k) ∧
    authorization_codes (storage w') = authorization_codes (storage w) ∧
    refresh_tokens (storage w') = refresh_tokens (storage w) ∧
    (∀ t ts, req_response_types request = Some (t :: ts) →
       resp_response_types response = t :: ts) ∧
    resp_redirect_uris response = req_redirect_uris request ∧
    resp_client_name response = req_client_name request ∧
    resp_client_uri response = Py.nonempty (req_client_uri request) ∧
    get_client (resp_client_id response) (storage w') =
      Some {| rc_client_id := resp_client_id response;
              rc_client_secret := resp_client_secret response;
              rc_redirect_uris := req_redirect_uris request;
              rc_client_name := req_client_name request;
              rc_client_uri := resp_client_uri response;
              rc_scope := resp_scope response;
              rc_grant_types := resp_grant_types response;
              rc_response_types := resp_response_types response;
              rc_created_at := clock w (ticks w) |}.
Proof.
  intros Huris. eexists _, _. split; [by apply register_serves|]. cbn.
  split; [reflexivity|]. split; [reflexivity|]. split; [reflexivity|].
  split_and!.
  - intros Hnone. unfold Py.or_else. by rewrite Hnone.
  - intros s Hs. unfold Py.or_else. by rewrite Hs.
  - by intros [-> | ->].
  - by intros g gs ->.
  - by intros [-> | ->].
  - intros k Hk. by rewrite lookup_insert_ne.
  - reflexivity.
  - reflexivity.
  - by intros t ts ->.
  - reflexivity.
  - reflexivity.
  - reflexivity.
  - unfold get_client, store_client. cbn. apply lookup_insert_eq.
Qed.

Lemma registration_defaults_witness :
  ∃ response w' client,
    run (register_client (sample_request ["https://a/cb"%string])) world1 =
      (Returned response, w') ∧
    resp_client_id response = "client_a"%string ∧
    resp_scope response = Some "mcp:tools:read mcp:tools:execute"%string ∧
    resp_grant_types response = ["authorization_code"; "refresh_token"]%string ∧
    get_client "client_a" (storage w') = Some client ∧
    rc_client_secret client = Some "b"%string ∧
    rc_redirect_uris client = ["https://a/cb"%string].
Proof.
  destruct (registration_defaults (sample_request ["https://a/cb"%string]) world1)
    as (response & w' & H1 & H2 & H3 & _ & H4 & _ & H5 & _ & _ & _ & _ & _ & _ & _ & _ & _ & H6);
    [discriminate|].
  change ("client_" +:+ entropy world1 (draws world1))%string with "client_a"%string in H2.
  rewrite H2 in H6.
  eexists response, w', _. split; [exact H1|]. split; [exact H2|].
  split; [apply H4; reflexivity|]. split; [apply H5; left; reflexivity|].
  split; [exact H6|]. split; [exact H3|reflexivity].
Defined.

(** ** The storage in the states the server reaches *)

Lemma consistent_empty : consistent empty_storage.
Proof. split_and!; intros k x H; cbn in H; by rewrite lookup_empty in H. Qed.

Lemma register_client_consistent request w :
  consistent (storage w) → consistent (storage (run (register_client request) w).2).
Proof.
  intros Hcons. pose proof Hcons as (Hcl & Hco & Hrt).
  unfold register_client. case_bool_decide as Huris; [exact Hcons|]. cbn.
  split_and!.
  - intros k client. unfold store_client. cbn. rewrite lookup_insert. case_decide as Hk.
    + intros [= <-]. cbn. split; [exact Hk|]. split; [by eexists|exact Huris].
    + apply Hcl.
  - intros k a Ha. destruct (Hco k a Ha) as (H1 & H2 & H3).
    split; [exact H1|]. split; [|exact H3]. apply lookup_insert_is_Some'. by right.
  - intros k rt Hk. destruct (Hrt k rt Hk) as (H1 & H2 & H3 & H4).
    split; [exact H1|]. split; [|by split]. apply lookup_insert_is_Some'. by right.
Qed.

Lemma authorize_consistent settings response_type cid redirect challenge method scope state w :
  consistent (storage w) →
  consistent (storage (run (authorize settings response_type cid redirect challenge method
                              scope state) w).2).
Proof.
  intros Hcons. pose proof Hcons as (Hcl & Hco & Hrt). unfold authorize.
  destruct (negb (response_type =? "code")%string); [exact Hcons|]. cbn.
  destruct (get_client cid (storage w)) as [client|] eqn:Hclient; [|exact Hcons].
  destruct (negb (bool_decide _)); [exact Hcons|].
  destruct (challenge =? "")%string; [exact Hcons|].
  destruct (CodeChallengeMethod_of_value method) as [m|]; [|exact Hcons].
  cbn. split; [exact Hcl|]. split; [|exact Hrt].
  intros k a. unfold store_authorization_code. cbn. rewrite lookup_insert. case_decide as Hk.
  - intros [= <-]. cbn. split; [exact Hk|]. split; [by eexists|reflexivity].
  - apply Hco.
Qed.

Lemma token_endpoint_consistent settings form w :
  consistent (storage w) → consistent (storage (run (token_endpoint settings form) w).2).
Proof.
  intros Hcons.
  destruct (run (token_endpoint settings form) w) as [[response|e] w'] eqn:Hrun.
  2:{ pose proof (token_endpoint_raised settings form w e) as Hraised.
      rewrite Hrun in Hraised. cbn in *. destruct Hraised as [-> _]; [reflexivity|].
      exact Hcons. }
  destruct (String.eqb_spec (grant_type form) "authorization_code") as [Hg|Hg].
  2:{ destruct (String.eqb_spec (grant_type form) "refresh_token") as [Hr|Hr].
      - pose proof (refresh_grant_reads_only settings form w Hr) as [Hst _].
        rewrite Hrun in Hst. cbn in *. by rewrite Hst.
      - exfalso. revert Hrun. unfold token_endpoint. cbn.
        destruct (get_client _ _) as [client|]; cbn; [|discriminate].
        destruct (secret_check_cases client form) as [-> | ->]; cbn; [|discriminate].
        destruct (String.eqb_spec (grant_type form) "authorization_code"); [contradiction|].
        destruct (String.eqb_spec (grant_type form) "refresh_token"); [contradiction|].
        discriminate. }
  destruct (redeem_returned _ _ _ _ _ Hg Hrun)
    as (client & c & r & v & a & H1 & H2 & H3 & H4 & H5 & H6 & H7 & H8 & H9 & H10 & H11 & _).
  rewrite (redeem_serves settings form w client a c r v) in Hrun by assumption.
  injection Hrun as _ <-. unfold store_refresh_token. cbn.
  destruct Hcons as (Hcl & Hco & Hrt). destruct (Hco c a H5) as (Ha1 & Ha2 & Ha3).
  split; [exact Hcl|]. split.
  - intros k a'. cbn. rewrite lookup_insert. case_decide as Hk.
    + intros [= <-]. cbn. subst k. by repeat split.
    + apply Hco.
  - intros k rt. cbn. rewrite lookup_insert. case_decide as Hk.
    + intros [= <-]. cbn. split; [exact Hk|]. split; [|by split].
      destruct H1 as [Hc _]. unfold get_client in Hc. by eexists.
    + apply Hrt.
Qed.

(** X20: in every state the server reaches from an empty storage, every
    client, code and refresh token is filed under its own identifier, every
    client has a secret and at least one redirect URI, every code and every
    refresh token belongs to a client that is registered and to the mock
    user, and no refresh token is revoked: no handler ever revokes one. *)
Theorem reachable_storage_is_consistent settings (w : World) :
  reachable settings w → consistent (storage w).
Proof.
  intros (w0 & requests & Hw0 & ->).
  assert (consistent (storage w0)) as Hcons by (rewrite Hw0; apply consistent_empty).
  clear Hw0. revert w0 Hcons.
  induction requests as [|r requests IH]; intros w0 Hcons; [exact Hcons|].
  cbn [fold_left]. apply IH. destruct r; cbn [serve].
  - by apply register_client_consistent.
  - by apply authorize_consistent.
  - by apply token_endpoint_consistent.
Qed.

Lemma reachable_storage_is_consistent_witness :
  consistent
    (storage (fold_left (serve default_settings)
       [Register (sample_request ["https://a/cb"%string]);
        Authorize "code" "client_a" "https://a/cb"
          "E9Melhoa2OwvFrEMTJguCHaoeK1t8URWbuGJSstw-cM" "S256" None None]
       world0)).
Proof.
  apply (reachable_storage_is_consistent default_settings).
  exists world0, [Register (sample_request ["https://a/cb"%string]);
                  Authorize "code" "client_a" "https://a/cb"
                    "E9Melhoa2OwvFrEMTJguCHaoeK1t8URWbuGJSstw-cM" "S256" None None].
  split; reflexivity.
Defined.

(** ** The refresh grant, and what the token endpoint reads of a client *)

(** X21: the refresh grant is served exactly when the client check passes
    and the token presented is stored, not revoked, not past its expiry at
    the clock reading of the lookup, and was issued to this client; the
    request then reads the clock three times and leaves the storage as it
    was, the token neither rotated nor revoked. *)
Theorem refresh_served_iff settings (form : TokenForm) (w : World) :
  grant_type form = "refresh_token"%string →
  ((∃ response w', run (token_endpoint settings form) w = (Returned response, w')) ↔
   (∃ client tok rt,
      authenticates client form w ∧
      Py.nonempty (refresh_token form) = Some tok ∧
      refresh_tokens (storage w) !! tok = Some rt ∧
      rt_revoked rt = false ∧
      (clock w (ticks w) ≤ rt_expires_at rt)%Z ∧
      rt_client_id rt = client_id form)) ∧
  (∀ response w',
     run (token_endpoint settings form) w = (Returned response, w') →
     w' = (utcnow (utcnow (utcnow w).2).2).2 ∧
     tr_refresh_token response = Py.nonempty (refresh_token form)).
Proof.
  intros Hg.
  assert (∀ response w',
            run (token_endpoint settings form) w = (Returned response, w') →
            (∃ client tok rt,
               authenticates client form w ∧
               Py.nonempty (refresh_token form) = Some tok ∧
               refresh_tokens (storage w) !! tok = Some rt ∧
               rt_revoked rt = false ∧
               (clock w (ticks w) ≤ rt_expires_at rt)%Z ∧
               rt_client_id rt = client_id form) ∧
            w' = (utcnow (utcnow (utcnow w).2).2).2 ∧
            tr_refresh_token response = Py.nonempty (refresh_token form)) as Hforward.
  { intros response w'. unfold token_endpoint. cbn.
    destruct (get_client _ _) as [client|] eqn:Hc; cbn; [|discriminate].
    intros Hrun.
    assert (client_secret form = None ∨ client_secret form = rc_client_secret client) as Hs.
    { destruct (client_secret form) as [secret|]; [|by left].
      cbn in Hrun. case_bool_decide; [by right|discriminate]. }
    rewrite (secret_check_passes _ _ Hs) in Hrun. cbn in Hrun. rewrite Hg in Hrun.
    cbn in Hrun.
    destruct (Py.nonempty (refresh_token form)) as [tok|]; [|discriminate].
    cbn in Hrun.
    pose proof (get_refresh_token_fst tok w) as Hfst.
    assert (∀ rt, refresh_tokens (storage w) !! tok = Some rt →
                  (get_refresh_token tok w).2 = (utcnow w).2) as Hsnd.
    { intros rt Hrt. unfold get_refresh_token. rewrite Hrt. cbn.
      destruct (_ >? _)%Z; [reflexivity|]. by destruct (rt_revoked rt). }
    destruct (get_refresh_token tok w) as [[rt|] w1]; [|discriminate].
    cbn in Hfst, Hsnd.
    destruct (refresh_tokens (storage w) !! tok) as [rt'|] eqn:Hrt; [|discriminate].
    destruct (Z.gtb_spec (clock w (ticks w)) (rt_expires_at rt')) as [|Hnow]; [discriminate|].
    destruct (rt_revoked rt') eqn:Hrev; [discriminate|].
    injection Hfst as ->. rewrite (Hsnd rt' eq_refl) in Hrun.
    destruct (String.eqb_spec (rt_client_id rt') (client_id form)) as [Hid|];
      [|discriminate].
    cbn in Hrun. injection Hrun as <- <-.
    split; [|by split]. exists client, tok, rt'. by repeat split. }
  split; [split|].
  - intros (response & w' & Hrun). by destruct (Hforward _ _ Hrun) as [H _].
  - intros (client & tok & rt & Hauth & Htok & Hrt & Hrev & Hnow & Hid).
    destruct (refresh_once settings form w client rt tok) as (response & Hrun & _);
      try done.
    destruct (run (token_endpoint settings form) w) as [o w']. cbn in Hrun. subst o.
    by exists response, w'.
  - intros response w' Hrun. by destruct (Hforward _ _ Hrun) as [_ H].
Qed.

Lemma refresh_served_iff_witness :
  ∃ response w', run (token_endpoint default_settings refresh_form) world1 =
                   (Returned response, w').
Proof.
  destruct (refresh_served_iff default_settings refresh_form world1) as [H _];
    [reflexivity|].
  apply H. exists sample_client, "rtok"%string, sample_refresh.
  split; [split; [reflexivity|left; reflexivity]|].
  repeat (split; [vm_compute; first [reflexivity | discriminate]|]).
  reflexivity.
Defined.

(** The storage operations of the token endpoint do not look at the
    clients. *)
Lemma get_authorization_code_clients f c w :
  get_authorization_code c (with_storage (with_clients f) w) =
    ((get_authorization_code c w).1,
     with_storage (with_clients f) (get_authorization_code c w).2).
Proof.
  unfold get_authorization_code. cbn.
  destruct (authorization_codes (storage w) !! c) as [a|]; [|reflexivity].
  destruct (_ >? _)%Z; [reflexivity|]. by destruct (ac_used a).
Qed.

Lemma mark_code_as_used_clients f c w :
  mark_code_as_used c (with_storage (with_clients f) w) =
    ((mark_code_as_used c w).1,
     with_storage (with_clients f) (mark_code_as_used c w).2).
Proof.
  unfold mark_code_as_used. cbn.
  destruct (authorization_codes (storage w) !! c) as [a|]; [|reflexivity].
  destruct (ac_used a); [reflexivity|]. by destruct (_ >? _)%Z.
Qed.

Lemma get_refresh_token_clients f tok w :
  get_refresh_token tok (with_storage (with_clients f) w) =
    ((get_refresh_token tok w).1,
     with_storage (with_clients f) (get_refresh_token tok w).2).
Proof.
  unfold get_refresh_token. cbn.
  destruct (refresh_tokens (storage w) !! tok) as [rt|]; [|reflexivity].
  destruct (_ >? _)%Z; [reflexivity|]. by destruct (rt_revoked rt).
Qed.

Lemma token_endpoint_clients settings form w client client' :
  clients (storage w) !! client_id form = Some client →
  rc_client_secret client' = rc_client_secret client →
  run (token_endpoint settings form)
      (with_storage (with_clients <[client_id form := client']>) w) =
    ((run (token_endpoint settings form) w).1,
     with_storage (with_clients <[client_id form := client']>)
       (run (token_endpoint settings form) w).2).
Proof.
  intros Hc Hs. unfold token_endpoint. cbn. unfold get_client. cbn.
  rewrite lookup_insert_eq, Hc. cbn. rewrite Hs.
  destruct (secret_check_cases client form) as [-> | ->]; cbn; [|reflexivity].
  destruct (grant_type form =? "authorization_code")%string.
  - destruct (Py.nonempty (code form)) as [c|]; [|reflexivity].
    destruct (Py.nonempty (redirect_uri form)) as [r|]; [|reflexivity].
    destruct (Py.nonempty (code_verifier form)) as [v|]; [|reflexivity].
    cbn. rewrite get_authorization_code_clients.
    destruct (get_authorization_code c w) as [[a|] w1]; cbn; [|reflexivity].
    destruct (negb (ac_client_id a =? _)%string); [reflexivity|].
    destruct (negb (ac_redirect_uri a =? _)%string); [reflexivity|].
    destruct (negb (verify_code_challenge _ _ _)); [reflexivity|].
    cbn. rewrite mark_code_as_used_clients.
    destruct (mark_code_as_used c w1) as [[|] w2]; cbn; reflexivity.
  - destruct (grant_type form =? "refresh_token")%string; [|reflexivity].
    destruct (Py.nonempty (refresh_token form)) as [tok|]; [|reflexivity].
    cbn. rewrite get_refresh_token_clients.
    destruct (get_refresh_token tok w) as [[rt|] w1]; cbn; [|reflexivity].
    destruct (negb (rt_client_id rt =? _)%string); reflexivity.
Qed.

(** X22: of the client's registration the token endpoint reads the secret
    and nothing else: replace the stored record by any other with the same
    secret (other grant types, redirect URIs, scope, name) and every token
    request has the same outcome and the same effect on codes and refresh
    tokens. A client registered for the authorization-code grant alone is
    served the refresh grant all the same. *)
Theorem token_endpoint_reads_only_the_secret settings (form : TokenForm) (w : World)
    (client client' : RegisteredClient) :
  clients (storage w) !! client_id form = Some client →
  rc_client_secret client' = rc_client_secret client →
  let w' := with_storage (with_clients <[client_id form := client']>) w in
  (run (token_endpoint settings form) w').1 = (run (token_endpoint settings form) w).1 ∧
  authorization_codes (storage (run (token_endpoint settings form) w').2) =
    authorization_codes (storage (run (token_endpoint settings form) w).2) ∧
  refresh_tokens (storage (run (token_endpoint settings form) w').2) =
    refresh_tokens (storage (run (token_endpoint settings form) w).2).
Proof.
  intros Hc Hs. cbn zeta.
  rewrite (token_endpoint_clients settings form w client client' Hc Hs).
  by repeat split.
Qed.

Lemma token_endpoint_reads_only_the_secret_witness :
  ∃ response,
    (run (token_endpoint default_settings refresh_form)
       (with_storage (with_clients <["client_a"%string := sample_client_narrow]>) world1)).1 =
      Returned response.
Proof.
  destruct (token_endpoint_reads_only_the_secret default_settings refresh_form world1
              sample_client sample_client_narrow) as (H & _ & _);
    [reflexivity|reflexivity|].
  cbn zeta in H. change (client_id refresh_form) with "client_a"%string in H.
  rewrite H. vm_compute. by eexists.
Defined.
